(** * NGSI-LD entity translation and broker exchange
    (lib/services/ngsi/entities-NGSI-LD.js)

    A shallow embedding of the attribute caster ([splitLngLat], [getLngLats],
    [convertNGSIv2ToLD]), the envelope encoder ([formatAsNGSILD]), the response
    classifier ([generateNGSILDOperationHandler]) and the two entry points
    ([sendQueryValueNgsiLD], [sendUpdateValueNgsiLD]), followed by the
    properties established about them. *)

From Stdlib Require Import String Ascii List ZArith Bool Arith Lia.
Import ListNotations.
Local Open Scope string_scope.
Local Open Scope list_scope.

Set Implicit Arguments.
Set Warnings "-register-all".

(** ** JavaScript runtime: numbers *)

(** A JavaScript Number is represented by the decimal numeral that denotes it:
    [Finite m e] stands for the Number nearest to [m * 10 ^ e].  Numerals are
    kept normalised (no trailing zero in the mantissa, zero as [Finite 0 0]),
    so equal numerals are equal terms.  The sign of zero is not represented. *)
Inductive number : Type :=
| NaN
| Infinity (negative : bool)
| Finite (mantissa exponent : Z).

Fixpoint strip_zeros (fuel : nat) (m e : Z) : Z * Z :=
  match fuel with
  | O => (m, e)
  | S fuel' =>
      if (m mod 10 =? 0)%Z then strip_zeros fuel' (m / 10)%Z (e + 1)%Z else (m, e)
  end.

Definition decimal (m e : Z) : number :=
  if (m =? 0)%Z then Finite 0 0
  else let '(m', e') := strip_zeros (Z.to_nat (Z.log2 (Z.abs m))) m e in Finite m' e'.

(** [isNaN] on a value that is already a Number. *)
Definition isNaN (n : number) : bool :=
  match n with NaN => true | _ => false end.

(** ** JavaScript runtime: strings *)

Definition is_whitespace (c : ascii) : bool :=
  let n := nat_of_ascii c in
  ((n =? 9) || (n =? 10) || (n =? 11) || (n =? 12) || (n =? 13) || (n =? 32))%nat%bool.

Fixpoint trimStart (s : string) : string :=
  match s with
  | String c s' => if is_whitespace c then trimStart s' else s
  | EmptyString => EmptyString
  end.

Definition digit_of (c : ascii) : option Z :=
  let n := nat_of_ascii c in
  if ((48 <=? n) && (n <=? 57))%nat%bool then Some (Z.of_nat (n - 48)) else None.

Definition hex_digit_of (c : ascii) : option Z :=
  let n := nat_of_ascii c in
  if ((48 <=? n) && (n <=? 57))%nat%bool then Some (Z.of_nat (n - 48))
  else if ((65 <=? n) && (n <=? 70))%nat%bool then Some (Z.of_nat (n - 55))
  else if ((97 <=? n) && (n <=? 102))%nat%bool then Some (Z.of_nat (n - 87))
  else None.

(** Longest run of digits at the head of [s], read in base [radix] after the
    digits already accumulated in [acc]: the value, the number of digits read
    and the rest of the string. *)
Fixpoint read_digits (digit : ascii -> option Z) (radix : Z) (s : string) (acc : Z) (count : nat)
  : Z * nat * string :=
  match s with
  | String c s' =>
      match digit c with
      | Some d => read_digits digit radix s' (acc * radix + d)%Z (S count)
      | None => (acc, count, s)
      end
  | EmptyString => (acc, count, s)
  end.

Definition read_sign (s : string) : bool * string :=
  match s with
  | String "-" s' => (true, s')
  | String "+" s' => (false, s')
  | _ => (false, s)
  end.

Definition signed (negative : bool) (m : Z) : Z := if negative then (- m)%Z else m.

(** The exponent part of a decimal literal: [e] or [E], an optional sign and at
    least one digit; anything else is not part of the literal. *)
Definition read_exponent (s : string) : Z :=
  match s with
  | String c s' =>
      if (Ascii.eqb c "e" || Ascii.eqb c "E")%bool then
        let '(negative, s'') := read_sign s' in
        let '(v, count, _) := read_digits digit_of 10 s'' 0%Z 0 in
        match count with O => 0%Z | S _ => signed negative v end
      else 0%Z
  | EmptyString => 0%Z
  end.

(** [Number.parseFloat] on a string: leading white space is skipped and the
    longest prefix that is a decimal literal is read; [NaN] when there is none. *)
Definition parseFloat_string (s : string) : number :=
  let '(negative, s1) := read_sign (trimStart s) in
  if prefix "Infinity" s1 then Infinity negative
  else
    let '(int_part, int_count, s2) := read_digits digit_of 10 s1 0%Z 0 in
    let '(m, frac_count, s3) :=
      match s2 with
      | String "." s2' => read_digits digit_of 10 s2' int_part 0
      | _ => (int_part, 0, s2)
      end in
    match int_count + frac_count with
    | O => NaN
    | S _ => decimal (signed negative m) (read_exponent s3 - Z.of_nat frac_count)
    end.

(** [Number.parseInt] on a string with no radix argument: base 10, or base 16
    after a [0x] prefix. *)
Definition parseInt_string (s : string) : number :=
  let '(negative, s1) := read_sign (trimStart s) in
  let '(v, count, _) :=
    match s1 with
    | String "0" (String x s2) =>
        if (Ascii.eqb x "x" || Ascii.eqb x "X")%bool then read_digits hex_digit_of 16 s2 0%Z 0
        else read_digits digit_of 10 s1 0%Z 0
    | _ => read_digits digit_of 10 s1 0%Z 0
    end in
  match count with
  | O => NaN
  | S _ => decimal (signed negative v) 0
  end.

Definition lower_char (c : ascii) : ascii :=
  let n := nat_of_ascii c in
  if ((65 <=? n) && (n <=? 90))%nat%bool then ascii_of_nat (n + 32) else c.

(** [String.prototype.toLowerCase]; bytes outside A-Z are kept, which is exact
    for every comparison against the lower-case ASCII tags of the source. *)
Fixpoint toLowerCase (s : string) : string :=
  match s with
  | String c s' => String (lower_char c) (toLowerCase s')
  | EmptyString => EmptyString
  end.

(** [s.split(sep)] for a one-character separator. *)
Fixpoint split_aux (sep : ascii) (s : string) (current : string) : list string :=
  match s with
  | String c s' =>
      if Ascii.eqb c sep then current :: split_aux sep s' EmptyString
      else split_aux sep s' (current ++ String c EmptyString)
  | EmptyString => [current]
  end.

Definition split (sep : ascii) (s : string) : list string := split_aux sep s EmptyString.

(** [s.includes(c)] for a one-character needle. *)
Fixpoint includes_char (c : ascii) (s : string) : bool :=
  match s with
  | String c' s' => (Ascii.eqb c c' || includes_char c s')%bool
  | EmptyString => false
  end.

(** [s.includes(needle)]. *)
Fixpoint includes (needle s : string) : bool :=
  (prefix needle s ||
   match s with
   | String _ s' => includes needle s'
   | EmptyString => false
   end)%bool.

(** [s.startsWith(p)]. *)
Definition startsWith (p s : string) : bool := prefix p s.

Definition member (s : string) (l : list string) : bool := existsb (String.eqb s) l.


(** ** JavaScript runtime: values, objects, exceptions *)

(** Plain data as it travels through the module: JSON values, plus
    [undefined] and the non-finite Numbers. *)
Inductive value : Type :=
| VUndefined
| VNull
| VBool (b : bool)
| VNum (n : number)
| VStr (s : string)
| VArr (items : list value)
| VObj (fields : list (string * value)).

(** An object is its list of own properties in the order in which
    [Object.keys] and [for ... in] visit them: the names that are array
    indices first, in ascending order, then the other names in the order of
    their creation; keys are unique, as in JavaScript. *)
Definition object : Type := list (string * value).

Fixpoint lookup {A : Type} (k : string) (o : list (string * A)) : option A :=
  match o with
  | [] => None
  | (k', v) :: o' => if String.eqb k k' then Some v else lookup k o'
  end.

Definition has_key {A : Type} (k : string) (o : list (string * A)) : bool :=
  match lookup k o with Some _ => true | None => false end.

(** The array index that a property name denotes, if any: the name is the
    canonical decimal numeral (no sign, no leading zero) of an integer from 0
    to 2^32 - 2. *)
Fixpoint decimal_numeral (s : string) (acc : Z) : option Z :=
  match s with
  | EmptyString => Some acc
  | String c s' =>
      match digit_of c with
      | Some d => decimal_numeral s' (10 * acc + d)%Z
      | None => None
      end
  end.

Definition array_index (k : string) : option Z :=
  match k with
  | EmptyString => None
  | String c rest =>
      if (Ascii.eqb c "0" && negb (String.eqb rest ""))%bool then None
      else match decimal_numeral k 0 with
           | Some n => if (n <=? 4294967294)%Z then Some n else None
           | None => None
           end
  end.

(** Whether a new property named [k] is listed before the property named
    [k']: an array index before a greater one and before every other name. *)
Definition listed_before (k k' : string) : bool :=
  match array_index k, array_index k' with
  | Some n, Some n' => (n <? n')%Z
  | Some _, None => true
  | None, _ => false
  end.

(** [o[k] = v] on an object that has the property: it keeps its place. *)
Fixpoint obj_replace {A : Type} (k : string) (v : A) (o : list (string * A))
  : list (string * A) :=
  match o with
  | [] => []
  | (k', v') :: o' => if String.eqb k k' then (k, v) :: o' else (k', v') :: obj_replace k v o'
  end.

(** [o[k] = v] on an object that does not have the property: an array index
    goes to its place among the array indices, any other name goes last. *)
Fixpoint obj_insert {A : Type} (k : string) (v : A) (o : list (string * A))
  : list (string * A) :=
  match o with
  | [] => [(k, v)]
  | (k', v') :: o' =>
      if listed_before k k' then (k, v) :: (k', v') :: o' else (k', v') :: obj_insert k v o'
  end.

(** [o[k] = v]. *)
Definition obj_set {A : Type} (k : string) (v : A) (o : list (string * A))
  : list (string * A) :=
  if has_key k o then obj_replace k v o else obj_insert k v o.

(** [delete o[k]]. *)
Fixpoint obj_delete {A : Type} (k : string) (o : list (string * A)) : list (string * A) :=
  match o with
  | [] => []
  | (k', v') :: o' => if String.eqb k k' then obj_delete k o' else (k', v') :: obj_delete k o'
  end.

(** [Object.keys(o)]. *)
Definition keys {A : Type} (o : list (string * A)) : list string := map fst o.

(** Reading property [k] of a value that is neither [undefined] nor [null]
    (the data properties the source reads; primitives and arrays have none). *)
Definition get (v : value) (k : string) : value :=
  match v with
  | VObj fields => match lookup k fields with Some x => x | None => VUndefined end
  | _ => VUndefined
  end.

(** Truthiness, as tested by [if (v)], [!v], [a && b]. *)
Definition truthy (v : value) : bool :=
  match v with
  | VUndefined | VNull => false
  | VBool b => b
  | VNum NaN => false
  | VNum (Finite m _) => negb (m =? 0)%Z
  | VNum (Infinity _) => true
  | VStr s => negb (String.eqb s "")
  | VArr _ | VObj _ => true
  end.

Inductive exn : Type :=
| TypeError     (* a property read on undefined, a call of a non-function *)
| SyntaxError   (* JSON.parse *)
| PlainError.   (* [throw Error()] *)

(** The outcome of evaluating an expression that may throw. *)
Inductive result (A : Type) : Type :=
| Ok (a : A)
| Throw (e : exn).
Arguments Ok {A} a.
Arguments Throw {A} e.

Definition bind {A B : Type} (r : result A) (k : A -> result B) : result B :=
  match r with
  | Ok a => k a
  | Throw e => Throw e
  end.

Notation "'do' x <- r ; k" := (bind r (fun x => k))
  (at level 10, x name, r at level 100, k at level 200).

Definition is_ok {A : Type} (r : result A) : bool :=
  match r with Ok _ => true | Throw _ => false end.

(** ** Data model *)

(** An NGSI attribute object [{type, value, metadata, object_id, multi}].
    [a_type], a string, is [None] when the object has no [type]; [a_metadata],
    an object whose properties are attribute objects again, is [None] when
    [metadata] is absent (or falsy); [a_object_id] and [a_multi] are the
    internal keys added for multi-entity mapping, [None] when absent. *)
Inductive attribute : Type :=
  Attribute {
    a_type : option string;
    a_value : value;
    a_metadata : option (list (string * attribute));
    a_object_id : option value;
    a_multi : option value
  }.

(** A property of an entity object: [id] and [type] hold strings, every other
    key holds an attribute object. *)
Inductive field : Type :=
| FString (s : string)
| FAttribute (a : attribute).

(** An entity object [{id, type, <name>: <attribute>, ...}] in key order. *)
Definition entity : Type := list (string * field).

(** What the update middleware chain hands back: an array of entities (the
    multi-entity plugin ran) or one entity object. *)
Inductive payload : Type :=
| Entities (es : list entity)
| SingleEntity (e : entity).

(** [typeInformation]: the fields this module reads.  [ti_type] is [None]
    when the object has no [type]; [ti_timestamp] is [None] when it has no
    [timestamp] or holds [undefined] there. *)
Record type_information : Type := {
  ti_type : option string;
  ti_timestamp : option value;
  ti_timezone : value
}.

(** One element of the [attributes] array given to the update. *)
Record attribute_update : Type := {
  u_name : option string;
  u_type : option string;
  u_value : value;
  u_metadata : value
}.

(** The [options] object handed to [request]. *)
Record options : Type := {
  o_url : string;
  o_method : string;
  o_headers : object;
  o_json : value
}.

Record response : Type := { statusCode : Z }.

(** What [request] passes to its callback: [(error, response, body)]. *)
Record reply : Type := {
  r_error : option value;
  r_response : option response;
  r_body : value
}.

(** The error objects of [errors.js], with the arguments of their constructors. *)
Inductive error : Type :=
| RequestError (e : value)            (* the transport's own error object *)
| BadRequest (details : value) (entityId : value)
| BadAnswer (status : Z) (operation : string)
| AccessForbidden (token service subservice : value)
| DeviceNotFound (entityName : value)
| AttributeNotFound
| EntityGenericError (entityName : value) (type : option string) (body : value)
                     (status : option Z)
| TypeNotFound (entityName : value)
| BadGeocoordinates                   (* its message, the serialised payload, is left out *)
| BadTimestamp (payload : payload)
| CollaboratorError (e : value).      (* reported by statsService or a middleware *)

(** What a response handler does with its callback: call it with an error or
    with a result, or throw before calling it. *)
Inductive handled : Type :=
| Failure (e : error)
| Success (body : value)
| Uncaught (x : exn).

(** How a call of an entry point ends: its callback is called, with an error
    or with a result, or an exception escapes and the callback is never
    called. *)
Inductive outcome : Type :=
| Returned (e : option error) (data : value)
| Crashed (x : exn).

(** ** Inputs of the worked cases *)

Definition plain (type : string) (v : value) : attribute :=
  Attribute (Some type) v None None None.

(** A measure as the multi-entity plugin leaves it, with its internal key. *)
Definition temperature_with_object_id : attribute :=
  Attribute (Some "Number") (VStr "21.5") None (Some (VStr "t")) None.

(** A position given as "lat,lng". *)
Definition position_lat_lng : attribute := plain "geo:point" (VStr "40.4,-3.7").

(** The GeoJSON point that "40.4,-3.7" is cast to: the two numbers in the
    order of the input. *)
Definition point_40_4 : value :=
  VObj [("type", VStr "Point");
        ("coordinates", VArr [VNum (Finite 404 (-1)); VNum (Finite (-37) (-1))])].

(** The same position with the longitude first. *)
Definition point_lng_lat : value :=
  VObj [("type", VStr "Point");
        ("coordinates", VArr [VNum (Finite (-37) (-1)); VNum (Finite 404 (-1))])].

(** Three coordinates: a coordinate list of odd length. *)
Definition route (type : string) : attribute := plain type (VStr "1,2,3").

Definition sensor_with (name : string) (a : attribute) : entity :=
  [("id", FString "s1"); ("type", FString "Sensor"); (name, FAttribute a)].

(** An attribute of a type the switch does not know, without metadata and with
    a metadata entry that declares no type. *)
Definition opaque_measure : attribute := plain "foo" (VStr "bar").

Definition opaque_measure_with_accuracy : attribute :=
  Attribute (Some "foo") (VStr "bar")
    (Some [("accuracy", Attribute None (VNum (Finite 5 (-1))) None None None)])
    None None.

(** A measure with a timestamp, and one whose metadata also has an entry
    called observedAt after the timestamp. *)
Definition measure_at (timestamp : string) : attribute :=
  Attribute (Some "Float") (VStr "21.5")
    (Some [("TimeInstant", plain "DateTime" (VStr timestamp))])
    None None.

Definition measure_at_with_observedAt (timestamp : string) : attribute :=
  Attribute (Some "Float") (VStr "21.5")
    (Some [("TimeInstant", plain "DateTime" (VStr timestamp));
           ("observedAt", plain "Text" (VStr "noon"))])
    None None.

(** A device type, the options of a request, and answers of the broker. *)
Definition sensor : type_information :=
  {| ti_type := Some "Sensor"; ti_timestamp := None; ti_timezone := VUndefined |}.

Definition to_orion : options :=
  {| o_url := "http://orion:1026/ngsi-ld/v1/entities/";
     o_method := "PATCH";
     o_headers := [("fiware-service", VStr "smartcity"); ("fiware-servicepath", VStr "/park")];
     o_json := VUndefined |}.

Definition answer (status : Z) (body : value) : reply :=
  {| r_error := None; r_response := Some {| statusCode := status |}; r_body := body |}.

(** The transport could not reach the broker. *)
Definition unreachable : reply :=
  {| r_error := Some (VStr "ECONNREFUSED"); r_response := None; r_body := VUndefined |}.

Definition orionError_not_found : value :=
  VObj [("orionError",
         VObj [("code", VStr "404");
               ("reasonPhrase", VStr "No context element found");
               ("details", VStr "Entity id: /s1/ was not found")])].

Definition errorCode_not_found : value :=
  VObj [("errorCode",
         VObj [("code", VStr "404");
               ("reasonPhrase", VStr "No context element found");
               ("details", VStr "entity of type Sensor not found")])].

Definition core_context : string :=
  "https://uri.etsi.org/ngsi-ld/v1/ngsi-ld-core-context.jsonld".

(** Three encoded entities, and a broker that counts the requests it serves
    and refuses those for the second entity. *)
Definition encoded_sensor (id : string) : object :=
  [("@context", VArr [VStr core_context]);
   ("id", VStr ("urn:ngsi-ld:Sensor:" ++ id));
   ("type", VStr "Sensor");
   ("temperature", VObj [("type", VStr "Property"); ("value", VNum (Finite 215 (-1)))])].

Definition broker_answering_s2 (status : Z) (o : options) (served : nat) : reply * nat :=
  (if includes "Sensor:s2/" (o_url o) then answer status VUndefined
   else answer 204 VUndefined,
   S served).

Definition broker_refusing_s2 : options -> nat -> reply * nat := broker_answering_s2 403.

(** A broker that accepts every update. *)
Definition broker_accepting (o : options) (served : nat) : reply * nat :=
  (answer 204 VUndefined, S served).

Definition request_of_sensor (id : string) : options :=
  {| o_url := "http://orion:1026/ngsi-ld/v1/entities/urn:ngsi-ld:Sensor:" ++ id ++ "/attrs";
     o_method := "PATCH";
     o_headers := o_headers to_orion;
     o_json := VObj [("@context", VArr [VStr core_context]);
                     ("temperature",
                      VObj [("type", VStr "Property"); ("value", VNum (Finite 215 (-1)))])] |}.

(** A measure with a unit and an accuracy; the unit entry declares no type. *)
Definition celsius_measure : attribute :=
  Attribute (Some "Float") (VStr "21.5")
    (Some [("unitCode", Attribute None (VStr "CEL") None None None);
           ("accuracy", plain "Float" (VStr "0.5"))])
    None None.


(** A link to another entity. *)
Definition owner : attribute := plain "Relationship" (VStr "urn:ngsi-ld:Person:p1").

(** A broker that answers every request with status 200 and the given body. *)
Definition broker_holding (body : value) (o : options) (served : nat) : reply * nat :=
  (answer 200 body, S served).

(** Elements of the [attributes] array of an update. *)
Definition measured (name type : string) (v : value) : attribute_update :=
  {| u_name := Some name; u_type := Some type; u_value := v; u_metadata := VUndefined |}.

Definition untyped (name : string) (v : value) : attribute_update :=
  {| u_name := Some name; u_type := None; u_value := v; u_metadata := VUndefined |}.

(** The document the broker holds for the sensor s1. *)
Definition sensor_document : value := VObj [("id", VStr "urn:ngsi-ld:Sensor:s1")].

(** ** Constants of the module and of [constants.js] *)

Definition NGSI_LD_URN : string := "urn:ngsi-ld:".

(** [constants.TIMESTAMP_ATTRIBUTE]: the key that [convertNGSIv2ToLD] and
    [formatAsNGSILD] also spell out literally ([delete obj.TimeInstant]). *)
Definition TIMESTAMP_ATTRIBUTE : string := "TimeInstant".

Section NGSILD.

Set Default Proof Using "Type".

(** *** Collaborators of the caster

    The JavaScript runtime's Number-to-String conversion, the [moment-timezone]
    calls, [NGSIUtils.isFloat] and two constants of [constants.js] are not part
    of this module; the caster is parametric in them. *)

(** [Number::toString]. *)
Variable Number_toString : number -> string.

(** [NGSIUtils.isFloat]. *)
Variable isFloat : value -> bool.

(** [moment(v).isValid()]. *)
Variable moment_isValid : value -> bool.
(** [moment.tz(v, 'Etc/UTC').toISOString()]. *)
Variable moment_toISOString : value -> value.
(** [moment.tz(v, 'Etc/UTC').format(moment.HTML5_FMT.DATE)]. *)
Variable moment_format_DATE : value -> value.
(** [moment.tz(v, 'Etc/UTC').format(moment.HTML5_FMT.TIME_SECONDS)]. *)
Variable moment_format_TIME_SECONDS : value -> value.

(** [constants.ATTRIBUTE_DEFAULT], the sentinel a device attribute holds before
    any measure, and [constants.DATETIME_DEFAULT], the fixed fallback
    timestamp; both are strings. *)
Variable ATTRIBUTE_DEFAULT : string.
Variable DATETIME_DEFAULT : string.

(** *** Conversions of the runtime *)

(** [ToString]: what [Number.parseFloat], [Number.parseInt] and string
    concatenation apply to an argument that is not a string. *)
Fixpoint ToString (v : value) : string :=
  match v with
  | VUndefined => "undefined"
  | VNull => "null"
  | VBool true => "true"
  | VBool false => "false"
  | VNum n => Number_toString n
  | VStr s => s
  | VArr items =>
      (fix join (items : list value) : string :=
         match items with
         | [] => ""
         | x :: rest =>
             let here := match x with VUndefined | VNull => "" | _ => ToString x end in
             match rest with
             | [] => here
             | _ :: _ => (here ++ "," ++ join rest)%string
             end
         end) items
  | VObj _ => "[object Object]"
  end.

Definition parseFloat (v : value) : number := parseFloat_string (ToString v).
Definition parseInt (v : value) : number := parseInt_string (ToString v).

(** [a === b] where [b] is a string. *)
Definition strict_equals_string (a : value) (b : string) : bool :=
  match a with
  | VStr s => String.eqb s b
  | _ => false
  end.

(** *** valueOfOrDefault (lines 64-66) *)

Definition valueOfOrDefault (value defaultValue : number) : number :=
  if isNaN value then defaultValue else value.

(** *** splitLngLat (lines 72-84) *)

(** The string case: [value.split(',')], every piece of which is a string
    without a comma and so goes through [Number.parseFloat]. *)
Definition splitLngLat_string (s : string) : list value :=
  map (fun piece => VNum (parseFloat_string piece)) (split "," s).

(** The body of the [forEach]: what one element of the array is replaced by. *)
Fixpoint splitLngLat_element (element : value) : value :=
  match element with
  | VArr items => VArr (map splitLngLat_element items)
  | VStr s =>
      if includes_char "," s then VArr (splitLngLat_string s)
      else VNum (parseFloat element)
  | _ => VNum (parseFloat element)
  end.

(** A value that is neither a string nor an array has no [forEach]: the call
    throws. *)
Definition splitLngLat (value0 : value) : result (list value) :=
  match value0 with
  | VStr s => Ok (splitLngLat_string s)
  | VArr items => Ok (map splitLngLat_element items)
  | _ => Throw TypeError
  end.

(** *** getLngLats (lines 90-105) *)

(** [_.flatten]: nested arrays are flattened at every depth. *)
Fixpoint flatten_value (x : value) : list value :=
  match x with
  | VArr items => flat_map flatten_value items
  | _ => [x]
  end.

Definition flatten (l : list value) : list value := flat_map flatten_value l.

(** The loop of lines 100-103 on a list of even length. *)
Fixpoint pairs (lngLats : list value) : list value :=
  match lngLats with
  | a :: b :: rest => VArr [a; b] :: pairs rest
  | _ => []
  end.

Definition getLngLats (value0 : value) : result value :=
  do split0 <- splitLngLat value0;
  let lngLats := flatten split0 in
  if (length lngLats =? 2)%nat then Ok (VArr lngLats)
  else if negb (length lngLats mod 2 =? 0)%nat then Throw PlainError
  else Ok (VArr (pairs lngLats)).

(** *** convertNGSIv2ToLD (lines 117-228) *)

Definition typed (tname : string) (v : value) : value :=
  VObj [("@type", VStr tname); ("@value", v)].

Definition geo (obj : object) (gtype : string) (coordinates : value) : object :=
  obj_set "value" (VObj [("type", VStr gtype); ("coordinates", coordinates)])
    (obj_set "type" (VStr "GeoProperty") obj).

(** The [case] labels of the [switch]. *)
Definition recognized_types : list string :=
  ["property"; "string"; "boolean"; "float"; "integer"; "number";
   "datetime"; "date"; "time";
   "geoproperty"; "point"; "geo:point"; "linestring"; "geo:linestring";
   "polygon"; "geo:polygon"; "multipoint"; "geo:multipoint";
   "multilinestring"; "geo:multilinestring"; "multipolygon"; "geo:multipolygon";
   "relationship"].

(** The [switch] on the lower-cased declared type (lines 118-205). *)
Definition convert_switch (attr : attribute) : result object :=
  let obj := [("type", VStr "Property"); ("value", a_value attr)] in
  match a_type attr with
  | None => Throw TypeError
  | Some type =>
      let tag := toLowerCase type in
      if member tag ["property"; "string"] then Ok obj
      else if tag =? "boolean" then
        Ok (obj_set "value" (VBool (truthy (a_value attr))) obj)
      else if tag =? "float" then
        Ok (obj_set "value" (VNum (valueOfOrDefault (parseFloat (a_value attr)) (Finite 0 0))) obj)
      else if tag =? "integer" then
        Ok (obj_set "value" (VNum (valueOfOrDefault (parseInt (a_value attr)) (Finite 0 0))) obj)
      else if tag =? "number" then
        if isFloat (a_value attr) then
          Ok (obj_set "value" (VNum (valueOfOrDefault (parseFloat (a_value attr)) (Finite 0 0))) obj)
        else
          Ok (obj_set "value" (VNum (valueOfOrDefault (parseInt (a_value attr)) (Finite 0 0))) obj)
      else if tag =? "datetime" then
        Ok (obj_set "value" (typed "DateTime" (moment_toISOString (a_value attr))) obj)
      else if tag =? "date" then
        Ok (obj_set "value" (typed "Date" (moment_format_DATE (a_value attr))) obj)
      else if tag =? "time" then
        Ok (obj_set "value" (typed "Time" (moment_format_TIME_SECONDS (a_value attr))) obj)
      else if member tag ["geoproperty"; "point"; "geo:point"] then
        do coordinates <- getLngLats (a_value attr); Ok (geo obj "Point" coordinates)
      else if member tag ["linestring"; "geo:linestring"] then
        do coordinates <- getLngLats (a_value attr); Ok (geo obj "LineString" coordinates)
      else if member tag ["polygon"; "geo:polygon"] then
        do coordinates <- getLngLats (a_value attr); Ok (geo obj "Polygon" coordinates)
      else if member tag ["multipoint"; "geo:multipoint"] then
        do coordinates <- getLngLats (a_value attr); Ok (geo obj "MultiPoint" coordinates)
      else if member tag ["multilinestring"; "geo:multilinestring"] then
        Ok (geo obj "MultiLineString" (a_value attr))
      else if member tag ["multipolygon"; "geo:multipolygon"] then
        Ok (geo obj "MultiPolygon" (a_value attr))
      else if tag =? "relationship" then
        Ok (obj_delete "value"
              (obj_set "object" (a_value attr) (obj_set "type" (VStr "Relationship") obj)))
      else
        Ok (obj_set "value" (typed type (a_value attr)) obj)
  end.

(** The body of the [forEach] over [Object.keys(attr.metadata)] (lines
    209-223); [convert] is the recursive call. *)
Definition convert_metadata_entry (convert : attribute -> result object)
    (obj : object) (key : string) (entry : attribute) : result object :=
  if key =? TIMESTAMP_ATTRIBUTE then
    let timestamp := a_value entry in
    if (strict_equals_string timestamp ATTRIBUTE_DEFAULT || negb (moment_isValid timestamp))%bool
    then Ok (obj_set "observedAt" (VStr DATETIME_DEFAULT) obj)
    else Ok (obj_set "observedAt" (moment_toISOString timestamp) obj)
  else if key =? "unitCode" then
    Ok (obj_set "unitCode" (a_value entry) obj)
  else
    do converted <- convert entry; Ok (obj_set key (VObj converted) obj).

(** The [forEach] itself: entries in key order, the first exception ends it. *)
Definition convert_metadata (convert : attribute -> result object)
  : list (string * attribute) -> object -> result object :=
  fix loop (metadata : list (string * attribute)) (obj : object) : result object :=
    match metadata with
    | [] => Ok obj
    | (key, entry) :: rest =>
        do obj' <- convert_metadata_entry convert obj key entry; loop rest obj'
    end.

(** A metadata entry writes one key of [obj]: [observedAt] for the timestamp
    entry, its own name otherwise. *)
Definition written_key (key : string) : string :=
  if key =? TIMESTAMP_ATTRIBUTE then "observedAt" else key.

(** The value the timestamp entry gives to [observedAt] (lines 211-216). *)
Definition observedAt_of (timestamp : value) : value :=
  if (strict_equals_string timestamp ATTRIBUTE_DEFAULT || negb (moment_isValid timestamp))%bool
  then VStr DATETIME_DEFAULT
  else moment_toISOString timestamp.

Fixpoint convertNGSIv2ToLD (attr : attribute) : result object :=
  do obj <- convert_switch attr;
  match a_metadata attr with
  | None => Ok obj
  | Some metadata =>
      do obj' <- convert_metadata convertNGSIv2ToLD metadata obj;
      Ok (obj_delete "TimeInstant" obj')
  end.


(** *** formatAsNGSILD (lines 237-260) *)

(** [config.getConfig().contextBroker.jsonLdContext]. *)
Variable jsonLdContext : string.

(** An attribute object as plain data, for the places that copy an entity
    property without looking into it. *)
Fixpoint attribute_value (a : attribute) : value :=
  VObj ([("value", a_value a)]
        ++ match a_type a with Some t => [("type", VStr t)] | None => [] end
        ++ match a_metadata a with
           | Some metadata =>
               [("metadata", VObj (map (fun kv => (fst kv, attribute_value (snd kv))) metadata))]
           | None => []
           end
        ++ match a_object_id a with Some v => [("object_id", v)] | None => [] end
        ++ match a_multi a with Some v => [("multi", v)] | None => [] end).

Definition field_value (f : field) : value :=
  match f with
  | FString s => VStr s
  | FAttribute a => attribute_value a
  end.

(** String concatenation with an entity property ([undefined] when absent). *)
Definition field_string (f : option field) : string :=
  match f with
  | None => "undefined"
  | Some (FString s) => s
  | Some (FAttribute _) => "[object Object]"
  end.

(** The body of the [forEach] over [Object.keys(json)]. *)
Definition formatAsNGSILD_key (json : entity) (obj : object) (key : string) (f : field)
  : result object :=
  if key =? "id" then
    match f with
    | FString id =>
        Ok (obj_set key
              (VStr (if startsWith NGSI_LD_URN id then id
                     else NGSI_LD_URN ++ field_string (lookup "type" json) ++ ":" ++ id))
              obj)
    | FAttribute _ => Throw TypeError
    end
  else if key =? "type" then Ok (obj_set key (field_value f) obj)
  else if ((key =? "@context") || (key =? TIMESTAMP_ATTRIBUTE))%bool then Ok obj
  else
    match f with
    | FAttribute a => do converted <- convertNGSIv2ToLD a; Ok (obj_set key (VObj converted) obj)
    | FString _ => Throw TypeError
    end.

Fixpoint formatAsNGSILD_keys (json : entity) (rest : entity) (obj : object) : result object :=
  match rest with
  | [] => Ok obj
  | (key, f) :: rest' =>
      do obj' <- formatAsNGSILD_key json obj key f; formatAsNGSILD_keys json rest' obj'
  end.

Definition formatAsNGSILD (json : entity) : result object :=
  let obj := [("@context", VArr (map VStr (split ";" jsonLdContext)))] in
  do obj' <- formatAsNGSILD_keys json json obj;
  Ok (obj_delete "TimeInstant" obj').

(** *** Purging the internal keys (lines 492-522) *)

Definition truthy_key (v : option value) : bool :=
  match v with Some x => truthy x | None => false end.

(** The body of the inner [for (att in ...)] loop on an attribute object. *)
Definition purge_attribute (a : attribute) : attribute :=
  let a1 := if truthy_key (a_object_id a)
            then Attribute (a_type a) (a_value a) (a_metadata a) None (a_multi a)
            else a in
  if truthy_key (a_multi a1)
  then Attribute (a_type a1) (a_value a1) (a_metadata a1) (a_object_id a1) None
  else a1.

(** On [id] and [type] the reads [json[entity][att].object_id] are reads on a
    string: [undefined]. *)
Definition purge_field (f : field) : field :=
  match f with
  | FString s => FString s
  | FAttribute a => FAttribute (purge_attribute a)
  end.

Definition purge_entity (e : entity) : entity :=
  map (fun kf => (fst kf, purge_field (snd kf))) e.

(** [if (json)]: arrays and objects are truthy. *)
Definition payload_truthy (json : payload) : bool := true.

(** [json.length] as the bound of [for (entity = 0; entity < json.length; ...)]:
    on an entity object it is [undefined], or an attribute object when an
    attribute is called length, and the comparison is false. *)
Definition purge (json : payload) : payload :=
  if payload_truthy json then
    match json with
    | Entities es => Entities (map purge_entity es)
    | SingleEntity e => SingleEntity e
    end
  else
    match json with
    | Entities es => Entities es
    | SingleEntity e => SingleEntity (purge_entity e)
    end.

(** *** Encoding (lines 524-534) *)

(** [_.map(json, formatAsNGSILD)]. *)
Fixpoint formatAsNGSILD_all (es : list entity) : result (list object) :=
  match es with
  | [] => Ok []
  | e :: es' => do o <- formatAsNGSILD e; do os <- formatAsNGSILD_all es'; Ok (o :: os)
  end.

(** The [try] block: [Throw] is any exception raised inside it.  The test
    [result instanceof Array] is the shape of [json]; [type] is
    [typeInformation.type], a non-empty string at this point. *)
Definition encode (json : payload) (entityId : string) (type : string)
  : result (list object) :=
  match json with
  | Entities es => formatAsNGSILD_all es
  | SingleEntity e =>
      let e' := obj_set "type" (FString type) (obj_set "id" (FString entityId) e) in
      do o <- formatAsNGSILD e'; Ok [o]
  end.

(** The geometry types whose value goes through [getLngLats], and the keys of
    an entity that [formatAsNGSILD] does not hand to [convertNGSIv2ToLD]. *)
Definition checked_geometry_types : list string :=
  ["geoproperty"; "point"; "geo:point"; "linestring"; "geo:linestring";
   "polygon"; "geo:polygon"; "multipoint"; "geo:multipoint"].

Definition reserved_keys : list string := ["id"; "type"; "@context"; TIMESTAMP_ATTRIBUTE].

(** [json] holds attribute [a] under [key], in one of its entities. *)
Definition carries (json : payload) (key : string) (a : attribute) : Prop :=
  match json with
  | Entities es => exists e, In e es /\ In (key, FAttribute a) e
  | SingleEntity e => In (key, FAttribute a) e
  end.

(** *** The broker, the alarm and the state of a call *)

(** The transport ([request]) and the broker behind it: a state of the
    outside world, and what one request does to it and answers. *)
Variable world : Type.
Variable request : options -> world -> reply * world.

(** What the module has done on the wire, oldest first. *)
Inductive event : Type :=
| Sent (o : options)
| Received (r : reply).

(** Modelled from the spec: [alarmManagement] is not part of this module; the
    alarm of the key [constants.ORION_ALARM] is the boolean [{active}] of the
    spec's AlarmState, set by [raise] and cleared by [release]. *)
Definition alarms_raise (active : bool) : bool := true.
Definition alarms_release (active : bool) : bool := false.

Record state : Type := {
  alarm : bool;
  wire : list event;
  broker : world
}.

(** [request(options, handler)] up to the point where the handler is called. *)
Definition exchange (o : options) (st : state) : reply * state :=
  let '(r, w) := request o (broker st) in
  (r, {| alarm := alarm st; wire := wire st ++ [Sent o; Received r]; broker := w |}).

(** *** generateNGSILDOperationHandler (lines 276-352) *)

(** [NGSIUtils.getErrorField] and [JSON.parse] on a string ([None]: a
    SyntaxError). *)
Variable getErrorField : value -> value.
Variable JSON_parse : string -> option value.

(** [JSON.parse(body)] on a body that is neither an array nor an object: the
    argument is first turned into a string.  [undefined], [NaN] and the
    infinities print as text that is not JSON; [null], booleans and finite
    numbers print as their own JSON text. *)
Definition JSON_parse_value (body : value) : option value :=
  match body with
  | VUndefined => None
  | VNull => Some VNull
  | VBool b => Some (VBool b)
  | VNum (Finite m e) => Some (VNum (Finite m e))
  | VNum _ => None
  | VStr s => JSON_parse s
  | VArr _ | VObj _ => Some body
  end.

Definition status_is (r : option response) (code : Z) : bool :=
  match r with
  | Some resp => (statusCode resp =? code)%Z
  | None => false
  end.

(** [typeInformation.type] inside a string or as the argument of [includes]. *)
Definition type_string (typeInformation : type_information) : string :=
  match ti_type typeInformation with Some t => t | None => "undefined" end.

(** [errorField.details.includes(typeInformation.type)]: [details] is a string
    (substring test) or an array (membership); anything else has no
    [includes]. *)
Definition details_includes (errorField : value) (typeInformation : type_information)
  : result bool :=
  match errorField with
  | VUndefined | VNull => Throw TypeError
  | _ =>
      match get errorField "details" with
      | VStr details => Ok (includes (type_string typeInformation) details)
      | VArr items =>
          Ok (existsb (fun x =>
                         match x, ti_type typeInformation with
                         | VStr s, Some t => String.eqb s t
                         | VUndefined, None => true
                         | _, _ => false
                         end) items)
      | _ => Throw TypeError
      end
  end.

(** [body instanceof Array || body instanceof Object]. *)
Definition is_object (body : value) : bool :=
  match body with VArr _ | VObj _ => true | _ => false end.

(** [body && body.orionError]. *)
Definition has_orionError (body : value) : bool :=
  (truthy body && truthy (get body "orionError"))%bool.

(** [errorField.code && errorField.code === '404']. *)
Definition code_is_404 (errorField : value) : bool :=
  (truthy (get errorField "code") && strict_equals_string (get errorField "code") "404")%bool.

(** The handler applied to [(error, response, body)]: the new state of the
    alarm and what happens to the callback. *)
Definition generateNGSILDOperationHandler (operationName : string) (entityName : value)
    (typeInformation : type_information) (token : value) (opts : options)
    (r : reply) (active : bool) : bool * handled :=
  let body := r_body r in
  match r_error r with
  | Some e => (alarms_raise active, Failure (RequestError e))
  | None =>
      if has_orionError body then
        (active, Failure (BadRequest (get (get body "orionError") "details") VUndefined))
      else if ((operationName =? "update") && status_is (r_response r) 204)%bool then
        (alarms_release active, Success body)
      else if ((operationName =? "query")
               && negb (match body with VUndefined => true | _ => false end)
               && status_is (r_response r) 200)%bool then
        (alarms_release active, Success body)
      else if ((operationName =? "query") && status_is (r_response r) 204)%bool then
        (active, Failure (BadAnswer 204 operationName))
      else if (status_is (r_response r) 403 || status_is (r_response r) 401)%bool then
        (active, Failure (AccessForbidden token (get (VObj (o_headers opts)) "fiware-service")
                            (get (VObj (o_headers opts)) "fiware-servicepath")))
      else if (truthy body && status_is (r_response r) 404)%bool then
        let errorField := getErrorField body in
        match details_includes errorField typeInformation with
        | Throw x => (active, Uncaught x)
        | Ok true => (active, Failure (DeviceNotFound entityName))
        | Ok false =>
            if code_is_404 errorField
            then (active, Failure AttributeNotFound)
            else (active, Failure (EntityGenericError entityName (ti_type typeInformation)
                                     body None))
        end
      else
        match (if is_object body then Some body else JSON_parse_value body) with
        | None => (active, Uncaught SyntaxError)
        | Some body' =>
            match r_response r with
            | None => (active, Uncaught TypeError)
            | Some resp =>
                (active, Failure (EntityGenericError entityName (ti_type typeInformation)
                                    body' (Some (statusCode resp))))
            end
        end
  end.

(** The alarm after a run of exchanges handled one after the other, each
    given as the operation and what the transport answered. *)
Fixpoint alarm_after (entityName : value) (typeInformation : type_information) (token : value)
    (opts : options) (history : list (string * reply)) (active : bool) : bool :=
  match history with
  | [] => active
  | (operationName, r) :: rest =>
      alarm_after entityName typeInformation token opts rest
        (fst (generateNGSILDOperationHandler operationName entityName typeInformation token
                opts r active))
  end.

(** *** Collaborators of the entry points

    [NGSIUtils.createRequestObject], [NGSIUtils.getMetaData],
    [NGSIUtils.castJsonNativeAttributes], [statsService.add], the two
    middleware chains run by [NGSIUtils.applyMiddlewares], the timestamp
    helpers of [restUtils] and [entities-NGSI-v2], and the process
    configuration.  They are taken to return, not to throw. *)

Variable createRequestObject : string -> option type_information -> value -> options.
Variable getMetaData : type_information -> string -> value -> option (list (string * attribute)).
Variable castJsonNativeAttributes : entity -> entity.
(** [statsService.add('measureRequests', 1, callback)]: the error it reports. *)
Variable statsService_add : option value.
(** The update chain on [payload]: the error or the result it reports, and the
    [payload] object as the chain leaves it. *)
Variable updateMiddleware : entity -> type_information -> option value * option payload * entity.
(** The query chain on the queried body: the error or the result it reports. *)
Variable queryMiddleware : value -> type_information -> option value * value.
(** [config.getConfig().timestamp]. *)
Variable config_timestamp : value.
Variable isTimestampedNgsi2 : payload -> bool.
Variable IsValidTimestampedNgsi2 : payload -> bool.
(** [NGSIv2.addTimestamp] on an array: the array after the call (line 470
    overwrites the returned value with [result]); on an entity object: the
    returned value. *)
Variable addTimestamp_array : list entity -> value -> list entity.
Variable addTimestamp_object : entity -> value -> entity.

(** *** The per-entity exchanges (lines 538-571) *)

Definition set_alarm (active : bool) (st : state) : state :=
  {| alarm := active; wire := wire st; broker := broker st |}.

(** The entity as sent: [id] and [type] are deleted from it first. *)
Definition attributes_only (entity0 : object) : object :=
  obj_delete "type" (obj_delete "id" entity0).

(** [Object.keys(entity).length <= 1]: nothing but [@context] is left. *)
Definition nothing_to_update (entity0 : object) : bool :=
  (length (keys (attributes_only entity0)) <=? 1)%nat.

(** [options] after lines 550-551. *)
Definition request_for (opts : options) (url : string) (entity0 : object) : options :=
  {| o_url := url ++ ToString (get (VObj entity0) "id") ++ "/attrs";
     o_method := o_method opts;
     o_headers := o_headers opts;
     o_json := VObj (attributes_only entity0) |}.

(** The iteratee of [async.forEachSeries] on one encoded entity; [Success]
    stands for [callback()], [Failure e] for [callback(e)]. *)
Definition sendEntity (typeInformation : type_information) (token : value) (opts : options)
    (url : string) (entity0 : object) (st : state) : state * handled :=
  let entityId := get (VObj entity0) "id" in
  if nothing_to_update entity0 then (st, Success VUndefined)
  else
    let opts' := request_for opts url entity0 in
    let '(r, st1) := exchange opts' st in
    let '(active, h) :=
      generateNGSILDOperationHandler "update" entityId typeInformation token opts' r (alarm st1) in
    (set_alarm active st1,
     match h with
     | Success _ => Success VUndefined
     | Failure e => Failure e
     | Uncaught x => Uncaught x
     end).

(** [async.forEachSeries] with its final callback: one entity at a time, the
    next one only after the callback of the previous one, and none after the
    first error.  When a handler throws, its callback is never called and the
    series goes no further. *)
Fixpoint forEachSeries (typeInformation : type_information) (token : value) (opts : options)
    (url : string) (entities : list object) (st : state) : state * outcome :=
  match entities with
  | [] => (st, Returned None VUndefined)
  | entity0 :: rest =>
      match sendEntity typeInformation token opts url entity0 st with
      | (st', Success _) => forEachSeries typeInformation token opts url rest st'
      | (st', Failure e) => (st', Returned (Some e) VUndefined)
      | (st', Uncaught x) => (st', Crashed x)
      end
  end.

(** The requests of a list of encoded entities, in the order of the list:
    one for each entity that has something to update. *)
Definition requests_for (opts : options) (url : string) (entities : list object)
  : list options :=
  map (request_for opts url) (filter (fun e => negb (nothing_to_update e)) entities).

(** A stretch of the wire on which the given requests were made one at a
    time: every request is followed by its reply before the next one. *)
Inductive exchanges : list options -> list event -> Prop :=
| exchanges_nil : exchanges [] []
| exchanges_cons (o : options) (r : reply) (os : list options) (w : list event) :
    exchanges os w -> exchanges (o :: os) (Sent o :: Received r :: w).

(** The outside world after the given requests, made in order. *)
Fixpoint broker_after (requests : list options) (w : world) : world :=
  match requests with
  | [] => w
  | o :: rest => broker_after rest (snd (request o w))
  end.

(** *** sendUpdateValueNgsiLD (lines 403-575) *)

Definition timestamp_enabled (typeInformation : type_information) : bool :=
  truthy (match ti_timestamp typeInformation with
          | Some v => v
          | None => config_timestamp
          end).

Definition without_id_type (e : entity) : entity := obj_delete "type" (obj_delete "id" e).

(** Lines 451-491: the JSON to send, from the result of the middleware chain
    (or from [payload] when there is none), or a bad timestamp. *)
Definition select_json (typeInformation : type_information) (payload0 : entity)
    (result0 : option payload) : error + payload :=
  match result0 with
  | Some (Entities es) =>
      if timestamp_enabled typeInformation then
        if negb (isTimestampedNgsi2 (Entities es)) then
          inr (Entities (addTimestamp_array es (ti_timezone typeInformation)))
        else if negb (IsValidTimestampedNgsi2 (Entities es)) then inl (BadTimestamp (Entities es))
        else inr (Entities es)
      else inr (Entities es)
  | Some (SingleEntity e) =>
      let json := without_id_type e in
      if timestamp_enabled typeInformation then
        if negb (isTimestampedNgsi2 (SingleEntity json)) then
          inr (SingleEntity (addTimestamp_object json (ti_timezone typeInformation)))
        else if negb (IsValidTimestampedNgsi2 (SingleEntity json)) then
          inl (BadTimestamp (SingleEntity json))
        else inr (SingleEntity json)
      else inr (SingleEntity json)
  | None => inr (SingleEntity (without_id_type payload0))
  end.

(** Lines 492-571: purge the internal keys, encode, send. *)
Definition send_json (entityId : string) (typeInformation : type_information) (type : string)
    (token : value) (opts : options) (json : payload) (st : state)
  : state * outcome :=
  match encode (purge json) entityId type with
  | Throw _ => (st, Returned (Some BadGeocoordinates) VUndefined)
  | Ok entities => forEachSeries typeInformation token opts (o_url opts) entities st
  end.

(** The final callback of the waterfall (lines 447-573). *)
Definition update_callback (entityId : string) (typeInformation : type_information)
    (type : string) (token : value) (opts : options) (payload0 : entity)
    (error0 : option value) (result0 : option payload) (st : state) : state * outcome :=
  match error0 with
  | Some e => (st, Returned (Some (CollaboratorError e)) VUndefined)
  | None =>
      match select_json typeInformation payload0 result0 with
      | inl e => (st, Returned (Some e) VUndefined)
      | inr json => send_json entityId typeInformation type token opts json st
      end
  end.

Definition nonempty (s : option string) : option string :=
  match s with
  | Some x => if x =? "" then None else Some x
  | None => None
  end.

(** Lines 425-439: [None] is the [BadRequest] exit. *)
Fixpoint build_payload (typeInformation : type_information) (attributes : list attribute_update)
    (payload0 : entity) : option entity :=
  match attributes with
  | [] => Some payload0
  | a :: rest =>
      match nonempty (u_name a), nonempty (u_type a) with
      | Some name, Some type =>
          build_payload typeInformation rest
            (obj_set name
               (FAttribute (Attribute (Some type) (u_value a)
                              (getMetaData typeInformation name (u_metadata a)) None None))
               payload0)
      | _, _ => None
      end
  end.

(** [createRequestObject] is also given ['PATCH'], and line 415 sets the
    method in any case. *)
Definition sendUpdateValueNgsiLD (entityId : string) (attributes : list attribute_update)
    (typeInformation : option type_information) (token : value) (st : state)
  : state * outcome :=
  let url := "/ngsi-ld/v1/entities/" in
  let created := createRequestObject url typeInformation token in
  let opts := {| o_url := o_url created; o_method := "PATCH";
                 o_headers := o_headers created; o_json := o_json created |} in
  match typeInformation with
  | None => (st, Returned (Some (TypeNotFound (VStr entityId))) VUndefined)
  | Some ti =>
      match nonempty (ti_type ti) with
      | None => (st, Returned (Some (TypeNotFound (VStr entityId))) VUndefined)
      | Some type =>
          match build_payload ti attributes [("id", FString entityId); ("type", FString type)] with
          | None => (st, Returned (Some (BadRequest VNull (VStr entityId))) VUndefined)
          | Some payload0 =>
              let payload1 := castJsonNativeAttributes payload0 in
              match statsService_add with
              | Some e => update_callback entityId ti type token opts payload1 (Some e) None st
              | None =>
                  let '(error0, result0, payload2) := updateMiddleware payload1 ti in
                  update_callback entityId ti type token opts payload2 error0 result0 st
              end
          end
      end
  end.

(** *** sendQueryValueNgsiLD (lines 363-392) *)

(** Line 364 reads [typeInformation.type] first: a TypeError when
    [typeInformation] is [undefined] or [null]. *)
Definition sendQueryValueNgsiLD (entityName : string) (attributes : option (list string))
    (typeInformation : option type_information) (token : value) (st : state)
  : state * outcome :=
  match typeInformation with
  | None => (st, Crashed TypeError)
  | Some ti =>
      let url := ("/ngsi-ld/v1/entities/urn:ngsi-ld:" ++ type_string ti ++ ":" ++ entityName)%string in
      let url := match attributes with
                 | Some ((_ :: _) as names) => (url ++ "?attrs=" ++ String.concat "," names)%string
                 | _ => url
                 end in
      let created := createRequestObject url typeInformation token in
      let opts := {| o_url := o_url created; o_method := "GET";
                     o_headers := o_headers created; o_json := VBool true |} in
      match nonempty (ti_type ti) with
      | None => (st, Returned (Some (TypeNotFound (VStr entityName))) VUndefined)
      | Some _ =>
          let '(r, st1) := exchange opts st in
          let '(active, h) :=
            generateNGSILDOperationHandler "query" (VStr entityName) ti token opts r (alarm st1) in
          (set_alarm active st1,
           match h with
           | Failure e => Returned (Some e) VUndefined
           | Success result0 =>
               match queryMiddleware result0 ti with
               | (Some e, _) => Returned (Some (CollaboratorError e)) VUndefined
               | (None, data) => Returned None data
               end
           | Uncaught x => Crashed x
           end)
      end
  end.

(** *** Predicates of the statements below *)

Definition is_array (v : value) : bool :=
  match v with VArr _ => true | _ => false end.

Definition is_number (v : value) : bool :=
  match v with VNum _ => true | _ => false end.

(** A two-element array. *)
Definition is_pair (v : value) : bool :=
  match v with VArr [_; _] => true | _ => false end.

(** The three kinds of attribute of the linked-data model. *)
Definition ld_kinds : list string := ["Property"; "GeoProperty"; "Relationship"].

(** The number of times a character occurs in a string. *)
Fixpoint occurrences (c : ascii) (s : string) : nat :=
  match s with
  | String c' s' => (if Ascii.eqb c' c then 1 else 0) + occurrences c s'
  | EmptyString => 0
  end.

(** The declared types whose converted attribute is a GeoProperty. *)
Definition geometry_types : list string :=
  checked_geometry_types
  ++ ["multilinestring"; "geo:multilinestring"; "multipolygon"; "geo:multipolygon"].

(** What the [switch] needs in order not to raise: a declared type (line 119
    reads [attr.type.toLowerCase]) and, for the types whose value goes through
    [getLngLats], a value that [getLngLats] accepts. *)
Definition switch_accepts (attr : attribute) : bool :=
  match a_type attr with
  | None => false
  | Some type =>
      if member (toLowerCase type) checked_geometry_types
      then is_ok (getLngLats (a_value attr))
      else true
  end.

(** The same at every depth: the metadata entries other than the timestamp
    and [unitCode] are converted as attributes themselves. *)
Fixpoint convertible (attr : attribute) : bool :=
  (switch_accepts attr
   && match a_metadata attr with
      | None => true
      | Some metadata =>
          forallb (fun kv =>
                     (fst kv =? TIMESTAMP_ATTRIBUTE) || (fst kv =? "unitCode")
                     || convertible (snd kv))
            metadata
      end)%bool.

(** An attribute with its declared type replaced. *)
Definition with_type (attr : attribute) (type : string) : attribute :=
  Attribute (Some type) (a_value attr) (a_metadata attr) (a_object_id attr) (a_multi attr).




(** What [formatAsNGSILD] needs of one property of the entity in order not to
    raise: a string under [id] (line 243 calls [id.startsWith]) and, under a
    key that goes to [convertNGSIv2ToLD], an attribute that it converts. *)
Definition encodable (key : string) (f : field) : bool :=
  if key =? "id" then match f with FString _ => true | FAttribute _ => false end
  else if ((key =? "type") || (key =? "@context") || (key =? TIMESTAMP_ATTRIBUTE))%bool then true
  else match f with
       | FAttribute a => is_ok (convertNGSIv2ToLD a)
       | FString _ => false
       end.

(** The errors that [sendUpdateValueNgsiLD] hands to its callback itself
    (lines 417, 437, 449, 466, 481 and 533), as opposed to those of the
    response handler; the handler's [BadRequest] carries no entity id. *)
Definition reported_before_sending (e : error) : bool :=
  match e with
  | TypeNotFound _ | BadGeocoordinates | BadTimestamp _ | CollaboratorError _ => true
  | BadRequest _ (VStr _) => true
  | _ => false
  end.

(** ** Properties *)

Arguments String.eqb : simpl never.
Arguments TIMESTAMP_ATTRIBUTE : simpl never.

(** *** Objects *)

Lemma lookup_obj_replace_same (A : Type) (k : string) (v : A) (o : list (string * A)) :
  has_key k o = true -> lookup k (obj_replace k v o) = Some v.
Proof.
  unfold has_key. induction o as [|[k' v'] o IH]; simpl; [discriminate|].
  destruct (String.eqb k k') eqn:E; simpl; intros Hkey.
  - now rewrite String.eqb_refl.
  - rewrite E. now apply IH.
Qed.

Lemma lookup_obj_replace_other (A : Type) (k k' : string) (v : A) (o : list (string * A)) :
  k <> k' -> lookup k (obj_replace k' v o) = lookup k o.
Proof.
  intros Hne. induction o as [|[k0 v0] o IH]; simpl; [reflexivity|].
  destruct (String.eqb_spec k' k0) as [->|Hk0]; simpl.
  - destruct (String.eqb_spec k k0); congruence.
  - destruct (String.eqb_spec k k0); congruence.
Qed.

Lemma lookup_obj_insert_same (A : Type) (k : string) (v : A) (o : list (string * A)) :
  has_key k o = false -> lookup k (obj_insert k v o) = Some v.
Proof.
  unfold has_key. induction o as [|[k' v'] o IH]; simpl.
  - now rewrite String.eqb_refl.
  - destruct (String.eqb k k') eqn:E; [discriminate|]. intros Hkey.
    destruct (listed_before k k'); simpl.
    + now rewrite String.eqb_refl.
    + rewrite E. now apply IH.
Qed.

Lemma lookup_obj_insert_other (A : Type) (k k' : string) (v : A) (o : list (string * A)) :
  k <> k' -> lookup k (obj_insert k' v o) = lookup k o.
Proof.
  intros Hne. induction o as [|[k0 v0] o IH]; simpl.
  - destruct (String.eqb_spec k k'); congruence.
  - destruct (listed_before k' k0); simpl.
    + destruct (String.eqb_spec k k'); congruence.
    + destruct (String.eqb_spec k k0); congruence.
Qed.

Lemma lookup_obj_set_same (A : Type) (k : string) (v : A) (o : list (string * A)) :
  lookup k (obj_set k v o) = Some v.
Proof.
  unfold obj_set. destruct (has_key k o) eqn:Hkey.
  - now apply lookup_obj_replace_same.
  - now apply lookup_obj_insert_same.
Qed.

Lemma lookup_obj_set_other (A : Type) (k k' : string) (v : A) (o : list (string * A)) :
  k <> k' -> lookup k (obj_set k' v o) = lookup k o.
Proof.
  intros Hne. unfold obj_set. destruct (has_key k' o).
  - now apply lookup_obj_replace_other.
  - now apply lookup_obj_insert_other.
Qed.

Lemma lookup_obj_delete_same (A : Type) (k : string) (o : list (string * A)) :
  lookup k (obj_delete k o) = None.
Proof.
  induction o as [|[k' v'] o IH]; simpl; auto.
  destruct (String.eqb k k') eqn:E; simpl; auto.
  now rewrite E.
Qed.

Lemma lookup_obj_delete_other (A : Type) (k k' : string) (o : list (string * A)) :
  k <> k' -> lookup k (obj_delete k' o) = lookup k o.
Proof.
  intros Hne. induction o as [|[k0 v0] o IH]; simpl; auto.
  destruct (String.eqb_spec k' k0) as [->|Hk0]; simpl.
  - destruct (String.eqb_spec k k0); congruence.
  - destruct (String.eqb_spec k k0); congruence.
Qed.

Lemma lookup_not_in (A : Type) (k : string) (o : list (string * A)) :
  ~ In k (keys o) -> lookup k o = None.
Proof.
  induction o as [|[k' v'] o IH]; simpl; auto.
  intros H. destruct (String.eqb_spec k k') as [->|Hne].
  - exfalso. apply H. now left.
  - apply IH. intros Hin. apply H. now right.
Qed.

Lemma lookup_in (A : Type) (k : string) (v : A) (o : list (string * A)) :
  lookup k o = Some v -> In (k, v) o.
Proof.
  induction o as [|[k' v'] o IH]; simpl; try discriminate.
  destruct (String.eqb_spec k k') as [->|Hne].
  - intros [= ->]. now left.
  - intros H. right. now apply IH.
Qed.

Lemma member_In (s : string) (l : list string) : member s l = true <-> In s l.
Proof.
  unfold member. rewrite existsb_exists. split.
  - intros [x [Hin Heq]]. apply String.eqb_eq in Heq. now subst.
  - intros Hin. exists s. split; auto. apply String.eqb_refl.
Qed.

(** *** The metadata loop of [convertNGSIv2ToLD] *)

Lemma convert_metadata_entry_timestamp (convert : attribute -> result object)
    (obj : object) (entry : attribute) :
  convert_metadata_entry convert obj TIMESTAMP_ATTRIBUTE entry
  = Ok (obj_set "observedAt" (observedAt_of (a_value entry)) obj).
Proof.
  unfold convert_metadata_entry, observedAt_of. simpl.
  now destruct (strict_equals_string _ _ || negb _)%bool.
Qed.

Lemma convert_metadata_entry_other (convert : attribute -> result object)
    (obj obj' : object) (key : string) (entry : attribute) (k : string) :
  convert_metadata_entry convert obj key entry = Ok obj' ->
  k <> written_key key ->
  lookup k obj' = lookup k obj.
Proof.
  unfold convert_metadata_entry, written_key. intros H Hkey.
  destruct (key =? TIMESTAMP_ATTRIBUTE).
  - destruct (_ || _)%bool; injection H as <-; now apply lookup_obj_set_other.
  - destruct (String.eqb_spec key "unitCode") as [->|Hu].
    + injection H as <-. now apply lookup_obj_set_other.
    + destruct (convert entry); simpl in H; try discriminate.
      injection H as <-. now apply lookup_obj_set_other.
Qed.

Lemma convert_metadata_other (convert : attribute -> result object)
    (metadata : list (string * attribute)) (obj obj' : object) (k : string) :
  convert_metadata convert metadata obj = Ok obj' ->
  ~ In k (map written_key (keys metadata)) ->
  lookup k obj' = lookup k obj.
Proof.
  revert obj. induction metadata as [|[key entry] rest IH]; simpl; intros obj H Hin.
  - now injection H as <-.
  - destruct (convert_metadata_entry convert obj key entry) as [obj1|] eqn:E; simpl in H;
      try discriminate.
    rewrite (IH obj1 H) by (intros Hrest; apply Hin; now right).
    eapply convert_metadata_entry_other; eauto.
Qed.

Lemma written_key_other (k : string) (l : list string) :
  k <> "observedAt" -> ~ In k l -> ~ In k (map written_key l).
Proof.
  intros Hk Hl Hin. apply in_map_iff in Hin as [key [Hw Hin]].
  unfold written_key in Hw. destruct (key =? TIMESTAMP_ATTRIBUTE); congruence.
Qed.

Lemma written_key_observedAt (l : list string) :
  ~ In "observedAt" l -> ~ In TIMESTAMP_ATTRIBUTE l -> ~ In "observedAt" (map written_key l).
Proof.
  intros Ho Ht Hin. apply in_map_iff in Hin as [key [Hw Hin]].
  unfold written_key in Hw. destruct (String.eqb_spec key TIMESTAMP_ATTRIBUTE); congruence.
Qed.

(** [observedAt] after the loop, when no entry is itself called [observedAt]:
    the value given by the timestamp entry. *)
Lemma convert_metadata_observedAt (convert : attribute -> result object)
    (metadata : list (string * attribute)) (obj obj' : object) (entry : attribute) :
  convert_metadata convert metadata obj = Ok obj' ->
  NoDup (keys metadata) ->
  lookup TIMESTAMP_ATTRIBUTE metadata = Some entry ->
  ~ In "observedAt" (keys metadata) ->
  lookup "observedAt" obj' = Some (observedAt_of (a_value entry)).
Proof.
  revert obj. induction metadata as [|[key e] rest IH]; simpl; intros obj H Hnd Hl Hobs.
  - discriminate.
  - destruct (convert_metadata_entry convert obj key e) as [obj1|] eqn:E; simpl in H;
      try discriminate.
    inversion Hnd as [|? ? Hnotin Hnd']; subst.
    destruct (String.eqb_spec TIMESTAMP_ATTRIBUTE key) as [<-|Hne].
    + injection Hl as ->.
      rewrite convert_metadata_entry_timestamp in E. injection E as <-.
      rewrite (@convert_metadata_other convert rest _ obj' "observedAt" H).
      * apply lookup_obj_set_same.
      * apply written_key_observedAt; [|exact Hnotin].
        intros Hrest. apply Hobs. now right.
    + eapply IH; eauto.
Qed.

(** The loop ends normally when every entry handed to the recursive call
    converts. *)
Lemma convert_metadata_ok (convert : attribute -> result object)
    (metadata : list (string * attribute)) (obj : object) :
  (forall key entry, In (key, entry) metadata ->
     key <> TIMESTAMP_ATTRIBUTE -> key <> "unitCode" -> is_ok (convert entry) = true) ->
  exists obj', convert_metadata convert metadata obj = Ok obj'.
Proof.
  revert obj. induction metadata as [|[key e] rest IH]; simpl; intros obj H.
  - now exists obj.
  - assert (exists obj1, convert_metadata_entry convert obj key e = Ok obj1) as [obj1 E].
    { unfold convert_metadata_entry.
      destruct (String.eqb_spec key TIMESTAMP_ATTRIBUTE) as [->|Hts].
      - destruct (_ || _)%bool; eauto.
      - destruct (String.eqb_spec key "unitCode") as [->|Hu]; eauto.
        specialize (H key e (or_introl eq_refl) Hts Hu).
        destruct (convert e); simpl in *; try discriminate; eauto. }
    rewrite E. simpl. apply IH. intros k' e' Hin. apply H. now right.
Qed.

Lemma convertNGSIv2ToLD_unfold (attr : attribute) :
  convertNGSIv2ToLD attr =
  (do obj <- convert_switch attr;
   match a_metadata attr with
   | None => Ok obj
   | Some metadata =>
       do obj' <- convert_metadata convertNGSIv2ToLD metadata obj;
       Ok (obj_delete "TimeInstant" obj')
   end).
Proof. now destruct attr. Qed.

(** A field set by the [switch] is still there after the metadata loop unless
    a metadata entry carries its name. *)
Lemma convertNGSIv2ToLD_keeps (attr : attribute) (obj0 obj : object) (k : string) :
  convert_switch attr = Ok obj0 ->
  convertNGSIv2ToLD attr = Ok obj ->
  (forall metadata, a_metadata attr = Some metadata -> ~ In k (keys metadata)) ->
  k <> "observedAt" -> k <> "TimeInstant" ->
  lookup k obj = lookup k obj0.
Proof.
  intros Hs Hc Hmd Hobs Hts.
  rewrite convertNGSIv2ToLD_unfold, Hs in Hc. simpl in Hc.
  destruct (a_metadata attr) as [metadata|].
  - destruct (convert_metadata convertNGSIv2ToLD metadata obj0) as [obj'|] eqn:E; simpl in Hc;
      try discriminate.
    injection Hc as <-.
    rewrite lookup_obj_delete_other by assumption.
    eapply convert_metadata_other; eauto using written_key_other.
  - now injection Hc as <-.
Qed.

(** The conversion returns when the [switch] does and every metadata entry
    handed to the recursive call converts. *)
Lemma convertNGSIv2ToLD_returns (attr : attribute) (obj0 : object) :
  convert_switch attr = Ok obj0 ->
  (forall metadata key entry, a_metadata attr = Some metadata -> In (key, entry) metadata ->
     key <> TIMESTAMP_ATTRIBUTE -> key <> "unitCode" ->
     is_ok (convertNGSIv2ToLD entry) = true) ->
  exists obj, convertNGSIv2ToLD attr = Ok obj.
Proof.
  intros Hs Hmd. rewrite convertNGSIv2ToLD_unfold, Hs. simpl.
  destruct (a_metadata attr) as [metadata|]; eauto.
  destruct (@convert_metadata_ok convertNGSIv2ToLD metadata obj0) as [obj' E].
  - intros key entry. now apply Hmd.
  - rewrite E. simpl. eauto.
Qed.

(** *** The type switch of [convertNGSIv2ToLD] *)

(** Decides the closed tests of a chain of [if]s. *)
Ltac decide_tests :=
  repeat match goal with
         | |- context [if ?c then _ else _] =>
             let v := eval vm_compute in c in
             match v with
             | true => change c with true; cbv iota
             | false => change c with false; cbv iota
             end
         end.

(** Enters [convert_switch] on an attribute whose lower-cased type is known. *)
Ltac enter_switch Htype Htag :=
  unfold convert_switch; rewrite Htype; cbv zeta; rewrite Htag; decide_tests.

Lemma convertNGSIv2ToLD_no_metadata (attr : attribute) :
  a_metadata attr = None -> convertNGSIv2ToLD attr = convert_switch attr.
Proof.
  intros H. rewrite convertNGSIv2ToLD_unfold, H. now destruct (convert_switch attr).
Qed.

Lemma valueOfOrDefault_NaN (parsed defaultValue : number) :
  isNaN parsed = true -> valueOfOrDefault parsed defaultValue = defaultValue.
Proof. unfold valueOfOrDefault. now intros ->. Qed.

Lemma valueOfOrDefault_not_NaN (parsed : number) :
  isNaN (valueOfOrDefault parsed (Finite 0 0)) = false.
Proof. unfold valueOfOrDefault. now destruct parsed. Qed.

(** What the numeric cases give to [obj.value]. *)
Lemma convert_switch_numeric (attr : attribute) (type : string) :
  a_type attr = Some type ->
  In (toLowerCase type) ["integer"; "float"; "number"] ->
  exists parsed,
    (parsed = parseFloat (a_value attr) \/ parsed = parseInt (a_value attr))
    /\ convert_switch attr
       = Ok [("type", VStr "Property");
             ("value", VNum (valueOfOrDefault parsed (Finite 0 0)))].
Proof.
  intros Htype Htag. simpl in Htag.
  destruct Htag as [Htag|[Htag|[Htag|[]]]]; symmetry in Htag.
  - exists (parseInt (a_value attr)). split; [now right|]. now enter_switch Htype Htag.
  - exists (parseFloat (a_value attr)). split; [now left|]. now enter_switch Htype Htag.
  - destruct (isFloat (a_value attr)) eqn:E.
    + exists (parseFloat (a_value attr)). split; [now left|].
      enter_switch Htype Htag. now rewrite E.
    + exists (parseInt (a_value attr)). split; [now right|].
      enter_switch Htype Htag. now rewrite E.
Qed.

(** C7.  For every attribute whose declared type is, in any letter case,
    integer, float or number: casting the string "0" yields the number 0; the
    cast value is the parsed number, or the default 0 that the cast passes to
    valueOfOrDefault when parsing yields NaN, and so is never NaN;
    valueOfOrDefault returns whatever default it is given when parsing
    fails; and without metadata the conversion returns the cast object as it
    is. *)
Theorem numeric_cast_zero_and_default (attr : attribute) (type : string) :
  a_type attr = Some type ->
  In (toLowerCase type) ["integer"; "float"; "number"] ->
  (a_value attr = VStr "0" ->
   convert_switch attr = Ok [("type", VStr "Property"); ("value", VNum (Finite 0 0))])
  /\ (exists parsed,
        (parsed = parseFloat (a_value attr) \/ parsed = parseInt (a_value attr))
        /\ convert_switch attr
           = Ok [("type", VStr "Property");
                 ("value", VNum (valueOfOrDefault parsed (Finite 0 0)))]
        /\ (isNaN parsed = true -> valueOfOrDefault parsed (Finite 0 0) = Finite 0 0)
        /\ isNaN (valueOfOrDefault parsed (Finite 0 0)) = false)
  /\ (forall parsed defaultValue : number,
        isNaN parsed = true -> valueOfOrDefault parsed defaultValue = defaultValue)
  /\ (a_metadata attr = None -> convertNGSIv2ToLD attr = convert_switch attr).
Proof.
  intros Htype Htag.
  destruct (convert_switch_numeric attr Htype Htag) as [parsed [Hparsed Hswitch]].
  repeat split.
  - intros Hzero. rewrite Hswitch. rewrite Hzero in Hparsed.
    destruct Hparsed as [->| ->]; reflexivity.
  - exists parsed. repeat split; auto using valueOfOrDefault_NaN, valueOfOrDefault_not_NaN.
  - apply valueOfOrDefault_NaN.
  - apply convertNGSIv2ToLD_no_metadata.
Qed.

(** C3, as amended.  For every attribute declared point or geo:point (in any
    letter case) whose value is the string "40.4,-3.7", the type switch yields
    a GeoProperty whose coordinates are the pair [40.4, -3.7]: the two numbers
    in the order of the input, latitude first, with no swap to the GeoJSON
    order.  That object is what the conversion returns when the attribute has
    no metadata, and whenever the conversion returns its type and value are
    these unless a metadata entry is itself named type or value. *)
Theorem point_keeps_input_order (attr : attribute) (type : string) :
  a_type attr = Some type ->
  In (toLowerCase type) ["point"; "geo:point"] ->
  a_value attr = VStr "40.4,-3.7" ->
  convert_switch attr = Ok [("type", VStr "GeoProperty"); ("value", point_40_4)]
  /\ (a_metadata attr = None ->
      convertNGSIv2ToLD attr = Ok [("type", VStr "GeoProperty"); ("value", point_40_4)])
  /\ (forall obj,
        convertNGSIv2ToLD attr = Ok obj ->
        (forall metadata, a_metadata attr = Some metadata ->
           ~ In "type" (keys metadata) /\ ~ In "value" (keys metadata)) ->
        lookup "type" obj = Some (VStr "GeoProperty")
        /\ lookup "value" obj = Some point_40_4).
Proof.
  intros Htype Htag Hvalue.
  assert (Hswitch : convert_switch attr
                    = Ok [("type", VStr "GeoProperty"); ("value", point_40_4)]).
  { simpl in Htag. destruct Htag as [Htag|[Htag|[]]]; symmetry in Htag;
      enter_switch Htype Htag; rewrite Hvalue; reflexivity. }
  split; [exact Hswitch|]. split.
  - intros Hmd. now rewrite convertNGSIv2ToLD_no_metadata.
  - intros obj Hobj Hkeys. split.
    + rewrite (convertNGSIv2ToLD_keeps (k := "type") attr Hswitch Hobj); try discriminate; auto.
      intros metadata Hmd. now apply Hkeys.
    + rewrite (convertNGSIv2ToLD_keeps (k := "value") attr Hswitch Hobj); try discriminate; auto.
      intros metadata Hmd. now apply Hkeys.
Qed.

(** Discharges a case of the [switch] that an unrecognized type cannot take. *)
Ltac not_this_case Hunknown :=
  match goal with
  | E : (_ =? _) = true |- _ =>
      apply String.eqb_eq in E; rewrite E in Hunknown; vm_compute in Hunknown; discriminate
  | E : member _ _ = true |- _ =>
      apply member_In in E; simpl in E;
      repeat (destruct E as [E|E]; [rewrite <- E in Hunknown; vm_compute in Hunknown; discriminate|]);
      contradiction
  end.

Lemma convert_switch_unrecognized (attr : attribute) (type : string) :
  a_type attr = Some type ->
  member (toLowerCase type) recognized_types = false ->
  convert_switch attr
  = Ok [("type", VStr "Property"); ("value", typed type (a_value attr))].
Proof.
  intros Htype Hunknown. unfold convert_switch. rewrite Htype. cbv zeta.
  repeat match goal with
         | |- context [if ?c then _ else _] =>
             destruct c eqn:?; [exfalso; not_this_case Hunknown|]
         end.
  reflexivity.
Qed.

(** C9, as amended.  For every attribute whose declared type matches none of
    the recognized type tags, the type switch never raises: it yields a
    Property whose value is the wrapper ['@type': declaredType, '@value':
    rawValue], the raw value unchanged.  The conversion returns exactly that
    object when the attribute has no metadata; with metadata it returns
    whenever every metadata entry it converts recursively converts, and then
    its type and value are still these unless a metadata entry is itself
    named type or value. *)
Theorem unrecognized_type_is_wrapped (attr : attribute) (type : string) :
  a_type attr = Some type ->
  member (toLowerCase type) recognized_types = false ->
  convert_switch attr
  = Ok [("type", VStr "Property"); ("value", typed type (a_value attr))]
  /\ (a_metadata attr = None ->
      convertNGSIv2ToLD attr
      = Ok [("type", VStr "Property"); ("value", typed type (a_value attr))])
  /\ (forall metadata,
        a_metadata attr = Some metadata ->
        (forall key entry, In (key, entry) metadata ->
           key <> TIMESTAMP_ATTRIBUTE -> key <> "unitCode" ->
           is_ok (convertNGSIv2ToLD entry) = true) ->
        ~ In "type" (keys metadata) -> ~ In "value" (keys metadata) ->
        exists obj,
          convertNGSIv2ToLD attr = Ok obj
          /\ lookup "type" obj = Some (VStr "Property")
          /\ lookup "value" obj = Some (typed type (a_value attr))).
Proof.
  intros Htype Hunknown.
  pose proof (convert_switch_unrecognized attr Htype Hunknown) as Hswitch.
  split; [exact Hswitch|]. split.
  - intros Hmd. now rewrite convertNGSIv2ToLD_no_metadata.
  - intros metadata Hmd Hentries Htypekey Hvaluekey.
    destruct (@convertNGSIv2ToLD_returns attr _ Hswitch) as [obj Hobj].
    { intros metadata' key entry Hmd'. rewrite Hmd in Hmd'. injection Hmd' as <-.
      apply Hentries. }
    exists obj. split; [exact Hobj|]. split.
    + rewrite (convertNGSIv2ToLD_keeps (k := "type") attr Hswitch Hobj); try discriminate; auto.
      intros metadata' Hmd'. rewrite Hmd in Hmd'. now injection Hmd' as <-.
    + rewrite (convertNGSIv2ToLD_keeps (k := "value") attr Hswitch Hobj); try discriminate; auto.
      intros metadata' Hmd'. rewrite Hmd in Hmd'. now injection Hmd' as <-.
Qed.

(** *** Timestamps *)

Lemma observedAt_of_default (timestamp : value) :
  timestamp = VStr ATTRIBUTE_DEFAULT \/ moment_isValid timestamp = false ->
  observedAt_of timestamp = VStr DATETIME_DEFAULT.
Proof.
  unfold observedAt_of. intros [->|H].
  - simpl. now rewrite String.eqb_refl.
  - rewrite H. simpl. now rewrite orb_true_r.
Qed.

Lemma observedAt_of_valid (timestamp : value) :
  strict_equals_string timestamp ATTRIBUTE_DEFAULT = false ->
  moment_isValid timestamp = true ->
  observedAt_of timestamp = moment_toISOString timestamp.
Proof. unfold observedAt_of. now intros -> ->. Qed.

Lemma formatAsNGSILD_no_root_timestamp (json : entity) (obj : object) :
  formatAsNGSILD json = Ok obj -> lookup TIMESTAMP_ATTRIBUTE obj = None.
Proof.
  unfold formatAsNGSILD. intros H.
  destruct (formatAsNGSILD_keys json json _) as [obj'|]; simpl in H; try discriminate.
  injection H as <-. apply lookup_obj_delete_same.
Qed.

(** C8, as amended.  For every attribute that carries a timestamp metadata
    entry, handling that entry never raises and sets observedAt to the
    UTC-normalized ISO-8601 rendering of the timestamp, or to the fixed
    default timestamp string when the timestamp is the sentinel default or is
    not a valid date; this is the observedAt of the converted attribute
    whenever the conversion returns and no metadata entry is itself named
    observedAt; the conversion returns whenever the type switch and the
    other metadata entries do.  The root-level timestamp attribute is never a
    key of the linked-data envelope. *)
Theorem timestamp_metadata_sets_observedAt (attr : attribute)
    (metadata : list (string * attribute)) (entry : attribute) :
  a_metadata attr = Some metadata ->
  NoDup (keys metadata) ->
  lookup TIMESTAMP_ATTRIBUTE metadata = Some entry ->
  ~ In "observedAt" (keys metadata) ->
  (forall obj,
     convert_metadata_entry convertNGSIv2ToLD obj TIMESTAMP_ATTRIBUTE entry
     = Ok (obj_set "observedAt" (observedAt_of (a_value entry)) obj))
  /\ (a_value entry = VStr ATTRIBUTE_DEFAULT \/ moment_isValid (a_value entry) = false ->
      observedAt_of (a_value entry) = VStr DATETIME_DEFAULT)
  /\ (strict_equals_string (a_value entry) ATTRIBUTE_DEFAULT = false ->
      moment_isValid (a_value entry) = true ->
      observedAt_of (a_value entry) = moment_toISOString (a_value entry))
  /\ (forall obj,
        convertNGSIv2ToLD attr = Ok obj ->
        lookup "observedAt" obj = Some (observedAt_of (a_value entry)))
  /\ (forall obj0,
        convert_switch attr = Ok obj0 ->
        (forall key e, In (key, e) metadata ->
           key <> TIMESTAMP_ATTRIBUTE -> key <> "unitCode" ->
           is_ok (convertNGSIv2ToLD e) = true) ->
        exists obj, convertNGSIv2ToLD attr = Ok obj)
  /\ (forall json envelope,
        formatAsNGSILD json = Ok envelope -> lookup TIMESTAMP_ATTRIBUTE envelope = None).
Proof.
  intros Hmd Hnodup Hentry Hobs.
  split; [intros obj; apply convert_metadata_entry_timestamp|].
  split; [apply observedAt_of_default|].
  split; [apply observedAt_of_valid|].
  split; [|split].
  - intros obj Hobj. rewrite convertNGSIv2ToLD_unfold, Hmd in Hobj.
    destruct (convert_switch attr) as [obj0|]; simpl in Hobj; try discriminate.
    destruct (convert_metadata convertNGSIv2ToLD metadata obj0) as [obj'|] eqn:E;
      simpl in Hobj; try discriminate.
    injection Hobj as <-. rewrite lookup_obj_delete_other by discriminate.
    eapply convert_metadata_observedAt; eauto.
  - intros obj0 Hswitch Hentries. apply (@convertNGSIv2ToLD_returns attr obj0 Hswitch).
    intros metadata' key e Hmd'. rewrite Hmd in Hmd'. injection Hmd' as <-. apply Hentries.
  - apply formatAsNGSILD_no_root_timestamp.
Qed.

(** *** The response handler *)

Lemma handler_transport_error (operationName : string) (entityName : value)
    (typeInformation : type_information) (token : value) (opts : options)
    (r : reply) (active : bool) (e : value) :
  r_error r = Some e ->
  generateNGSILDOperationHandler operationName entityName typeInformation token opts r active
  = (true, Failure (RequestError e)).
Proof. unfold generateNGSILDOperationHandler. now intros ->. Qed.

Lemma handler_updated (entityName : value) (typeInformation : type_information)
    (token : value) (opts : options) (r : reply) (active : bool) :
  r_error r = None -> has_orionError (r_body r) = false ->
  status_is (r_response r) 204 = true ->
  generateNGSILDOperationHandler "update" entityName typeInformation token opts r active
  = (false, Success (r_body r)).
Proof.
  unfold generateNGSILDOperationHandler. intros -> -> ->. reflexivity.
Qed.

Lemma handler_queried (entityName : value) (typeInformation : type_information)
    (token : value) (opts : options) (r : reply) (active : bool) :
  r_error r = None -> has_orionError (r_body r) = false ->
  r_body r <> VUndefined -> status_is (r_response r) 200 = true ->
  generateNGSILDOperationHandler "query" entityName typeInformation token opts r active
  = (false, Success (r_body r)).
Proof.
  unfold generateNGSILDOperationHandler. intros -> -> Hbody ->.
  change ("query" =? "update") with false. change ("query" =? "query") with true. cbv iota.
  destruct (r_body r); try reflexivity. contradiction.
Qed.

(** The handler reports success only on the two branches that release the
    alarm. *)
Lemma handler_success_releases (operationName : string) (entityName : value)
    (typeInformation : type_information) (token : value) (opts : options)
    (r : reply) (active : bool) (body : value) :
  snd (generateNGSILDOperationHandler operationName entityName typeInformation token opts r
         active) = Success body ->
  fst (generateNGSILDOperationHandler operationName entityName typeInformation token opts r
         active) = false.
Proof.
  unfold generateNGSILDOperationHandler.
  destruct (r_error r); [discriminate|].
  repeat match goal with
         | |- context [if ?c then _ else _] => destruct c; try discriminate; try reflexivity
         | |- context [match details_includes ?a ?b with _ => _ end] =>
             destruct (details_includes a b) as [[|]|]; try discriminate
         | |- context [match JSON_parse_value ?a with _ => _ end] =>
             destruct (JSON_parse_value a); try discriminate
         | |- context [match r_response ?a with _ => _ end] =>
             destruct (r_response a); try discriminate
         end.
Qed.

(** The fallback branch (lines 343-350) on a response without a body: the
    unguarded [JSON.parse] throws. *)
Lemma handler_throws_without_body (entityName : value) (typeInformation : type_information)
    (token : value) (opts : options) (r : reply) (active : bool) :
  r_error r = None -> r_body r = VUndefined ->
  status_is (r_response r) 204 = false ->
  status_is (r_response r) 403 = false -> status_is (r_response r) 401 = false ->
  generateNGSILDOperationHandler "update" entityName typeInformation token opts r active
  = (active, Uncaught SyntaxError).
Proof.
  unfold generateNGSILDOperationHandler. intros -> -> -> -> ->. reflexivity.
Qed.

Lemma alarm_after_app (entityName : value) (typeInformation : type_information)
    (token : value) (opts : options) (history later : list (string * reply)) (active : bool) :
  alarm_after entityName typeInformation token opts (history ++ later) active
  = alarm_after entityName typeInformation token opts later
      (alarm_after entityName typeInformation token opts history active).
Proof.
  revert active. induction history as [|[op r] history IH]; simpl; intros active; auto.
Qed.

(** C4, as amended.  For every exchange, update or query: a transport-level
    error raises the broker alarm and is the error handed to the caller; an
    update response with status 204, and a query response with status 200 and
    a body, release the alarm and report success, provided the body carries no
    orionError field (which is classified first, as a BadRequest that leaves
    the alarm as it was); and an exchange reported as a success leaves the
    alarm released whatever exchanges, and however many failures, came before
    it. *)
Theorem alarm_follows_the_exchange (operationName : string) (entityName : value)
    (typeInformation : type_information) (token : value) (opts : options)
    (r : reply) (active : bool) :
  (forall e, r_error r = Some e ->
     generateNGSILDOperationHandler operationName entityName typeInformation token opts r active
     = (alarms_raise active, Failure (RequestError e)))
  /\ (r_error r = None -> has_orionError (r_body r) = false ->
      status_is (r_response r) 204 = true ->
      generateNGSILDOperationHandler "update" entityName typeInformation token opts r active
      = (alarms_release active, Success (r_body r)))
  /\ (r_error r = None -> has_orionError (r_body r) = false ->
      r_body r <> VUndefined -> status_is (r_response r) 200 = true ->
      generateNGSILDOperationHandler "query" entityName typeInformation token opts r active
      = (alarms_release active, Success (r_body r)))
  /\ (forall history body,
        snd (generateNGSILDOperationHandler operationName entityName typeInformation token
               opts r (alarm_after entityName typeInformation token opts history active))
        = Success body ->
        alarm_after entityName typeInformation token opts
          (history ++ [(operationName, r)]) active = false).
Proof.
  split; [intros e; apply handler_transport_error|].
  split; [apply handler_updated|].
  split; [apply handler_queried|].
  intros history body H. rewrite alarm_after_app. simpl.
  eapply handler_success_releases; eauto.
Qed.

(** C5, as amended.  For every exchange without a transport error whose
    response has status 404 and a body that carries no orionError field, and
    whose broker error field has a string as its details: the outcome is
    DeviceNotFound when the details contain the device's type; otherwise
    AttributeNotFound when the broker error code equals '404'; otherwise
    EntityGenericError.  The alarm is left as it was. *)
Theorem not_found_is_classified (operationName : string) (entityName : value)
    (typeInformation : type_information) (token : value) (opts : options)
    (r : reply) (active : bool) (details : string) :
  r_error r = None ->
  truthy (r_body r) = true ->
  has_orionError (r_body r) = false ->
  status_is (r_response r) 404 = true ->
  get (getErrorField (r_body r)) "details" = VStr details ->
  generateNGSILDOperationHandler operationName entityName typeInformation token opts r active
  = (active,
     Failure (if includes (type_string typeInformation) details
              then DeviceNotFound entityName
              else if code_is_404 (getErrorField (r_body r))
                   then AttributeNotFound
                   else EntityGenericError entityName (ti_type typeInformation)
                          (r_body r) None)).
Proof.
  intros Herr Hbody Horion Hstatus Hdetails.
  unfold generateNGSILDOperationHandler. rewrite Herr, Horion, Hbody.
  assert (Hcode : forall code, (code =? 404)%Z = false ->
                               status_is (r_response r) code = false).
  { intros code Hne. unfold status_is in *. destruct (r_response r); auto.
    apply Z.eqb_eq in Hstatus. rewrite Hstatus. now rewrite Z.eqb_sym. }
  rewrite (Hcode 204%Z), (Hcode 200%Z), (Hcode 403%Z), (Hcode 401%Z), Hstatus by reflexivity.
  rewrite !andb_false_r. simpl.
  unfold details_includes, code_is_404. rewrite Hdetails.
  destruct (getErrorField (r_body r)); try discriminate.
  destruct (includes _ _); [reflexivity|].
  now destruct (_ && _)%bool.
Qed.

(** *** The series of per-entity exchanges *)

Lemma exchanges_app (os os' : list options) (w w' : list event) :
  exchanges os w -> exchanges os' w' -> exchanges (os ++ os') (w ++ w').
Proof.
  induction 1; simpl; auto. intros H'. constructor. auto.
Qed.

Lemma requests_for_app (opts : options) (url : string) (es es' : list object) :
  requests_for opts url (es ++ es') = requests_for opts url es ++ requests_for opts url es'.
Proof. unfold requests_for. now rewrite filter_app, map_app. Qed.

Lemma broker_after_app (os os' : list options) (w : world) :
  broker_after (os ++ os') w = broker_after os' (broker_after os w).
Proof. revert w. induction os; simpl; auto. Qed.

(** What one call of the iteratee does on the wire: nothing for an entity
    with nothing to update, one request followed by its reply otherwise. *)
Lemma sendEntity_wire (typeInformation : type_information) (token : value) (opts : options)
    (url : string) (entity0 : object) (st st' : state) (h : handled) :
  sendEntity typeInformation token opts url entity0 st = (st', h) ->
  exists w,
    wire st' = wire st ++ w
    /\ exchanges (requests_for opts url [entity0]) w
    /\ broker st' = broker_after (requests_for opts url [entity0]) (broker st)
    /\ (nothing_to_update entity0 = true -> st' = st /\ h = Success VUndefined).
Proof.
  unfold sendEntity, requests_for. simpl.
  destruct (nothing_to_update entity0) eqn:E; simpl.
  - intros [= <- <-]. exists []. rewrite app_nil_r. repeat split; constructor.
  - unfold exchange.
    destruct (request (request_for opts url entity0) (broker st)) as [r w0] eqn:Er.
    destruct (generateNGSILDOperationHandler _ _ _ _ _ _ _) as [active h0].
    intros [= <- <-]. exists [Sent (request_for opts url entity0); Received r].
    simpl. repeat split; try discriminate. repeat constructor.
Qed.

(** Whatever the outcome, the wire of a series holds the requests of a prefix
    of the entities, in their order and one at a time. *)
Lemma forEachSeries_in_order (typeInformation : type_information) (token : value)
    (opts : options) (url : string) (entities : list object) (st : state) :
  exists n w,
    wire (fst (forEachSeries typeInformation token opts url entities st)) = wire st ++ w
    /\ exchanges (requests_for opts url (firstn n entities)) w.
Proof.
  revert st. induction entities as [|e rest IH]; intros st; simpl.
  - exists 0, []. rewrite app_nil_r. split; constructor.
  - destruct (sendEntity typeInformation token opts url e st) as [st1 h] eqn:E.
    destruct (sendEntity_wire _ _ _ _ _ _ E) as [w1 [Hw1 [Hx1 _]]].
    destruct h.
    + exists 1, w1. simpl. auto.
    + destruct (IH st1) as [n [w [Hw Hx]]]. exists (S n), (w1 ++ w). split.
      * rewrite Hw, Hw1. now rewrite app_assoc.
      * change (firstn (S n) (e :: rest)) with ([e] ++ firstn n rest).
        rewrite requests_for_app. now apply exchanges_app.
    + exists 1, w1. simpl. auto.
Qed.

(** A series that ends without error has made the requests of all its
    entities. *)
Lemma forEachSeries_done (typeInformation : type_information) (token : value)
    (opts : options) (url : string) (entities : list object) (st st' : state) (data : value) :
  forEachSeries typeInformation token opts url entities st = (st', Returned None data) ->
  exists w,
    wire st' = wire st ++ w
    /\ exchanges (requests_for opts url entities) w
    /\ broker st' = broker_after (requests_for opts url entities) (broker st).
Proof.
  revert st. induction entities as [|e rest IH]; intros st; simpl.
  - intros [= <- _]. exists []. rewrite app_nil_r. repeat split; constructor.
  - destruct (sendEntity typeInformation token opts url e st) as [st1 h] eqn:E.
    destruct (sendEntity_wire _ _ _ _ _ _ E) as [w1 [Hw1 [Hx1 [Hb1 _]]]].
    destruct h; try discriminate.
    intros H. destruct (IH st1 H) as [w [Hw [Hx Hb]]].
    exists (w1 ++ w). change (e :: rest) with ([e] ++ rest).
    rewrite requests_for_app, broker_after_app. repeat split.
    + rewrite Hw, Hw1. now rewrite app_assoc.
    + now apply exchanges_app.
    + now rewrite Hb, Hb1.
Qed.

Lemma forEachSeries_app (typeInformation : type_information) (token : value)
    (opts : options) (url : string) (before after : list object) (st st1 : state)
    (data : value) :
  forEachSeries typeInformation token opts url before st = (st1, Returned None data) ->
  forEachSeries typeInformation token opts url (before ++ after) st
  = forEachSeries typeInformation token opts url after st1.
Proof.
  revert st. induction before as [|e rest IH]; intros st; simpl.
  - now intros [= <- _].
  - destruct (sendEntity typeInformation token opts url e st) as [st0 h].
    destruct h; try discriminate. apply IH.
Qed.

(** When the handler of an exchange throws, its callback is never called:
    the series makes no further request and the call does not return. *)
Lemma forEachSeries_handler_throws (typeInformation : type_information) (token : value)
    (opts : options) (url : string) (before after : list object) (entity_k : object)
    (st st1 st2 : state) (x : exn) :
  forEachSeries typeInformation token opts url before st = (st1, Returned None VUndefined) ->
  sendEntity typeInformation token opts url entity_k st1 = (st2, Uncaught x) ->
  forEachSeries typeInformation token opts url (before ++ entity_k :: after) st
  = (st2, Crashed x).
Proof.
  intros Hbefore Hk.
  rewrite (forEachSeries_app _ _ _ _ _ (entity_k :: after) _ Hbefore). simpl. now rewrite Hk.
Qed.

(** The per-entity exchanges of an update are made strictly in order and
    one at a time: whatever the outcome, the wire holds the requests of a
    prefix of the entities, each followed by its reply before the next request.
    If the exchanges of the entities before entity k succeed and the handler
    of the exchange of entity k reports an error to its callback, the call
    returns that error, no request is made for the entities after k, and
    nothing that was applied is undone: the wire holds exactly the requests of
    the entities up to k, and the broker is in the state these requests left
    it in. *)
Theorem exchanges_stop_at_first_failure (typeInformation : type_information) (token : value)
    (opts : options) (url : string) (before after : list object) (entity_k : object)
    (st st1 st2 : state) (e : error) :
  forEachSeries typeInformation token opts url before st = (st1, Returned None VUndefined) ->
  sendEntity typeInformation token opts url entity_k st1 = (st2, Failure e) ->
  forEachSeries typeInformation token opts url (before ++ entity_k :: after) st
  = (st2, Returned (Some e) VUndefined)
  /\ (exists w,
        wire st2 = wire st ++ w
        /\ exchanges (requests_for opts url (before ++ [entity_k])) w)
  /\ nothing_to_update entity_k = false
  /\ broker st2 = broker_after (requests_for opts url (before ++ [entity_k])) (broker st)
  /\ (forall entities st0,
        exists n w,
          wire (fst (forEachSeries typeInformation token opts url entities st0))
          = wire st0 ++ w
          /\ exchanges (requests_for opts url (firstn n entities)) w).
Proof.
  intros Hbefore Hk.
  destruct (forEachSeries_done _ _ _ _ _ _ Hbefore) as [w [Hw [Hx Hb]]].
  destruct (sendEntity_wire _ _ _ _ _ _ Hk) as [wk [Hwk [Hxk [Hbk Hempty]]]].
  split; [|split; [|split; [|split]]].
  - rewrite (forEachSeries_app _ _ _ _ _ (entity_k :: after) _ Hbefore). simpl. now rewrite Hk.
  - exists (w ++ wk). rewrite requests_for_app. split.
    + rewrite Hwk, Hw. now rewrite app_assoc.
    + now apply exchanges_app.
  - destruct (nothing_to_update entity_k); auto.
    destruct (Hempty eq_refl) as [_ Hh]. discriminate.
  - now rewrite requests_for_app, broker_after_app, Hbk, Hb.
  - intros entities st0. apply forEachSeries_in_order.
Qed.

(** The fallback branch (lines 343-350) on a body that is neither an object
    nor an array and is not JSON text: the unguarded [JSON.parse] throws, for
    an update answered with any status other than 204, 401 and 403 (and 404
    with a truthy body). *)
Lemma handler_throws_on_unparsable_body (entityName : value)
    (typeInformation : type_information) (token : value) (opts : options) (r : reply)
    (active : bool) :
  r_error r = None ->
  has_orionError (r_body r) = false ->
  status_is (r_response r) 204 = false ->
  status_is (r_response r) 401 = false ->
  status_is (r_response r) 403 = false ->
  (truthy (r_body r) && status_is (r_response r) 404)%bool = false ->
  is_object (r_body r) = false ->
  JSON_parse_value (r_body r) = None ->
  generateNGSILDOperationHandler "update" entityName typeInformation token opts r active
  = (active, Uncaught SyntaxError).
Proof.
  unfold generateNGSILDOperationHandler. intros -> -> -> -> -> -> -> ->.
  rewrite andb_false_r. reflexivity.
Qed.

(** C1.  The call does not always return the error of the exchange that
    fails.  When the exchanges of the entities before entity k succeed and
    the broker answers the request of entity k, without transport error, with
    a status other than 204, 401 and 403 (and other than 404 with a truthy
    body) and with a body that is neither an object nor an array and is not
    JSON text (no body at all, for one), the handler throws at its
    [JSON.parse] before it calls its callback: the requests up to entity k
    have been made in order and none is made for the entities after k, as
    claimed, but the call ends with the SyntaxError and returns no error. *)
Theorem unparsable_answer_ends_the_update_without_error
    (typeInformation : type_information) (token : value) (opts : options) (url : string)
    (before after : list object) (entity_k : object) (st st1 : state) (r : reply)
    (answered : world) :
  forEachSeries typeInformation token opts url before st = (st1, Returned None VUndefined) ->
  nothing_to_update entity_k = false ->
  request (request_for opts url entity_k) (broker st1) = (r, answered) ->
  r_error r = None ->
  has_orionError (r_body r) = false ->
  status_is (r_response r) 204 = false ->
  status_is (r_response r) 401 = false ->
  status_is (r_response r) 403 = false ->
  (truthy (r_body r) && status_is (r_response r) 404)%bool = false ->
  is_object (r_body r) = false ->
  JSON_parse_value (r_body r) = None ->
  forEachSeries typeInformation token opts url (before ++ entity_k :: after) st
  = ({| alarm := alarm st1;
        wire := wire st1 ++ [Sent (request_for opts url entity_k); Received r];
        broker := answered |},
     Crashed SyntaxError)
  /\ exists w,
       wire st1 ++ [Sent (request_for opts url entity_k); Received r] = wire st ++ w
       /\ exchanges (requests_for opts url (before ++ [entity_k])) w.
Proof.
  intros Hbefore Hsome Hrequest Herror Horion H204 H401 H403 H404 Hobject Hparse.
  assert (Hk : sendEntity typeInformation token opts url entity_k st1
               = ({| alarm := alarm st1;
                     wire := wire st1 ++ [Sent (request_for opts url entity_k); Received r];
                     broker := answered |},
                  Uncaught SyntaxError)).
  { unfold sendEntity, exchange. rewrite Hsome, Hrequest. cbn [alarm].
    rewrite (@handler_throws_on_unparsable_body (get (VObj entity_k) "id") typeInformation
               token (request_for opts url entity_k) r (alarm st1)
               Herror Horion H204 H401 H403 H404 Hobject Hparse).
    reflexivity. }
  split.
  - exact (@forEachSeries_handler_throws typeInformation token opts url before after
             entity_k st st1 _ SyntaxError Hbefore Hk).
  - destruct (forEachSeries_done _ _ _ _ _ _ Hbefore) as [w [Hw [Hx _]]].
    destruct (sendEntity_wire _ _ _ _ _ _ Hk) as [wk [Hwk [Hxk _]]]. cbn [wire] in Hwk.
    exists (w ++ wk). rewrite requests_for_app. split.
    + rewrite Hwk, Hw. now rewrite app_assoc.
    + now apply exchanges_app.
Qed.

(** *** Geometry values of odd length *)

Lemma getLngLats_odd (value0 : value) (split0 : list value) :
  splitLngLat value0 = Ok split0 ->
  length (flatten split0) mod 2 = 1 ->
  getLngLats value0 = Throw PlainError.
Proof.
  intros Hsplit Hodd. unfold getLngLats, bind. rewrite Hsplit.
  destruct (Nat.eqb_spec (length (flatten split0)) 2) as [E|_].
  - rewrite E in Hodd. discriminate.
  - now rewrite Hodd.
Qed.

Lemma convert_switch_odd_geometry (attr : attribute) (type : string) (split0 : list value) :
  a_type attr = Some type ->
  In (toLowerCase type) checked_geometry_types ->
  splitLngLat (a_value attr) = Ok split0 ->
  length (flatten split0) mod 2 = 1 ->
  convert_switch attr = Throw PlainError.
Proof.
  intros Htype Htag Hsplit Hodd. simpl in Htag.
  repeat (destruct Htag as [Htag|Htag];
          [symmetry in Htag; enter_switch Htype Htag;
           now rewrite (getLngLats_odd _ Hsplit Hodd)|]).
  contradiction.
Qed.

Lemma convertNGSIv2ToLD_switch_throws (attr : attribute) (x : exn) :
  convert_switch attr = Throw x -> convertNGSIv2ToLD attr = Throw x.
Proof. intros H. now rewrite convertNGSIv2ToLD_unfold, H. Qed.

Lemma convert_switch_purge_attribute (a : attribute) :
  convert_switch (purge_attribute a) = convert_switch a.
Proof.
  unfold purge_attribute. destruct a as [t v md oid multi]; simpl.
  destruct (truthy_key oid); simpl; destruct (truthy_key multi); reflexivity.
Qed.

Lemma In_obj_set_other (A : Type) (k k' : string) (v v' : A) (o : list (string * A)) :
  In (k, v) o -> k <> k' -> In (k, v) (obj_set k' v' o).
Proof.
  intros Hin Hne. unfold obj_set. destruct (has_key k' o).
  - induction o as [|[k0 v0] o IH]; simpl in *; [contradiction|].
    destruct (String.eqb_spec k' k0) as [->|Hk0]; simpl.
    + destruct Hin as [[= -> ->]|Hin]; [congruence|now right].
    + destruct Hin as [Hin|Hin]; [now left|right; auto].
  - induction o as [|[k0 v0] o IH]; simpl in *; [contradiction|].
    destruct (listed_before k' k0); simpl.
    + now right.
    + destruct Hin as [Hin|Hin]; [now left|right; auto].
Qed.

(** An attribute whose conversion raises makes the encoding of its entity
    raise, whatever the other keys do. *)
Lemma formatAsNGSILD_keys_throws (json rest : entity) (obj : object) (key : string)
    (a : attribute) (x : exn) :
  In (key, FAttribute a) rest -> ~ In key reserved_keys ->
  convertNGSIv2ToLD a = Throw x ->
  is_ok (formatAsNGSILD_keys json rest obj) = false.
Proof.
  intros Hin Hkey Hthrow. revert obj.
  induction rest as [|[k f] rest IH]; simpl in *; [contradiction|]. intros obj.
  destruct Hin as [[= -> ->]|Hin].
  - unfold formatAsNGSILD_key.
    destruct (String.eqb_spec key "id") as [->|_]; [exfalso; apply Hkey; simpl; auto|].
    destruct (String.eqb_spec key "type") as [->|_]; [exfalso; apply Hkey; simpl; auto|].
    destruct (String.eqb_spec key "@context") as [->|_]; [exfalso; apply Hkey; simpl; auto|].
    destruct (String.eqb_spec key TIMESTAMP_ATTRIBUTE) as [->|_];
      [exfalso; apply Hkey; simpl; auto|].
    simpl. now rewrite Hthrow.
  - destruct (formatAsNGSILD_key json obj k f); simpl; auto.
Qed.

Lemma formatAsNGSILD_throws (json : entity) (key : string) (a : attribute) (x : exn) :
  In (key, FAttribute a) json -> ~ In key reserved_keys ->
  convertNGSIv2ToLD a = Throw x ->
  is_ok (formatAsNGSILD json) = false.
Proof.
  intros Hin Hkey Hthrow. unfold formatAsNGSILD.
  pose proof (@formatAsNGSILD_keys_throws json json
                [("@context", VArr (map VStr (split ";" jsonLdContext)))] key a x
                Hin Hkey Hthrow) as H.
  destruct (formatAsNGSILD_keys json json _); simpl in *; auto.
Qed.

Lemma formatAsNGSILD_all_throws (es : list entity) (e : entity) :
  In e es -> is_ok (formatAsNGSILD e) = false -> is_ok (formatAsNGSILD_all es) = false.
Proof.
  induction es as [|e0 es IH]; simpl; [contradiction|].
  intros [->|Hin] H.
  - destruct (formatAsNGSILD e); simpl in *; auto; discriminate.
  - destruct (formatAsNGSILD e0); simpl; auto.
    specialize (IH Hin H). destruct (formatAsNGSILD_all es); simpl in *; auto.
Qed.

Lemma encode_throws (json : payload) (entityId type : string) (key : string)
    (a : attribute) (x : exn) :
  carries json key a -> ~ In key reserved_keys ->
  convert_switch a = Throw x ->
  is_ok (encode (purge json) entityId type) = false.
Proof.
  intros Hcarries Hkey Hthrow. destruct json as [es|e]; simpl in *.
  - destruct Hcarries as [e [He Ha]].
    apply formatAsNGSILD_all_throws with (e := purge_entity e).
    + now apply in_map.
    + apply formatAsNGSILD_throws with (key := key) (a := purge_attribute a) (x := x); auto.
      * unfold purge_entity. apply in_map_iff. now exists (key, FAttribute a).
      * apply convertNGSIv2ToLD_switch_throws. now rewrite convert_switch_purge_attribute.
  - assert (H : is_ok (formatAsNGSILD
                         (obj_set "type" (FString type)
                            (obj_set "id" (FString entityId) e))) = false).
    { apply formatAsNGSILD_throws with (key := key) (a := a) (x := x); auto.
      - apply In_obj_set_other; [apply In_obj_set_other; auto|];
          intros ->; apply Hkey; simpl; auto.
      - now apply convertNGSIv2ToLD_switch_throws. }
    destruct (formatAsNGSILD _); simpl in *; auto.
Qed.

(** C6, as amended.  For every attribute sent under a key that the envelope
    encodes, declared with one of the geometry types point, linestring,
    polygon or multipoint (with or without the geo: alias, in any letter case)
    or geoproperty, whose value flattens to a coordinate list of odd length:
    the update fails with BadGeocoordinates and nothing is sent.  The value of
    a multilinestring or multipolygon is passed through as it is and is not
    checked. *)
Theorem odd_coordinates_fail_the_update (entityId : string)
    (typeInformation : type_information) (type : string) (token : value) (opts : options)
    (payload0 : entity) (result0 : option payload) (json : payload) (st : state)
    (key : string) (attr : attribute) (declared : string) (split0 : list value) :
  select_json typeInformation payload0 result0 = inr json ->
  carries json key attr ->
  ~ In key reserved_keys ->
  a_type attr = Some declared ->
  In (toLowerCase declared) checked_geometry_types ->
  splitLngLat (a_value attr) = Ok split0 ->
  length (flatten split0) mod 2 = 1 ->
  update_callback entityId typeInformation type token opts payload0 None result0 st
  = (st, Returned (Some BadGeocoordinates) VUndefined).
Proof.
  intros Hjson Hcarries Hkey Htype Htag Hsplit Hodd.
  unfold update_callback, send_json. rewrite Hjson.
  pose proof (convert_switch_odd_geometry attr Htype Htag Hsplit Hodd) as Hthrow.
  pose proof (@encode_throws json entityId type key attr PlainError Hcarries Hkey Hthrow) as H.
  destruct (encode (purge json) entityId type); simpl in H; [discriminate|reflexivity].
Qed.

(** *** The internal keys [object_id] and [multi] *)

(** In the array shape the purge removes every truthy [object_id] and
    [multi]. *)
Lemma purge_attribute_purged (a : attribute) :
  truthy_key (a_object_id (purge_attribute a)) = false
  /\ truthy_key (a_multi (purge_attribute a)) = false.
Proof.
  unfold purge_attribute. destruct a as [t v md oid multi]; simpl.
  destruct (truthy_key oid) eqn:E1; simpl; destruct (truthy_key multi) eqn:E2; simpl; auto.
Qed.

Lemma purge_entities_purged (es : list entity) (e : entity) (key : string) (a : attribute) :
  purge (Entities es) = Entities (map purge_entity es)
  /\ (In e (map purge_entity es) -> In (key, FAttribute a) e ->
      truthy_key (a_object_id a) = false /\ truthy_key (a_multi a) = false).
Proof.
  split; [reflexivity|]. intros He Ha.
  apply in_map_iff in He as [e0 [<- _]]. unfold purge_entity in Ha.
  apply in_map_iff in Ha as [[k f] [Heq _]]. simpl in Heq.
  destruct f as [s|a0]; simpl in Heq; [discriminate|].
  injection Heq as _ <-. apply purge_attribute_purged.
Qed.

(** The object built by the [switch] has the keys [type] and [value] (or
    [object]) only. *)
Lemma convert_switch_keys (attr : attribute) (obj : object) (k : string) :
  convert_switch attr = Ok obj ->
  k <> "type" -> k <> "value" -> k <> "object" ->
  lookup k obj = None.
Proof.
  unfold convert_switch. intros H Htype Hvalue Hobject.
  destruct (a_type attr) as [type|]; [|discriminate]. cbv zeta in H.
  repeat match type of H with
         | context [if ?c then _ else _] => destruct c
         end;
    try (destruct (getLngLats (a_value attr)); [|discriminate]);
    simpl in H; injection H as <-; simpl;
    repeat match goal with
           | |- context [k =? ?s] => destruct (String.eqb_spec k s); [contradiction|]
           end;
    reflexivity.
Qed.

(** On the wire an attribute has a key [object_id] only if one of its metadata
    entries is itself named [object_id]: the converted attribute is built from
    [type], [value] and [metadata] alone. *)
Lemma convertNGSIv2ToLD_drops_object_id (attr : attribute) (obj : object) :
  convertNGSIv2ToLD attr = Ok obj ->
  (forall metadata, a_metadata attr = Some metadata -> ~ In "object_id" (keys metadata)) ->
  lookup "object_id" obj = None.
Proof.
  intros Hobj Hmd. destruct (convert_switch attr) as [obj0|x] eqn:Hswitch.
  - rewrite (convertNGSIv2ToLD_keeps (k := "object_id") attr Hswitch Hobj);
      try discriminate; auto.
    eapply convert_switch_keys; eauto; discriminate.
  - rewrite (convertNGSIv2ToLD_switch_throws _ Hswitch) in Hobj. discriminate.
Qed.

(** C2: the purge of lines 495-522 on a single-entity payload.  The test
    [if (json)] holds for an object as well as for an array, so the loop meant
    for arrays runs, zero times, and the loop meant for a single entity is
    never reached: every attribute keeps its object_id, here the one of the
    attribute temperature. *)
Theorem purge_keeps_object_id_of_single_entity :
  (forall e : entity, purge (SingleEntity e) = SingleEntity e)
  /\ purge (SingleEntity [("temperature", FAttribute temperature_with_object_id)])
     = SingleEntity [("temperature", FAttribute temperature_with_object_id)]
  /\ a_object_id temperature_with_object_id = Some (VStr "t").
Proof. repeat split. Qed.

(** *** The guard on [typeInformation] *)

Lemma update_without_typeInformation (entityId : string) (attributes : list attribute_update)
    (token : value) (st : state) :
  sendUpdateValueNgsiLD entityId attributes None token st
  = (st, Returned (Some (TypeNotFound (VStr entityId))) VUndefined).
Proof. reflexivity. Qed.

Lemma update_without_type (entityId : string) (attributes : list attribute_update)
    (typeInformation : type_information) (token : value) (st : state) :
  nonempty (ti_type typeInformation) = None ->
  sendUpdateValueNgsiLD entityId attributes (Some typeInformation) token st
  = (st, Returned (Some (TypeNotFound (VStr entityId))) VUndefined).
Proof. unfold sendUpdateValueNgsiLD. now intros ->. Qed.

Lemma query_without_type (entityName : string) (attributes : option (list string))
    (typeInformation : type_information) (token : value) (st : state) :
  nonempty (ti_type typeInformation) = None ->
  sendQueryValueNgsiLD entityName attributes (Some typeInformation) token st
  = (st, Returned (Some (TypeNotFound (VStr entityName))) VUndefined).
Proof. unfold sendQueryValueNgsiLD. now intros ->. Qed.

(** C10: a query without typeInformation.  Line 364 reads
    [typeInformation.type] to build the URL before the guard of line 374 is
    reached: the call throws a TypeError, its callback is never called with
    TypeNotFound.  Nothing is sent and the alarm is untouched. *)
Theorem query_without_typeInformation_throws (entityName : string)
    (attributes : option (list string)) (token : value) (st : state) :
  sendQueryValueNgsiLD entityName attributes None token st = (st, Crashed TypeError).
Proof. reflexivity. Qed.

(** *** Coordinates: order, shape and numbers *)

(** Induction on values, through the items of arrays. *)
Lemma value_items_ind (P : value -> Prop)
    (Hundefined : P VUndefined) (Hnull : P VNull) (Hbool : forall b, P (VBool b))
    (Hnum : forall n, P (VNum n)) (Hstr : forall s, P (VStr s))
    (Harr : forall items, Forall P items -> P (VArr items))
    (Hobj : forall fields, P (VObj fields)) (v : value) : P v.
Proof.
  revert v. fix IH 1.
  intros [| |b|n|s|items|fields];
    [exact Hundefined|exact Hnull|apply Hbool|apply Hnum|apply Hstr| |apply Hobj].
  apply Harr. induction items as [|x rest IHrest]; constructor; [apply IH|exact IHrest].
Qed.

Lemma Forall_flat_map (A B : Type) (Q : B -> Prop) (f : A -> list B) (l : list A) :
  Forall (fun x => Forall Q (f x)) l -> Forall Q (flat_map f l).
Proof.
  induction 1; simpl; [constructor|]. apply Forall_app. now split.
Qed.

Lemma flatten_value_leaves (v : value) :
  Forall (fun x => is_array x = false) (flatten_value v).
Proof.
  induction v using value_items_ind; simpl; try (repeat constructor).
  apply Forall_flat_map. assumption.
Qed.

Lemma flatten_leaves (l : list value) : Forall (fun x => is_array x = false) (flatten l).
Proof.
  unfold flatten. apply Forall_flat_map. apply Forall_forall. intros x _.
  apply flatten_value_leaves.
Qed.

Lemma flat_map_flatten_value_leaves (l : list value) :
  Forall (fun x => is_array x = false) l -> flat_map flatten_value l = l.
Proof.
  induction 1 as [|x l Hx _ IH]; simpl; auto.
  rewrite IH. destruct x; try reflexivity. discriminate.
Qed.

Lemma pairs_flatten (n : nat) (l : list value) :
  length l = 2 * n -> Forall (fun x => is_array x = false) l ->
  flat_map flatten_value (pairs l) = l
  /\ length (pairs l) = n
  /\ Forall (fun p => is_pair p = true) (pairs l).
Proof.
  revert l. induction n as [|n IH]; intros l Hlen Hleaves.
  - destruct l; [|discriminate]. simpl. repeat split; constructor.
  - destruct l as [|a [|b rest]]; try (simpl in Hlen; lia).
    inversion Hleaves as [|? ? Ha Hrest']; subst.
    inversion Hrest' as [|? ? Hb Hrest]; subst.
    destruct (IH rest) as [Hflat [Hcount Hpairs]]; [simpl in Hlen; lia|assumption|].
    cbn [pairs flat_map flatten_value length app]. rewrite Hflat, Hcount.
    split; [|split].
    + destruct a; try discriminate; destruct b; try discriminate; reflexivity.
    + reflexivity.
    + constructor; [reflexivity|assumption].
Qed.

Lemma flat_map_numbers (A : Type) (f : A -> number) (l : list A) :
  flat_map flatten_value (map (fun piece => VNum (f piece)) l)
  = map (fun piece => VNum (f piece)) l.
Proof.
  induction l as [|x l IH]; simpl; [reflexivity|]. now rewrite IH.
Qed.

Lemma splitLngLat_element_numbers (element : value) :
  Forall (fun x => is_number x = true) (flatten_value (splitLngLat_element element)).
Proof.
  induction element as [| |b|n|s|items IH|fields] using value_items_ind;
    try (simpl; repeat constructor).
  - simpl. destruct (includes_char "," s); simpl; [|repeat constructor].
    unfold splitLngLat_string. rewrite flat_map_numbers.
    apply Forall_forall. intros x Hx. apply in_map_iff in Hx.
    destruct Hx as [piece [<- _]]. reflexivity.
  - simpl. apply Forall_flat_map. apply Forall_forall. intros x Hx.
    apply in_map_iff in Hx. destruct Hx as [y [<- Hy]].
    rewrite Forall_forall in IH. now apply IH.
Qed.

Lemma splitLngLat_numbers (value0 : value) (split0 : list value) :
  splitLngLat value0 = Ok split0 ->
  Forall (fun x => is_number x = true) (flatten split0).
Proof.
  destruct value0; simpl; try discriminate; intros H; injection H as <-; unfold flatten.
  - unfold splitLngLat_string. rewrite flat_map_numbers.
    apply Forall_forall. intros x Hx. apply in_map_iff in Hx.
    destruct Hx as [piece [<- _]]. reflexivity.
  - apply Forall_flat_map. apply Forall_forall. intros x Hx.
    apply in_map_iff in Hx. destruct Hx as [y [<- Hy]].
    apply splitLngLat_element_numbers.
Qed.

Lemma split_aux_length (sep : ascii) (s current : string) :
  length (split_aux sep s current) = S (occurrences sep s).
Proof.
  revert current. induction s as [|c s IH]; intros current; simpl; [reflexivity|].
  destruct (Ascii.eqb c sep); simpl; now rewrite IH.
Qed.

(** X1.  When [getLngLats] returns, it has kept every coordinate that
    [splitLngLat] produced, in the same order: flattening the result gives the
    flattened list again.  Exactly two coordinates come back as one flat pair;
    any other (even) number comes back as a list of two-element arrays, half
    as many as there are coordinates. *)
Theorem getLngLats_keeps_every_coordinate (value0 : value) (split0 : list value)
    (coordinates : value) :
  splitLngLat value0 = Ok split0 ->
  getLngLats value0 = Ok coordinates ->
  exists l,
    coordinates = VArr l
    /\ flatten l = flatten split0
    /\ (length (flatten split0) = 2 -> l = flatten split0)
    /\ (length (flatten split0) <> 2 ->
        Forall (fun p => is_pair p = true) l /\ 2 * length l = length (flatten split0)).
Proof.
  intros Hsplit Hget. unfold getLngLats, bind in Hget. rewrite Hsplit in Hget.
  pose proof (flatten_leaves split0) as Hleaves.
  destruct (Nat.eqb_spec (length (flatten split0)) 2) as [E|E].
  - injection Hget as <-. exists (flatten split0). repeat split; auto; try contradiction.
    unfold flatten at 1. now apply flat_map_flatten_value_leaves.
  - destruct (Nat.eqb_spec (length (flatten split0) mod 2) 0) as [Heven|Hodd];
      simpl in Hget; [|discriminate].
    injection Hget as <-.
    assert (Hlen : length (flatten split0) = 2 * (length (flatten split0) / 2)).
    { pose proof (Nat.div_mod_eq (length (flatten split0)) 2). lia. }
    destruct (pairs_flatten _ Hlen Hleaves) as [Hflat [Hcount Hpairs]].
    exists (pairs (flatten split0)). repeat split; auto; try contradiction; lia.
Qed.

(** X2.  Every coordinate that [getLngLats] returns is a Number: whatever
    the value held (texts, booleans, objects, nested arrays), each leaf has
    gone through [Number.parseFloat], so it is a number or NaN. *)
Theorem getLngLats_coordinates_are_numbers (value0 coordinates : value) :
  getLngLats value0 = Ok coordinates ->
  Forall (fun x => is_number x = true) (flatten_value coordinates).
Proof.
  intros Hget. unfold getLngLats, bind in Hget.
  destruct (splitLngLat value0) as [split0|] eqn:Hsplit; [|discriminate].
  pose proof (splitLngLat_numbers _ Hsplit) as Hnumbers.
  pose proof (flatten_leaves split0) as Hleaves.
  destruct (Nat.eqb_spec (length (flatten split0)) 2) as [E|E].
  - injection Hget as <-. simpl.
    rewrite flat_map_flatten_value_leaves by assumption. assumption.
  - destruct (Nat.eqb_spec (length (flatten split0) mod 2) 0) as [Heven|Hodd];
      simpl in Hget; [|discriminate].
    injection Hget as <-.
    assert (Hlen : length (flatten split0) = 2 * (length (flatten split0) / 2)).
    { pose proof (Nat.div_mod_eq (length (flatten split0)) 2). lia. }
    destruct (pairs_flatten _ Hlen Hleaves) as [Hflat _].
    simpl. rewrite Hflat. assumption.
Qed.

(** X3.  A value given as a string is cut at its commas, one coordinate per
    piece, so there is one more coordinate than there are commas;
    [getLngLats] accepts the string exactly when the number of commas is odd,
    and throws its plain [Error] otherwise (the empty string, one piece,
    included). *)
Theorem getLngLats_of_a_string (s : string) :
  length (splitLngLat_string s) = S (occurrences "," s)
  /\ is_ok (getLngLats (VStr s)) = Nat.odd (occurrences "," s)
  /\ (Nat.odd (occurrences "," s) = false -> getLngLats (VStr s) = Throw PlainError).
Proof.
  assert (Hlen : length (flatten (splitLngLat_string s)) = S (occurrences "," s)).
  { unfold flatten, splitLngLat_string. rewrite flat_map_numbers, length_map.
    apply split_aux_length. }
  split; [unfold splitLngLat_string; rewrite length_map; apply split_aux_length|].
  unfold getLngLats, bind, splitLngLat. rewrite Hlen.
  pose proof (Nat.div_mod_eq (S (occurrences "," s)) 2) as Hdiv.
  pose proof (Nat.mod_upper_bound (S (occurrences "," s)) 2) as Hbound.
  destruct (Nat.odd (occurrences "," s)) eqn:Hodd.
  - apply Nat.odd_spec in Hodd. destruct Hodd as [k Hk].
    assert (Hmod : S (occurrences "," s) mod 2 = 0).
    { rewrite Hk. replace (S (2 * k + 1)) with ((k + 1) * 2) by lia. apply Nat.Div0.mod_mul. }
    rewrite Hmod. simpl. split; [|discriminate].
    match goal with |- context [if ?c then _ else _] => destruct c end; reflexivity.
  - assert (Heven : Nat.even (occurrences "," s) = true).
    { rewrite <- Nat.negb_odd, Hodd. reflexivity. }
    apply Nat.even_spec in Heven. destruct Heven as [k Hk].
    assert (Hmod : S (occurrences "," s) mod 2 = 1).
    { rewrite Hk. replace (S (2 * k)) with (1 + k * 2) by lia.
      rewrite Nat.Div0.mod_add. reflexivity. }
    rewrite Hmod.
    destruct (Nat.eqb_spec (S (occurrences "," s)) 2) as [E|E]; [lia|].
    simpl. split; [reflexivity|auto].
Qed.

(** *** The attribute caster: failures, kinds and metadata *)

(** Induction on attributes, through their metadata entries. *)
Lemma attribute_metadata_ind (P : attribute -> Prop)
    (H : forall t v md oid multi,
        match md with
        | Some metadata => Forall (fun kv => P (snd kv)) metadata
        | None => True
        end -> P (Attribute t v md oid multi))
    (a : attribute) : P a.
Proof.
  revert a. fix IH 1. intros [t v [metadata|] oid multi]; apply H; [|exact I].
  induction metadata as [|[key entry] rest IHrest]; constructor; [apply IH|exact IHrest].
Qed.

Lemma lookup_none_not_in (A : Type) (k : string) (o : list (string * A)) :
  lookup k o = None -> ~ In k (keys o).
Proof.
  induction o as [|[k' v] o IH]; simpl; [auto|].
  destruct (String.eqb_spec k k'); [discriminate|].
  intros Hnone [E|Hin]; [congruence|]. now apply IH.
Qed.

Lemma lower_char_idempotent (c : ascii) : lower_char (lower_char c) = lower_char c.
Proof.
  destruct c as [[] [] [] [] [] [] [] []]; reflexivity.
Qed.

Lemma toLowerCase_idempotent (s : string) : toLowerCase (toLowerCase s) = toLowerCase s.
Proof.
  induction s as [|c s IH]; simpl; [reflexivity|].
  now rewrite lower_char_idempotent, IH.
Qed.

Lemma checked_geometry_cases (tag : string) :
  In tag checked_geometry_types <->
  (member tag ["geoproperty"; "point"; "geo:point"]
   || member tag ["linestring"; "geo:linestring"]
   || member tag ["polygon"; "geo:polygon"]
   || member tag ["multipoint"; "geo:multipoint"])%bool = true.
Proof.
  rewrite <- member_In. unfold member, checked_geometry_types. simpl.
  repeat rewrite orb_false_r. repeat rewrite orb_assoc. reflexivity.
Qed.

(** X4.  The [switch] of [convertNGSIv2ToLD] raises in two cases only: the
    attribute has no [type] (a TypeError, from [attr.type.toLowerCase]), or
    its lower-cased type is one of the geometry types whose value goes through
    [getLngLats] and [getLngLats] raises on the value, the exception being
    that of [getLngLats].  No other type and no value makes it raise. *)
Theorem convert_switch_raises_only (attr : attribute) (x : exn) :
  convert_switch attr = Throw x <->
  (a_type attr = None /\ x = TypeError)
  \/ (exists type,
         a_type attr = Some type
         /\ In (toLowerCase type) checked_geometry_types
         /\ getLngLats (a_value attr) = Throw x).
Proof.
  split.
  - unfold convert_switch. destruct (a_type attr) as [type|].
    + cbv zeta. intros H. right. exists type. split; [reflexivity|].
      rewrite checked_geometry_cases.
      repeat match type of H with
             | context [if ?c then _ else _] => destruct c eqn:?
             end;
        try discriminate;
        (destruct (getLngLats (a_value attr)) as [coordinates|x'] eqn:Hget;
         [discriminate|]);
        simpl in H; injection H as ->;
        (split; [repeat (rewrite orb_true_r || rewrite orb_true_l); reflexivity
                |reflexivity]).
    + intros H. injection H as <-. now left.
  - intros [[Htype ->]|[type [Htype [Htag Hget]]]].
    + unfold convert_switch. now rewrite Htype.
    + simpl in Htag.
      repeat (destruct Htag as [Htag|Htag];
              [symmetry in Htag; enter_switch Htype Htag; now rewrite Hget|]).
      contradiction.
Qed.

Lemma member_checked_geometry (tag : string) :
  member tag checked_geometry_types
  = (member tag ["geoproperty"; "point"; "geo:point"]
     || member tag ["linestring"; "geo:linestring"]
     || member tag ["polygon"; "geo:polygon"]
     || member tag ["multipoint"; "geo:multipoint"])%bool.
Proof.
  unfold member, checked_geometry_types. simpl.
  repeat rewrite orb_false_r. repeat rewrite orb_assoc. reflexivity.
Qed.

Lemma switch_accepts_ok (attr : attribute) :
  is_ok (convert_switch attr) = switch_accepts attr.
Proof.
  unfold convert_switch, switch_accepts. destruct (a_type attr) as [type|]; [|reflexivity].
  cbv zeta. destruct (member (toLowerCase type) checked_geometry_types) eqn:Hchecked.
  - apply member_In in Hchecked. simpl in Hchecked.
    repeat (destruct Hchecked as [Hchecked|Hchecked];
            [rewrite <- Hchecked; decide_tests;
             destruct (getLngLats (a_value attr)); reflexivity|]).
    contradiction.
  - rewrite member_checked_geometry in Hchecked.
    apply orb_false_elim in Hchecked. destruct Hchecked as [Hchecked Hmultipoint].
    apply orb_false_elim in Hchecked. destruct Hchecked as [Hchecked Hpolygon].
    apply orb_false_elim in Hchecked. destruct Hchecked as [Hpoint Hlinestring].
    rewrite Hpoint, Hlinestring, Hpolygon, Hmultipoint.
    repeat match goal with
           | |- context [if ?c then _ else _] => destruct c
           end;
      reflexivity.
Qed.

Lemma convertible_unfold (attr : attribute) :
  convertible attr
  = (switch_accepts attr
     && match a_metadata attr with
        | None => true
        | Some metadata =>
            forallb (fun kv =>
                       (fst kv =? TIMESTAMP_ATTRIBUTE) || (fst kv =? "unitCode")
                       || convertible (snd kv))
              metadata
        end)%bool.
Proof. destruct attr; reflexivity. Qed.

Lemma convert_metadata_convertible (metadata : list (string * attribute)) :
  Forall (fun kv => is_ok (convertNGSIv2ToLD (snd kv)) = convertible (snd kv)) metadata ->
  forall obj,
    is_ok (convert_metadata convertNGSIv2ToLD metadata obj)
    = forallb (fun kv =>
                 (fst kv =? TIMESTAMP_ATTRIBUTE) || (fst kv =? "unitCode")
                 || convertible (snd kv))
        metadata.
Proof.
  induction 1 as [|[key entry] rest Hentry _ IH]; intros obj; [reflexivity|].
  simpl in Hentry. cbn [convert_metadata forallb fst snd]. unfold bind, convert_metadata_entry.
  destruct (key =? TIMESTAMP_ATTRIBUTE).
  - simpl. match goal with |- context [if ?c then _ else _] => destruct c end; apply IH.
  - destruct (key =? "unitCode"); simpl; [apply IH|].
    rewrite <- Hentry. destruct (convertNGSIv2ToLD entry); simpl; [apply IH|reflexivity].
Qed.

(** X5.  [convertNGSIv2ToLD] returns exactly on the convertible attributes:
    those that the [switch] accepts and whose metadata entries, other than
    [TimeInstant] and [unitCode], are convertible in turn, at every depth.
    The entries [TimeInstant] and [unitCode] are never converted, so they may
    lack a type. *)
Theorem convertNGSIv2ToLD_returns_iff_convertible (attr : attribute) :
  is_ok (convertNGSIv2ToLD attr) = convertible attr.
Proof.
  induction attr as [t v md oid multi IH] using attribute_metadata_ind.
  rewrite convertNGSIv2ToLD_unfold, convertible_unfold, <- switch_accepts_ok.
  unfold bind. destruct (convert_switch (Attribute t v md oid multi)) as [obj0|x];
    [|reflexivity].
  cbn [a_metadata is_ok andb]. destruct md as [metadata|]; [|reflexivity].
  rewrite <- (convert_metadata_convertible IH obj0).
  destruct (convert_metadata convertNGSIv2ToLD metadata obj0); reflexivity.
Qed.

(** X6.  The recognized types are matched whatever the case of their
    letters: an attribute whose declared type is recognized converts exactly
    as the same attribute with the type written in lower case. *)
Theorem recognized_types_ignore_case (attr : attribute) (type : string) :
  a_type attr = Some type ->
  member (toLowerCase type) recognized_types = true ->
  convertNGSIv2ToLD attr = convertNGSIv2ToLD (with_type attr (toLowerCase type)).
Proof.
  intros Htype Hknown.
  assert (Hswitch : convert_switch attr = convert_switch (with_type attr (toLowerCase type))).
  { unfold convert_switch, with_type. rewrite Htype. cbn [a_type a_value]. cbv zeta.
    rewrite toLowerCase_idempotent.
    repeat match goal with
           | |- context [if ?c then _ else _] => destruct c eqn:?
           end;
      try reflexivity.
    exfalso. apply member_In in Hknown. simpl in Hknown.
    repeat (destruct Hknown as [Hknown|Hknown];
            [rewrite <- Hknown in *;
             match goal with
             | E : _ = false |- _ => vm_compute in E; discriminate
             end|]).
    contradiction. }
  rewrite (convertNGSIv2ToLD_unfold attr),
    (convertNGSIv2ToLD_unfold (with_type attr (toLowerCase type))), Hswitch.
  reflexivity.
Qed.

Lemma member_geometry (tag : string) :
  member tag geometry_types
  = (member tag ["geoproperty"; "point"; "geo:point"]
     || member tag ["linestring"; "geo:linestring"]
     || member tag ["polygon"; "geo:polygon"]
     || member tag ["multipoint"; "geo:multipoint"]
     || member tag ["multilinestring"; "geo:multilinestring"]
     || member tag ["multipolygon"; "geo:multipolygon"])%bool.
Proof.
  unfold member, geometry_types, checked_geometry_types. simpl.
  repeat rewrite orb_false_r. repeat rewrite orb_assoc. reflexivity.
Qed.

Lemma convert_switch_kind (attr : attribute) (type : string) (obj0 : object) :
  a_type attr = Some type ->
  convert_switch attr = Ok obj0 ->
  lookup "type" obj0
  = Some (VStr (if member (toLowerCase type) geometry_types then "GeoProperty"
                else if toLowerCase type =? "relationship" then "Relationship"
                else "Property")).
Proof.
  intros Htype. unfold convert_switch. rewrite Htype. cbv zeta.
  destruct (String.eqb_spec (toLowerCase type) "relationship") as [Hrel|Hrel].
  - rewrite Hrel. decide_tests. intros H. injection H as <-. reflexivity.
  - destruct (member (toLowerCase type) geometry_types) eqn:Hgeo.
    + apply member_In in Hgeo. simpl in Hgeo.
      repeat (destruct Hgeo as [Hgeo|Hgeo];
              [rewrite <- Hgeo; decide_tests;
               try destruct (getLngLats (a_value attr));
               simpl; intros H; first [discriminate|injection H as <-; reflexivity]|]).
      contradiction.
    + rewrite member_geometry in Hgeo.
      apply orb_false_elim in Hgeo. destruct Hgeo as [Hgeo Hmultipolygon].
      apply orb_false_elim in Hgeo. destruct Hgeo as [Hgeo Hmultilinestring].
      apply orb_false_elim in Hgeo. destruct Hgeo as [Hgeo Hmultipoint].
      apply orb_false_elim in Hgeo. destruct Hgeo as [Hgeo Hpolygon].
      apply orb_false_elim in Hgeo. destruct Hgeo as [Hpoint Hlinestring].
      rewrite Hpoint, Hlinestring, Hpolygon, Hmultipoint, Hmultilinestring, Hmultipolygon.
      repeat match goal with
             | |- context [if ?c then _ else _] => destruct c
             end;
        intros H; injection H as <-; reflexivity.
Qed.

(** X7.  The [type] of a converted attribute is one of the three kinds of
    NGSI-LD, chosen by the lower-cased declared type alone: GeoProperty for
    the geometry types, Relationship for [relationship], Property for every
    other type, recognized or not (provided no metadata entry is itself named
    [type], which would overwrite it). *)
Theorem converted_attribute_kind (attr : attribute) (type : string) (obj : object) :
  a_type attr = Some type ->
  convertNGSIv2ToLD attr = Ok obj ->
  (forall metadata, a_metadata attr = Some metadata -> ~ In "type" (keys metadata)) ->
  lookup "type" obj
  = Some (VStr (if member (toLowerCase type) geometry_types then "GeoProperty"
                else if toLowerCase type =? "relationship" then "Relationship"
                else "Property")).
Proof.
  intros Htype Hobj Hmetadata.
  destruct (convert_switch attr) as [obj0|x] eqn:Hswitch.
  - rewrite (convertNGSIv2ToLD_keeps (k := "type") attr Hswitch Hobj);
      try discriminate; auto.
    eapply convert_switch_kind; eassumption.
  - rewrite (convertNGSIv2ToLD_switch_throws _ Hswitch) in Hobj. discriminate.
Qed.

(** X8.  A converted relationship carries its raw value under [object] and
    has no [value] property (provided no metadata entry is named [object] or
    [value]). *)
Theorem relationship_has_an_object_and_no_value (attr : attribute) (type : string)
    (obj : object) :
  a_type attr = Some type ->
  toLowerCase type = "relationship" ->
  convertNGSIv2ToLD attr = Ok obj ->
  (forall metadata, a_metadata attr = Some metadata ->
     ~ In "object" (keys metadata) /\ ~ In "value" (keys metadata)) ->
  lookup "object" obj = Some (a_value attr) /\ lookup "value" obj = None.
Proof.
  intros Htype Htag Hobj Hmetadata.
  assert (Hswitch : convert_switch attr
                    = Ok [("type", VStr "Relationship"); ("object", a_value attr)]).
  { enter_switch Htype Htag. reflexivity. }
  split.
  - rewrite (convertNGSIv2ToLD_keeps (k := "object") attr Hswitch Hobj);
      try discriminate; [reflexivity|].
    intros metadata Hsome. now destruct (Hmetadata metadata Hsome).
  - rewrite (convertNGSIv2ToLD_keeps (k := "value") attr Hswitch Hobj);
      try discriminate; [reflexivity|].
    intros metadata Hsome. now destruct (Hmetadata metadata Hsome).
Qed.

Lemma written_key_elsewhere (key : string) (rest : list (string * attribute)) :
  (forall k', In k' (key :: keys rest) -> written_key k' = written_key key -> k' = key) ->
  ~ In key (keys rest) ->
  ~ In (written_key key) (map written_key (keys rest)).
Proof.
  intros Hwritten Hfresh Hin. apply in_map_iff in Hin. destruct Hin as [k' [Hk' Hin]].
  apply Hfresh. rewrite <- (Hwritten k'); [assumption|now right|assumption].
Qed.

(** The entry of a key is the last one to write its key of [obj] when no
    other entry writes the same one. *)
Lemma convert_metadata_written (convert : attribute -> result object)
    (metadata : list (string * attribute)) (key : string) (entry : attribute) :
  NoDup (keys metadata) ->
  In (key, entry) metadata ->
  (forall k', In k' (keys metadata) -> written_key k' = written_key key -> k' = key) ->
  forall obj obj',
    convert_metadata convert metadata obj = Ok obj' ->
    exists obj1 obj2,
      convert_metadata_entry convert obj1 key entry = Ok obj2
      /\ lookup (written_key key) obj' = lookup (written_key key) obj2.
Proof.
  induction metadata as [|[k0 e0] rest IH]; intros Hnodup Hin Hwritten obj obj' Hloop;
    [contradiction|].
  inversion Hnodup as [|? ? Hfresh Hnodup']; subst.
  cbn [convert_metadata] in Hloop. unfold bind in Hloop.
  destruct (convert_metadata_entry convert obj k0 e0) as [obj0|] eqn:Hentry; [|discriminate].
  destruct Hin as [Hhead|Hin].
  - injection Hhead as -> ->. exists obj, obj0. split; [assumption|].
    rewrite (@convert_metadata_other convert rest obj0 obj' (written_key key) Hloop);
      [reflexivity|].
    apply written_key_elsewhere; assumption.
  - assert (Hwritten' : forall k', In k' (keys rest) ->
                          written_key k' = written_key key -> k' = key).
    { intros k' Hk'. apply Hwritten. now right. }
    exact (IH Hnodup' Hin Hwritten' obj0 obj' Hloop).
Qed.

(** X9.  The metadata entry [unitCode] is promoted: the converted attribute
    has the raw value of the entry under [unitCode], whatever the entry
    declares as its type and whatever the other entries are. *)
Theorem unitCode_is_promoted (attr : attribute) (metadata : list (string * attribute))
    (entry : attribute) (obj : object) :
  a_metadata attr = Some metadata ->
  NoDup (keys metadata) ->
  In ("unitCode", entry) metadata ->
  convertNGSIv2ToLD attr = Ok obj ->
  lookup "unitCode" obj = Some (a_value entry).
Proof.
  intros Hmetadata Hnodup Hin Hobj. rewrite convertNGSIv2ToLD_unfold in Hobj.
  unfold bind in Hobj. destruct (convert_switch attr) as [obj0|]; [|discriminate].
  rewrite Hmetadata in Hobj.
  destruct (convert_metadata convertNGSIv2ToLD metadata obj0) as [obj'|] eqn:Hloop;
    [|discriminate].
  injection Hobj as <-. rewrite lookup_obj_delete_other by discriminate.
  assert (Hwritten : forall k', In k' (keys metadata) ->
                       written_key k' = written_key "unitCode" -> k' = "unitCode").
  { intros k' _. unfold written_key.
    destruct (String.eqb_spec k' TIMESTAMP_ATTRIBUTE) as [->|_]; [discriminate|auto]. }
  destruct (@convert_metadata_written convertNGSIv2ToLD metadata "unitCode" entry
              Hnodup Hin Hwritten obj0 obj' Hloop) as [obj1 [obj2 [Hentry Hlookup]]].
  change (written_key "unitCode") with "unitCode" in Hlookup. rewrite Hlookup.
  change (convert_metadata_entry convertNGSIv2ToLD obj1 "unitCode" entry)
    with (Ok (obj_set "unitCode" (a_value entry) obj1)) in Hentry.
  injection Hentry as <-. apply lookup_obj_set_same.
Qed.


(** X11.  A converted attribute has no property [TimeInstant], and no
    property other than [type], [value], [object] and those written by its
    metadata entries ([observedAt] for the timestamp, the entry's own name
    otherwise). *)
Theorem converted_attribute_keys (attr : attribute) (obj : object) (k : string) :
  convertNGSIv2ToLD attr = Ok obj ->
  In k (keys obj) ->
  k <> TIMESTAMP_ATTRIBUTE
  /\ (In k ["type"; "value"; "object"]
      \/ exists metadata,
           a_metadata attr = Some metadata /\ In k (map written_key (keys metadata))).
Proof.
  intros Hobj Hin.
  assert (Hpresent : lookup k obj <> None).
  { intros Hnone. now apply (lookup_none_not_in _ _ Hnone). }
  rewrite convertNGSIv2ToLD_unfold in Hobj. unfold bind in Hobj.
  destruct (convert_switch attr) as [obj0|] eqn:Hswitch; [|discriminate].
  assert (Hswitch_keys : lookup k obj0 <> None -> In k ["type"; "value"; "object"]).
  { intros Hk. destruct (in_dec string_dec k ["type"; "value"; "object"]) as [|Hout]; auto.
    exfalso. apply Hk. apply (@convert_switch_keys attr obj0 k Hswitch); intros ->;
      apply Hout; simpl; auto. }
  destruct (a_metadata attr) as [metadata|].
  - destruct (convert_metadata convertNGSIv2ToLD metadata obj0) as [obj'|] eqn:Hloop;
      [|discriminate].
    injection Hobj as <-. split.
    + intros ->. apply Hpresent. apply lookup_obj_delete_same.
    + destruct (in_dec string_dec k (map written_key (keys metadata))) as [|Hout].
      * right. now exists metadata.
      * left. apply Hswitch_keys.
        rewrite <- (@convert_metadata_other convertNGSIv2ToLD metadata obj0 obj' k Hloop Hout).
        destruct (String.eqb_spec k TIMESTAMP_ATTRIBUTE) as [->|Hk].
        -- exfalso. apply Hpresent. apply lookup_obj_delete_same.
        -- now rewrite lookup_obj_delete_other in Hpresent.
  - injection Hobj as <-. split; [|left; now apply Hswitch_keys].
    intros ->. apply Hpresent.
    apply (@convert_switch_keys attr obj0 TIMESTAMP_ATTRIBUTE Hswitch); discriminate.
Qed.

(** *** The envelope *)

Lemma formatAsNGSILD_key_other (json : entity) (obj obj' : object) (key : string)
    (f : field) (k : string) :
  formatAsNGSILD_key json obj key f = Ok obj' ->
  k <> key ->
  lookup k obj' = lookup k obj.
Proof.
  unfold formatAsNGSILD_key, bind. intros H Hk.
  repeat match type of H with
         | context [if ?c then _ else _] => destruct c
         end;
    try (destruct f as [s|a]; try discriminate;
         try (destruct (convertNGSIv2ToLD a); [|discriminate]));
    injection H as <-; auto using lookup_obj_set_other.
Qed.

Lemma formatAsNGSILD_keys_other (json rest : entity) (obj obj' : object) (k : string) :
  formatAsNGSILD_keys json rest obj = Ok obj' ->
  ~ In k (keys rest) ->
  lookup k obj' = lookup k obj.
Proof.
  revert obj. induction rest as [|[key f] rest IH]; intros obj Hloop Hk.
  - now injection Hloop as <-.
  - cbn [formatAsNGSILD_keys] in Hloop. unfold bind in Hloop.
    destruct (formatAsNGSILD_key json obj key f) as [obj1|] eqn:Hkey; [|discriminate].
    rewrite (IH obj1 Hloop); [|intros Hin; apply Hk; now right].
    apply (@formatAsNGSILD_key_other json obj obj1 key f k Hkey).
    intros ->. apply Hk. now left.
Qed.

Lemma formatAsNGSILD_keys_written (json rest : entity) (key : string) (f : field) :
  NoDup (keys rest) ->
  In (key, f) rest ->
  forall obj obj',
    formatAsNGSILD_keys json rest obj = Ok obj' ->
    exists obj1 obj2,
      formatAsNGSILD_key json obj1 key f = Ok obj2 /\ lookup key obj' = lookup key obj2.
Proof.
  induction rest as [|[k0 f0] rest IH]; intros Hnodup Hin obj obj' Hloop; [contradiction|].
  inversion Hnodup as [|? ? Hfresh Hnodup']; subst.
  cbn [formatAsNGSILD_keys] in Hloop. unfold bind in Hloop.
  destruct (formatAsNGSILD_key json obj k0 f0) as [obj0|] eqn:Hkey; [|discriminate].
  destruct Hin as [Hhead|Hin].
  - injection Hhead as -> ->. exists obj, obj0. split; [assumption|].
    exact (@formatAsNGSILD_keys_other json rest obj0 obj' key Hloop Hfresh).
  - exact (IH Hnodup' Hin obj0 obj' Hloop).
Qed.

Lemma formatAsNGSILD_inv (json : entity) (obj : object) :
  formatAsNGSILD json = Ok obj ->
  exists obj',
    formatAsNGSILD_keys json json [("@context", VArr (map VStr (split ";" jsonLdContext)))]
    = Ok obj'
    /\ obj = obj_delete "TimeInstant" obj'.
Proof.
  unfold formatAsNGSILD, bind. intros H.
  destruct (formatAsNGSILD_keys json json _) as [obj'|]; [|discriminate].
  injection H as <-. now exists obj'.
Qed.

Lemma startsWith_app (p x : string) : startsWith p (p ++ x) = true.
Proof.
  unfold startsWith. induction p as [|c p IH]; simpl; [now destruct x|].
  destruct (ascii_dec c c); congruence.
Qed.

(** X12.  The [id] of an envelope is always a URN: an id that starts with
    [urn:ngsi-ld:] is kept, any other id is prefixed with [urn:ngsi-ld:], the
    entity's type and a colon. *)
Theorem envelope_id_is_a_urn (json : entity) (id : string) (obj : object) :
  NoDup (keys json) ->
  In ("id", FString id) json ->
  formatAsNGSILD json = Ok obj ->
  exists urn,
    lookup "id" obj = Some (VStr urn)
    /\ startsWith NGSI_LD_URN urn = true
    /\ urn = if startsWith NGSI_LD_URN id then id
             else (NGSI_LD_URN ++ field_string (lookup "type" json) ++ ":" ++ id)%string.
Proof.
  intros Hnodup Hin Hobj. apply formatAsNGSILD_inv in Hobj. destruct Hobj as [obj' [Hloop ->]].
  destruct (@formatAsNGSILD_keys_written json json "id" (FString id) Hnodup Hin _ obj' Hloop)
    as [obj1 [obj2 [Hkey Hlookup]]].
  rewrite lookup_obj_delete_other by discriminate. rewrite Hlookup.
  change (formatAsNGSILD_key json obj1 "id" (FString id))
    with (Ok (obj_set "id"
                (VStr (if startsWith NGSI_LD_URN id then id
                       else (NGSI_LD_URN ++ field_string (lookup "type" json) ++ ":" ++ id)%string))
                obj1)) in Hkey.
  injection Hkey as <-. rewrite lookup_obj_set_same.
  exists (if startsWith NGSI_LD_URN id then id
          else (NGSI_LD_URN ++ field_string (lookup "type" json) ++ ":" ++ id)%string).
  split; [reflexivity|]. split; [|reflexivity].
  destruct (startsWith NGSI_LD_URN id) eqn:Hurn; [assumption|apply startsWith_app].
Qed.

Lemma formatAsNGSILD_keys_context (json rest : entity) (obj obj' : object) :
  formatAsNGSILD_keys json rest obj = Ok obj' ->
  lookup "@context" obj' = lookup "@context" obj.
Proof.
  revert obj. induction rest as [|[key f] rest IH]; intros obj Hloop.
  - now injection Hloop as <-.
  - cbn [formatAsNGSILD_keys] in Hloop. unfold bind in Hloop.
    destruct (formatAsNGSILD_key json obj key f) as [obj1|] eqn:Hkey; [|discriminate].
    rewrite (IH obj1 Hloop).
    destruct (String.eqb_spec key "@context") as [->|Hother].
    + vm_compute in Hkey. now injection Hkey as <-.
    + apply (@formatAsNGSILD_key_other json obj obj1 key f "@context" Hkey). congruence.
Qed.

(** X13.  The [@context] of an envelope is the configured
    [jsonLdContext], cut at its semicolons, whatever the entity holds,
    an [@context] of its own included. *)
Theorem envelope_context_comes_from_the_configuration (json : entity) (obj : object) :
  formatAsNGSILD json = Ok obj ->
  lookup "@context" obj = Some (VArr (map VStr (split ";" jsonLdContext))).
Proof.
  intros Hobj. apply formatAsNGSILD_inv in Hobj. destruct Hobj as [obj' [Hloop ->]].
  rewrite lookup_obj_delete_other by discriminate.
  now rewrite (@formatAsNGSILD_keys_context json json _ obj' Hloop).
Qed.


Lemma has_key_In (A : Type) (k : string) (o : list (string * A)) :
  has_key k o = true <-> In k (keys o).
Proof.
  unfold has_key. split.
  - destruct (lookup k o) as [v|] eqn:Hlookup; [|discriminate]. intros _.
    apply lookup_in in Hlookup. change k with (fst (k, v)). now apply in_map.
  - intros Hin. destruct (lookup k o) eqn:Hlookup; [reflexivity|].
    now apply lookup_none_not_in in Hlookup.
Qed.

Lemma keys_obj_replace (A : Type) (k : string) (v : A) (o : list (string * A)) :
  keys (obj_replace k v o) = keys o.
Proof.
  induction o as [|[k' v'] o IH]; simpl; [reflexivity|].
  destruct (String.eqb_spec k k') as [->|_]; simpl; [reflexivity|]. now rewrite IH.
Qed.

Lemma In_keys_obj_insert (A : Type) (k k0 : string) (v : A) (o : list (string * A)) :
  In k (keys (obj_insert k0 v o)) <-> k = k0 \/ In k (keys o).
Proof.
  induction o as [|[k' v'] o IH]; simpl.
  - split; [intros [E|[]]; auto|intros [E|[]]; auto].
  - destruct (listed_before k0 k'); simpl.
    + split; [intros [E|H]; auto|intros [E|H]; auto].
    + rewrite IH. split.
      * intros [E|[E|H]]; auto.
      * intros [E|[E|H]]; auto.
Qed.


Lemma keys_obj_insert_NoDup (A : Type) (k : string) (v : A) (o : list (string * A)) :
  ~ In k (keys o) -> NoDup (keys o) -> NoDup (keys (obj_insert k v o)).
Proof.
  induction o as [|[k' v'] o IH]; simpl; intros Hnew Hnodup.
  - repeat constructor. auto.
  - destruct (listed_before k k'); simpl.
    + constructor; assumption.
    + inversion Hnodup as [|? ? Hfresh Hrest]; subst. constructor.
      * rewrite In_keys_obj_insert. intros [E|Hin]; [apply Hnew; now left|contradiction].
      * apply IH; [intros Hin; apply Hnew; now right|assumption].
Qed.

Lemma keys_obj_set_NoDup (A : Type) (k : string) (v : A) (o : list (string * A)) :
  NoDup (keys o) -> NoDup (keys (obj_set k v o)).
Proof.
  intros Hnodup. unfold obj_set. destruct (has_key k o) eqn:Hkey.
  - now rewrite keys_obj_replace.
  - apply keys_obj_insert_NoDup; [|assumption].
    intros Hin. apply has_key_In in Hin. congruence.
Qed.











Lemma formatAsNGSILD_key_encodable (json : entity) (obj : object) (key : string) (f : field) :
  is_ok (formatAsNGSILD_key json obj key f) = encodable key f.
Proof.
  unfold formatAsNGSILD_key, encodable, bind.
  destruct (key =? "id"); [now destruct f|].
  destruct (key =? "type"); [reflexivity|]. simpl.
  destruct ((key =? "@context") || (key =? TIMESTAMP_ATTRIBUTE))%bool; [reflexivity|].
  destruct f as [|a]; [reflexivity|]. now destruct (convertNGSIv2ToLD a).
Qed.

Lemma formatAsNGSILD_keys_encodable (json rest : entity) (obj : object) :
  is_ok (formatAsNGSILD_keys json rest obj)
  = forallb (fun kf => encodable (fst kf) (snd kf)) rest.
Proof.
  revert obj. induction rest as [|[key f] rest IH]; intros obj; [reflexivity|].
  cbn [formatAsNGSILD_keys forallb fst snd]. rewrite <- (formatAsNGSILD_key_encodable json obj).
  unfold bind. destruct (formatAsNGSILD_key json obj key f); [apply IH|reflexivity].
Qed.

(** X16.  [formatAsNGSILD] returns exactly when every property of the
    entity is encodable: [id] holds a string, and every key other than [id],
    [type], [@context] and [TimeInstant] holds an attribute that
    [convertNGSIv2ToLD] converts; one property that is not makes the whole
    call raise. *)
Theorem formatAsNGSILD_returns_iff_encodable (json : entity) :
  is_ok (formatAsNGSILD json) = forallb (fun kf => encodable (fst kf) (snd kf)) json.
Proof.
  unfold formatAsNGSILD, bind.
  rewrite <- (formatAsNGSILD_keys_encodable json json
                [("@context", VArr (map VStr (split ";" jsonLdContext)))]).
  now destruct (formatAsNGSILD_keys json json _).
Qed.

(** *** The response handler: what each answer becomes *)

Ltac handler_cases :=
  repeat match goal with
         | |- context [match details_includes ?a ?b with _ => _ end] =>
             destruct (details_includes a b) as [[|]|]
         | |- context [match JSON_parse_value ?a with _ => _ end] =>
             destruct (JSON_parse_value a)
         | |- context [match r_response ?a with _ => _ end] =>
             destruct (r_response a)
         | |- context [if ?c then _ else _] => destruct c eqn:?
         end.

(** X17.  The handler calls back with a success in two cases only: an
    update answered 204, or a query answered 200 with a body; in both there
    was no transport error and no [orionError] in the body, and the result
    handed over is the body of the response. *)
Theorem success_is_a_204_update_or_a_200_query (operationName : string) (entityName : value)
    (typeInformation : type_information) (token : value) (opts : options)
    (r : reply) (active : bool) (body : value) :
  snd (generateNGSILDOperationHandler operationName entityName typeInformation token opts r
         active) = Success body ->
  r_error r = None
  /\ has_orionError (r_body r) = false
  /\ body = r_body r
  /\ ((operationName = "update" /\ status_is (r_response r) 204 = true)
      \/ (operationName = "query" /\ status_is (r_response r) 200 = true
          /\ r_body r <> VUndefined)).
Proof.
  unfold generateNGSILDOperationHandler.
  destruct (r_error r); [discriminate|].
  destruct (has_orionError (r_body r)); [discriminate|].
  destruct ((operationName =? "update") && status_is (r_response r) 204)%bool eqn:Hupdate.
  - intros H. injection H as <-. apply andb_prop in Hupdate. destruct Hupdate as [Hop Hstatus].
    apply String.eqb_eq in Hop. repeat split; auto.
  - destruct ((operationName =? "query")
              && negb (match r_body r with VUndefined => true | _ => false end)
              && status_is (r_response r) 200)%bool eqn:Hquery.
    + intros H. injection H as <-. apply andb_prop in Hquery. destruct Hquery as [Hquery Hstatus].
      apply andb_prop in Hquery. destruct Hquery as [Hop Hbody].
      apply String.eqb_eq in Hop. repeat split; auto. right. repeat split; auto.
      intros Hundefined. rewrite Hundefined in Hbody. discriminate.
    + handler_cases; discriminate.
Qed.

(** X18.  When the transport reports no error, the handler never raises
    the alarm: a success releases it, and every failure (and every exception)
    leaves it as it was, whatever the status and the body of the response. *)
Theorem answered_request_never_raises_the_alarm (operationName : string) (entityName : value)
    (typeInformation : type_information) (token : value) (opts : options)
    (r : reply) (active : bool) :
  r_error r = None ->
  fst (generateNGSILDOperationHandler operationName entityName typeInformation token opts r
         active)
  = match snd (generateNGSILDOperationHandler operationName entityName typeInformation token
                 opts r active) with
    | Success _ => false
    | Failure _ | Uncaught _ => active
    end.
Proof.
  unfold generateNGSILDOperationHandler. intros ->. handler_cases; reflexivity.
Qed.

(** X19.  A response with status 401 or 403 and no [orionError], to an
    update or to a query, is reported as AccessForbidden with the token and
    the [fiware-service] and [fiware-servicepath] headers of the request; the
    alarm is left as it was. *)
Theorem unauthorized_is_access_forbidden (operationName : string) (entityName : value)
    (typeInformation : type_information) (token : value) (opts : options)
    (r : reply) (active : bool) :
  r_error r = None ->
  has_orionError (r_body r) = false ->
  status_is (r_response r) 401 = true \/ status_is (r_response r) 403 = true ->
  generateNGSILDOperationHandler operationName entityName typeInformation token opts r active
  = (active,
     Failure (AccessForbidden token (get (VObj (o_headers opts)) "fiware-service")
                (get (VObj (o_headers opts)) "fiware-servicepath"))).
Proof.
  unfold generateNGSILDOperationHandler, status_is. intros -> -> Hstatus.
  destruct (r_response r) as [resp|]; [|destruct Hstatus; discriminate].
  assert (Hcode : statusCode resp = 401%Z \/ statusCode resp = 403%Z).
  { destruct Hstatus as [H|H]; apply Z.eqb_eq in H; auto. }
  destruct Hcode as [-> | ->]; repeat rewrite andb_false_r; reflexivity.
Qed.

(** X20.  A response whose status no branch of the handler names, with a
    body that is an object or an array without [orionError], is reported as
    EntityGenericError with that body and that status, and leaves the alarm
    as it was.  For an update this is every status but 204, 401, 403 and 404
    (a 200 included); for a query every status but 200, 204, 401, 403 and
    404. *)
Theorem other_status_is_a_generic_error (operationName : string) (entityName : value)
    (typeInformation : type_information) (token : value) (opts : options)
    (r : reply) (active : bool) (resp : response) :
  r_error r = None ->
  has_orionError (r_body r) = false ->
  is_object (r_body r) = true ->
  r_response r = Some resp ->
  ~ In (statusCode resp) [401%Z; 403%Z; 404%Z] ->
  (operationName = "update" -> statusCode resp <> 204%Z) ->
  (operationName = "query" -> ~ In (statusCode resp) [200%Z; 204%Z]) ->
  generateNGSILDOperationHandler operationName entityName typeInformation token opts r active
  = (active,
     Failure (EntityGenericError entityName (ti_type typeInformation) (r_body r)
                (Some (statusCode resp)))).
Proof.
  unfold generateNGSILDOperationHandler, status_is.
  intros -> -> Hobject -> Hstatus Hupdate Hquery. rewrite Hobject.
  assert (H401 : (statusCode resp =? 401)%Z = false)
    by (apply Z.eqb_neq; intros E; apply Hstatus; simpl; auto).
  assert (H403 : (statusCode resp =? 403)%Z = false)
    by (apply Z.eqb_neq; intros E; apply Hstatus; simpl; auto).
  assert (H404 : (statusCode resp =? 404)%Z = false)
    by (apply Z.eqb_neq; intros E; apply Hstatus; simpl; auto).
  rewrite H401, H403, H404. rewrite andb_false_r. cbn [orb].
  destruct (String.eqb_spec operationName "update") as [->|_].
  - change ("update" =? "query") with false.
    specialize (Hupdate eq_refl). apply Z.eqb_neq in Hupdate. rewrite Hupdate. reflexivity.
  - cbn [andb]. destruct (String.eqb_spec operationName "query") as [Hop'|_]; [|reflexivity].
    apply Hquery in Hop'.
    assert (H200 : (statusCode resp =? 200)%Z = false)
      by (apply Z.eqb_neq; intros E; apply Hop'; simpl; auto).
    assert (H204 : (statusCode resp =? 204)%Z = false)
      by (apply Z.eqb_neq; intros E; apply Hop'; simpl; auto).
    rewrite H200, H204. repeat rewrite andb_false_r. reflexivity.
Qed.

(** *** The series of exchanges: what is sent *)

Lemma sendEntity_nothing_to_update (typeInformation : type_information) (token : value)
    (opts : options) (url : string) (entity0 : object) (st : state) :
  nothing_to_update entity0 = true ->
  sendEntity typeInformation token opts url entity0 st = (st, Success VUndefined).
Proof. unfold sendEntity. now intros ->. Qed.

(** X21.  The series skips the entities that have nothing to update (no
    key left but [@context] once [id] and [type] are removed): it runs as on
    the list without them, and when every entity is such it sends nothing,
    leaves the state as it was and reports no error. *)
Theorem entities_without_attributes_are_skipped (typeInformation : type_information)
    (token : value) (opts : options) (url : string) (entities : list object) (st : state) :
  forEachSeries typeInformation token opts url entities st
  = forEachSeries typeInformation token opts url
      (filter (fun e => negb (nothing_to_update e)) entities) st
  /\ (requests_for opts url entities = [] ->
      forEachSeries typeInformation token opts url entities st = (st, Returned None VUndefined)).
Proof.
  assert (Hfilter : forall st0,
             forEachSeries typeInformation token opts url entities st0
             = forEachSeries typeInformation token opts url
                 (filter (fun e => negb (nothing_to_update e)) entities) st0).
  { induction entities as [|e rest IH]; intros st0; [reflexivity|].
    cbn [filter]. destruct (nothing_to_update e) eqn:Hnothing; cbn [negb].
    - cbn [forEachSeries]. rewrite (sendEntity_nothing_to_update _ _ _ _ _ _ Hnothing).
      apply IH.
    - cbn [forEachSeries].
      destruct (sendEntity typeInformation token opts url e st0) as [st1 [e1|body|x]];
        auto. }
  split; [apply Hfilter|].
  intros Hnone. rewrite Hfilter. unfold requests_for in Hnone.
  apply map_eq_nil in Hnone. now rewrite Hnone.
Qed.

Lemma exchanges_sent (os : list options) (w : list event) (o : options) :
  exchanges os w -> In (Sent o) w -> In o os.
Proof.
  induction 1 as [|o' r os w _ IH]; [contradiction|].
  intros [E|[E|Hin]]; [injection E as ->; now left|discriminate|right; now apply IH].
Qed.

Lemma firstn_In (A : Type) (n : nat) (l : list A) (x : A) : In x (firstn n l) -> In x l.
Proof.
  revert l. induction n as [|n IH]; intros [|y l]; simpl; try contradiction.
  intros [E|Hin]; auto.
Qed.

(** X22.  Whatever the outcome of the series, each request it sent is the
    one of an entity of the list: its URL is the base URL followed by the
    entity's id and [/attrs], its method and headers are those of [options],
    and its body is the entity without [id] and [type], all the other
    properties unchanged and at least two of them left. *)
Theorem requests_carry_neither_id_nor_type (typeInformation : type_information)
    (token : value) (opts : options) (url : string) (entities : list object) (st : state) :
  exists w,
    wire (fst (forEachSeries typeInformation token opts url entities st)) = wire st ++ w
    /\ forall o, In (Sent o) w ->
         exists entity0 body,
           In entity0 entities
           /\ o_url o = (url ++ ToString (get (VObj entity0) "id") ++ "/attrs")%string
           /\ o_method o = o_method opts
           /\ o_headers o = o_headers opts
           /\ o_json o = VObj body
           /\ lookup "id" body = None
           /\ lookup "type" body = None
           /\ 2 <= length (keys body)
           /\ forall k, k <> "id" -> k <> "type" -> lookup k body = lookup k entity0.
Proof.
  destruct (forEachSeries_in_order typeInformation token opts url entities st)
    as [n [w [Hwire Hexchanges]]].
  exists w. split; [assumption|]. intros o Hsent.
  pose proof (@exchanges_sent _ _ o Hexchanges Hsent) as Hin.
  unfold requests_for in Hin. apply in_map_iff in Hin.
  destruct Hin as [entity0 [<- Hin]]. apply filter_In in Hin. destruct Hin as [Hin Hsome].
  exists entity0, (attributes_only entity0). unfold attributes_only.
  repeat split.
  - eapply firstn_In; eassumption.
  - rewrite lookup_obj_delete_other by discriminate. apply lookup_obj_delete_same.
  - apply lookup_obj_delete_same.
  - unfold nothing_to_update, attributes_only in Hsome. apply negb_true_iff in Hsome.
    apply Nat.leb_gt in Hsome. lia.
  - intros k Hid Htype. now rewrite !lookup_obj_delete_other.
Qed.

(** X23.  After a series that ends without error the alarm is released if
    at least one request was sent, and is as it was before the call if none
    was. *)
Theorem successful_series_releases_the_alarm (typeInformation : type_information)
    (token : value) (opts : options) (url : string) (entities : list object) (st st' : state)
    (data : value) :
  forEachSeries typeInformation token opts url entities st = (st', Returned None data) ->
  alarm st' = match requests_for opts url entities with
              | [] => alarm st
              | _ :: _ => false
              end.
Proof.
  revert st. induction entities as [|e rest IH]; intros st.
  - intros [= <- _]. reflexivity.
  - cbn [forEachSeries]. unfold requests_for. cbn [filter].
    destruct (nothing_to_update e) eqn:Hnothing; cbn [negb map].
    + rewrite (sendEntity_nothing_to_update _ _ _ _ _ _ Hnothing). apply IH.
    + unfold sendEntity. rewrite Hnothing.
      destruct (exchange (request_for opts url e) st) as [r st1].
      pose proof (@handler_success_releases "update" (get (VObj e) "id") typeInformation token
                    (request_for opts url e) r (alarm st1)) as Hreleased.
      destruct (generateNGSILDOperationHandler "update" (get (VObj e) "id") typeInformation
                  token (request_for opts url e) r (alarm st1)) as [active [e1|body|x]];
        try discriminate.
      intros Hrest. specialize (Hreleased body eq_refl). simpl in Hreleased. subst active.
      rewrite (IH _ Hrest). fold (requests_for opts url rest).
      now destruct (requests_for opts url rest).
Qed.

(** *** The entry points *)

Lemma handler_failure_kind (operationName : string) (entityName : value)
    (typeInformation : type_information) (token : value) (opts : options)
    (r : reply) (active : bool) (e : error) :
  snd (generateNGSILDOperationHandler operationName entityName typeInformation token opts r
         active) = Failure e ->
  reported_before_sending e = false.
Proof.
  unfold generateNGSILDOperationHandler.
  destruct (r_error r); [intros [= <-]; reflexivity|].
  handler_cases; simpl; intros H; try discriminate; injection H as <-; reflexivity.
Qed.

Lemma forEachSeries_failure_kind (typeInformation : type_information) (token : value)
    (opts : options) (url : string) (entities : list object) (st st' : state) (e : error)
    (data : value) :
  forEachSeries typeInformation token opts url entities st = (st', Returned (Some e) data) ->
  reported_before_sending e = false.
Proof.
  revert st. induction entities as [|entity0 rest IH]; intros st; [discriminate|].
  cbn [forEachSeries]. unfold sendEntity.
  destruct (nothing_to_update entity0); [apply IH|].
  destruct (exchange (request_for opts url entity0) st) as [r st1].
  pose proof (@handler_failure_kind "update" (get (VObj entity0) "id") typeInformation token
                (request_for opts url entity0) r (alarm st1)) as Hkind.
  destruct (generateNGSILDOperationHandler "update" (get (VObj entity0) "id") typeInformation
              token (request_for opts url entity0) r (alarm st1)) as [active [e1|body|x]].
  - intros [= _ <-]. now apply Hkind.
  - apply IH.
  - discriminate.
Qed.

(** The two ways for an update to end: with an error of its own before
    anything is sent, or as the series of exchanges ends. *)
Lemma sendUpdateValueNgsiLD_cases (entityId : string) (attributes : list attribute_update)
    (typeInformation : option type_information) (token : value) (st st' : state)
    (out : outcome) :
  sendUpdateValueNgsiLD entityId attributes typeInformation token st = (st', out) ->
  (st' = st
   /\ exists e, out = Returned (Some e) VUndefined /\ reported_before_sending e = true)
  \/ (exists ti type opts json entities,
         typeInformation = Some ti
         /\ o_method opts = "PATCH"
         /\ o_headers opts
            = o_headers (createRequestObject "/ngsi-ld/v1/entities/" typeInformation token)
         /\ encode (purge json) entityId type = Ok entities
         /\ forEachSeries ti token opts (o_url opts) entities st = (st', out)).
Proof.
  unfold sendUpdateValueNgsiLD.
  destruct typeInformation as [ti|]; [|intros [= <- <-]; left; split; eauto].
  destruct (nonempty (ti_type ti)) as [type|]; [|intros [= <- <-]; left; split; eauto].
  destruct (build_payload ti attributes _) as [payload0|];
    [|intros [= <- <-]; left; split; eauto].
  assert (Hcallback : forall opts payload1 error0 result0,
             o_method opts = "PATCH" ->
             o_headers opts
             = o_headers (createRequestObject "/ngsi-ld/v1/entities/" (Some ti) token) ->
             update_callback entityId ti type token opts payload1 error0 result0 st
             = (st', out) ->
             (st' = st
              /\ exists e, out = Returned (Some e) VUndefined
                           /\ reported_before_sending e = true)
             \/ (exists ti0 type0 opts0 json entities,
                    Some ti = Some ti0
                    /\ o_method opts0 = "PATCH"
                    /\ o_headers opts0
                       = o_headers (createRequestObject "/ngsi-ld/v1/entities/" (Some ti) token)
                    /\ encode (purge json) entityId type0 = Ok entities
                    /\ forEachSeries ti0 token opts0 (o_url opts0) entities st = (st', out))).
  { intros opts payload1 error0 result0 Hmethod Hheaders. unfold update_callback.
    destruct error0; [intros [= <- <-]; left; split; eauto|].
    destruct (select_json ti payload1 result0) as [e|json] eqn:Hselect.
    - intros [= <- <-]. left. split; [reflexivity|]. exists e. split; [reflexivity|].
      unfold select_json in Hselect.
      destruct result0 as [[es|e0]|];
        repeat match type of Hselect with
               | context [if ?c then _ else _] => destruct c
               end;
        try discriminate; injection Hselect as <-; reflexivity.
    - unfold send_json. destruct (encode (purge json) entityId type) as [entities|] eqn:Hencode.
      + intros Hseries. right. exists ti, type, opts, json, entities. auto.
      + intros [= <- <-]. left. split; eauto. }
  destruct statsService_add.
  - apply Hcallback; reflexivity.
  - destruct (updateMiddleware (castJsonNativeAttributes payload0) ti) as [[error0 result0] payload2].
    apply Hcallback; reflexivity.
Qed.

(** X24.  An update that ends with one of the errors the entry point
    raises itself (TypeNotFound, BadRequest for an attribute without name or
    type, BadTimestamp, BadGeocoordinates, or the error of a collaborator)
    has sent nothing: the wire, the broker and the alarm are as before the
    call. *)
Theorem errors_of_the_update_itself_leave_the_state (entityId : string)
    (attributes : list attribute_update) (typeInformation : option type_information)
    (token : value) (st st' : state) (e : error) (data : value) :
  sendUpdateValueNgsiLD entityId attributes typeInformation token st
  = (st', Returned (Some e) data) ->
  reported_before_sending e = true ->
  st' = st.
Proof.
  intros Hupdate Hkind. apply sendUpdateValueNgsiLD_cases in Hupdate.
  destruct Hupdate as [[Hst _]|[ti [type [opts [json [entities [_ [_ [_ [_ Hseries]]]]]]]]]];
    [assumption|].
  apply forEachSeries_failure_kind in Hseries. congruence.
Qed.

Lemma formatAsNGSILD_context (json : entity) (obj : object) :
  formatAsNGSILD json = Ok obj ->
  lookup "@context" obj = Some (VArr (map VStr (split ";" jsonLdContext))).
Proof.
  intros Hobj. apply formatAsNGSILD_inv in Hobj. destruct Hobj as [obj' [Hloop ->]].
  rewrite lookup_obj_delete_other by discriminate.
  now rewrite (@formatAsNGSILD_keys_context json json _ obj' Hloop).
Qed.

Lemma encode_context (json : payload) (entityId type : string) (entities : list object) :
  encode json entityId type = Ok entities ->
  Forall (fun o => lookup "@context" o = Some (VArr (map VStr (split ";" jsonLdContext))))
    entities.
Proof.
  destruct json as [es|e]; simpl.
  - revert entities. induction es as [|e es IH]; intros entities; simpl.
    + intros [= <-]. constructor.
    + unfold bind. destruct (formatAsNGSILD e) as [o|] eqn:Ho; [|discriminate].
      destruct (formatAsNGSILD_all es) as [os|]; [|discriminate].
      intros [= <-]. constructor; [exact (@formatAsNGSILD_context e o Ho)|now apply IH].
  - unfold bind. destruct (formatAsNGSILD _) as [o|] eqn:Ho; [|discriminate].
    intros [= <-]. constructor; [|constructor]. eapply formatAsNGSILD_context; eassumption.
Qed.

(** X25.  Whatever its outcome, an update only adds to the wire, and every
    request it sends is a PATCH with the headers given by
    [createRequestObject], whose body holds the configured [@context] and
    neither [id] nor [type]. *)
Theorem update_requests_are_patches (entityId : string) (attributes : list attribute_update)
    (typeInformation : option type_information) (token : value) (st : state) :
  exists w,
    wire (fst (sendUpdateValueNgsiLD entityId attributes typeInformation token st))
    = wire st ++ w
    /\ forall o, In (Sent o) w ->
         o_method o = "PATCH"
         /\ o_headers o
            = o_headers (createRequestObject "/ngsi-ld/v1/entities/" typeInformation token)
         /\ exists body,
              o_json o = VObj body
              /\ lookup "@context" body = Some (VArr (map VStr (split ";" jsonLdContext)))
              /\ lookup "id" body = None
              /\ lookup "type" body = None.
Proof.
  destruct (sendUpdateValueNgsiLD entityId attributes typeInformation token st)
    as [st' out] eqn:Hupdate.
  apply sendUpdateValueNgsiLD_cases in Hupdate.
  destruct Hupdate
    as [[-> _]|[ti [type [opts [json [entities [_ [Hmethod [Hheaders [Hencode Hseries]]]]]]]]]].
  - exists []. split; [now rewrite app_nil_r|contradiction].
  - destruct (forEachSeries_in_order ti token opts (o_url opts) entities st)
      as [n [w [Hwire Hexchanges]]].
    rewrite Hseries in Hwire. exists w. split; [assumption|]. intros o Hsent.
    pose proof (@exchanges_sent _ _ o Hexchanges Hsent) as Hin.
    unfold requests_for in Hin. apply in_map_iff in Hin.
    destruct Hin as [entity0 [<- Hin]]. apply filter_In in Hin. destruct Hin as [Hin _].
    apply firstn_In in Hin.
    pose proof (@encode_context (purge json) entityId type entities Hencode) as Hcontext.
    rewrite Forall_forall in Hcontext. specialize (Hcontext entity0 Hin).
    split; [assumption|]. split; [assumption|].
    exists (attributes_only entity0). unfold attributes_only. repeat split.
    + now rewrite !lookup_obj_delete_other by discriminate.
    + rewrite lookup_obj_delete_other by discriminate. apply lookup_obj_delete_same.
    + apply lookup_obj_delete_same.
Qed.

Lemma build_payload_refuses (typeInformation : type_information)
    (attributes : list attribute_update) (a : attribute_update) :
  In a attributes ->
  nonempty (u_name a) = None \/ nonempty (u_type a) = None ->
  forall payload0, build_payload typeInformation attributes payload0 = None.
Proof.
  intros Hin Hbad. induction attributes as [|b rest IH]; [contradiction|].
  intros payload0. cbn [build_payload]. destruct Hin as [->|Hin].
  - destruct Hbad as [-> | ->]; [reflexivity|]. now destruct (nonempty (u_name a)).
  - destruct (nonempty (u_name b)); [|reflexivity].
    destruct (nonempty (u_type b)); [|reflexivity]. now apply IH.
Qed.

(** X26.  One attribute without a name or without a type (absent or
    empty) makes the whole update end with BadRequest for the entity, before
    anything is sent, whatever the other attributes are. *)
Theorem attribute_without_name_or_type_refuses_the_update (entityId : string)
    (attributes : list attribute_update) (typeInformation : type_information)
    (token : value) (st : state) (a : attribute_update) :
  nonempty (ti_type typeInformation) <> None ->
  In a attributes ->
  nonempty (u_name a) = None \/ nonempty (u_type a) = None ->
  sendUpdateValueNgsiLD entityId attributes (Some typeInformation) token st
  = (st, Returned (Some (BadRequest VNull (VStr entityId))) VUndefined).
Proof.
  intros Htype Hin Hbad. unfold sendUpdateValueNgsiLD.
  destruct (nonempty (ti_type typeInformation)) as [type|]; [|contradiction].
  now rewrite (@build_payload_refuses typeInformation attributes a Hin Hbad).
Qed.




Lemma convertNGSIv2ToLD_purge_attribute (a : attribute) :
  convertNGSIv2ToLD (purge_attribute a) = convertNGSIv2ToLD a.
Proof.
  rewrite (convertNGSIv2ToLD_unfold (purge_attribute a)), (convertNGSIv2ToLD_unfold a),
    convert_switch_purge_attribute.
  assert (Hmetadata : a_metadata (purge_attribute a) = a_metadata a).
  { unfold purge_attribute. destruct a as [t v md oid multi]; simpl.
    destruct (truthy_key oid); simpl; destruct (truthy_key multi); reflexivity. }
  now rewrite Hmetadata.
Qed.

Lemma field_string_purge_entity (k : string) (e : entity) :
  field_string (lookup k (purge_entity e)) = field_string (lookup k e).
Proof.
  induction e as [|[k' f] e IH]; simpl; [reflexivity|].
  destruct (k =? k'); [now destruct f|assumption].
Qed.

Lemma formatAsNGSILD_keys_purge_entity (json rest : entity) (obj : object) :
  (forall a, ~ In ("type", FAttribute a) rest) ->
  formatAsNGSILD_keys (purge_entity json) (purge_entity rest) obj
  = formatAsNGSILD_keys json rest obj.
Proof.
  revert obj. induction rest as [|[key f] rest IH]; intros obj Htype; [reflexivity|].
  cbn [purge_entity map fst snd formatAsNGSILD_keys].
  assert (Hkey : formatAsNGSILD_key (purge_entity json) obj key (purge_field f)
                 = formatAsNGSILD_key json obj key f).
  { unfold formatAsNGSILD_key. rewrite field_string_purge_entity.
    destruct (String.eqb_spec key "id"); [now destruct f|].
    destruct (String.eqb_spec key "type") as [->|_].
    - destruct f as [s|a]; [reflexivity|]. exfalso. apply (Htype a). now left.
    - destruct ((key =? "@context") || (key =? TIMESTAMP_ATTRIBUTE))%bool; [reflexivity|].
      destruct f as [s|a]; [reflexivity|]. simpl.
      now rewrite convertNGSIv2ToLD_purge_attribute. }
  rewrite Hkey. unfold bind.
  destruct (formatAsNGSILD_key json obj key f) as [obj1|]; [|reflexivity].
  apply IH. intros a Hin. apply (Htype a). now right.
Qed.

(** X28.  The purge of [object_id] and [multi] changes nothing of what is
    encoded: the conversion reads neither key, so the purged payload and the
    payload itself give the same envelopes (provided no entity holds an
    attribute object under [type], which is copied as it is). *)
Theorem purge_does_not_change_what_is_sent (json : payload) (entityId type : string) :
  (forall a, ~ carries json "type" a) ->
  encode (purge json) entityId type = encode json entityId type.
Proof.
  destruct json as [es|e]; [|reflexivity].
  unfold purge, payload_truthy, encode, carries. intros Htype.
  induction es as [|e es IH]; [reflexivity|].
  cbn [map formatAsNGSILD_all].
  assert (Hentity : formatAsNGSILD (purge_entity e) = formatAsNGSILD e).
  { unfold formatAsNGSILD. rewrite formatAsNGSILD_keys_purge_entity; [reflexivity|].
    intros a Hin. apply (Htype a). exists e. split; [now left|assumption]. }
  rewrite Hentity, IH; [reflexivity|].
  intros a [e' [Hin Ha]]. apply (Htype a). exists e'. split; [now right|assumption].
Qed.

Lemma append_empty (s : string) : (s ++ "")%string = s.
Proof. induction s as [|c s IH]; simpl; [reflexivity|now rewrite IH]. Qed.

(** X29.  A query for a device that has a type makes exactly one exchange:
    a GET with [json: true] to the URL that [createRequestObject] gives for
    [/ngsi-ld/v1/entities/urn:ngsi-ld:<type>:<name>], followed by [?attrs=]
    and the comma-separated names when the list of attributes is not empty.
    It reports a result only if the broker answered 200 with a body and no
    [orionError]; the result is then what the query middleware makes of the
    body, and the alarm is released. *)
Theorem query_makes_one_GET_exchange (entityName : string) (attributes : option (list string))
    (typeInformation : type_information) (type : string) (token : value) (st st' : state)
    (out : outcome) :
  ti_type typeInformation = Some type ->
  type <> "" ->
  sendQueryValueNgsiLD entityName attributes (Some typeInformation) token st = (st', out) ->
  exists o r,
    request o (broker st) = (r, broker st')
    /\ wire st' = wire st ++ [Sent o; Received r]
    /\ o_method o = "GET"
    /\ o_json o = VBool true
    /\ o_url o
       = o_url (createRequestObject
                  (("/ngsi-ld/v1/entities/urn:ngsi-ld:" ++ type ++ ":" ++ entityName)
                   ++ match attributes with
                      | Some (name :: names) => "?attrs=" ++ String.concat "," (name :: names)
                      | _ => ""
                      end)%string
                  (Some typeInformation) token)
    /\ forall data,
         out = Returned None data ->
         r_error r = None
         /\ has_orionError (r_body r) = false
         /\ status_is (r_response r) 200 = true
         /\ r_body r <> VUndefined
         /\ queryMiddleware (r_body r) typeInformation = (None, data)
         /\ alarm st' = false.
Proof.
  intros Htype Hnonempty. unfold sendQueryValueNgsiLD, nonempty, type_string. rewrite Htype.
  destruct (String.eqb_spec type ""); [contradiction|].
  cbv zeta. unfold exchange.
  match goal with
  | |- context [request ?o (broker st)] =>
      set (opts := o); destruct (request opts (broker st)) as [r w] eqn:Hrequest
  end.
  cbn [alarm].
  pose proof (@handler_success_releases "query" (VStr entityName) typeInformation token opts r
                (alarm st)) as Hreleased.
  assert (Hsuccess : forall body,
             snd (generateNGSILDOperationHandler "query" (VStr entityName) typeInformation
                    token opts r (alarm st)) = Success body ->
             r_error r = None /\ has_orionError (r_body r) = false
             /\ status_is (r_response r) 200 = true /\ r_body r <> VUndefined
             /\ body = r_body r).
  { unfold generateNGSILDOperationHandler. intros body.
    destruct (r_error r); [discriminate|].
    destruct (has_orionError (r_body r)); [discriminate|].
    change ("query" =? "update") with false. change ("query" =? "query") with true.
    cbn [andb].
    destruct (status_is (r_response r) 200) eqn:H200.
    - destruct (r_body r) eqn:Hbody; cbn [negb andb];
        try (intros [= <-]; repeat split; auto; discriminate).
      handler_cases; discriminate.
    - rewrite andb_false_r. handler_cases; discriminate. }
  destruct (generateNGSILDOperationHandler "query" (VStr entityName) typeInformation token
              opts r (alarm st)) as [active h].
  intros [= <- <-]. exists opts, r.
  split; [exact Hrequest|]. split; [reflexivity|]. split; [reflexivity|].
  split; [reflexivity|]. split.
  - unfold opts. cbn [o_url]. destruct attributes as [[|name names]|];
      try rewrite append_empty; reflexivity.
  - intros data Hout. destruct h as [e|body|x]; [discriminate| |discriminate].
    destruct (Hsuccess body eq_refl) as [Herror [Horion [Hstatus [Hbody ->]]]].
    specialize (Hreleased (r_body r) eq_refl). simpl in Hreleased. subst active.
    repeat split; auto.
    destruct (queryMiddleware (r_body r) typeInformation) as [[e|] data'];
      [discriminate|]. now injection Hout as <-.
Qed.

(** X30.  An update of a single entity is encoded under the id and type of
    the call: the one envelope has as [id] the URN of [entityId] (kept when
    it is a URN already, prefixed with [urn:ngsi-ld:<type>:] otherwise) and
    as [type] the type of the device, whatever the payload held under [id]
    and [type]. *)
Theorem single_entity_is_sent_under_the_id_of_the_call (e : entity) (entityId type : string)
    (entities : list object) :
  NoDup (keys e) ->
  encode (SingleEntity e) entityId type = Ok entities ->
  exists o,
    entities = [o]
    /\ lookup "id" o
       = Some (VStr (if startsWith NGSI_LD_URN entityId then entityId
                     else (NGSI_LD_URN ++ type ++ ":" ++ entityId)%string))
    /\ lookup "type" o = Some (VStr type).
Proof.
  intros Hnodup. cbn [encode]. unfold bind.
  set (json := obj_set "type" (FString type) (obj_set "id" (FString entityId) e)).
  destruct (formatAsNGSILD json) as [o|] eqn:Ho; [|discriminate].
  intros [= <-]. exists o. split; [reflexivity|].
  assert (Hjson : NoDup (keys json)) by (unfold json; now repeat apply keys_obj_set_NoDup).
  assert (Htype : lookup "type" json = Some (FString type))
    by (unfold json; apply lookup_obj_set_same).
  assert (Hid : lookup "id" json = Some (FString entityId)).
  { unfold json. rewrite lookup_obj_set_other by discriminate. apply lookup_obj_set_same. }
  apply formatAsNGSILD_inv in Ho. destruct Ho as [obj' [Hloop ->]].
  rewrite !lookup_obj_delete_other by discriminate. split.
  - destruct (@formatAsNGSILD_keys_written json json "id" (FString entityId) Hjson
                (lookup_in _ _ Hid) _ obj' Hloop) as [obj1 [obj2 [Hkey Hlookup]]].
    rewrite Hlookup.
    change (formatAsNGSILD_key json obj1 "id" (FString entityId))
      with (Ok (obj_set "id"
                  (VStr (if startsWith NGSI_LD_URN entityId then entityId
                         else (NGSI_LD_URN ++ field_string (lookup "type" json)
                               ++ ":" ++ entityId)%string))
                  obj1)) in Hkey.
    injection Hkey as <-. rewrite lookup_obj_set_same, Htype. reflexivity.
  - destruct (@formatAsNGSILD_keys_written json json "type" (FString type) Hjson
                (lookup_in _ _ Htype) _ obj' Hloop) as [obj1 [obj2 [Hkey Hlookup]]].
    rewrite Hlookup.
    change (formatAsNGSILD_key json obj1 "type" (FString type))
      with (Ok (obj_set "type" (VStr type) obj1)) in Hkey.
    injection Hkey as <-. apply lookup_obj_set_same.
Qed.
End NGSILD.

(** ** Worked cases *)

Arguments String.eqb : simpl never.

(** Three entities, the second of which the broker refuses: the call
    returns the error of the second exchange, the wire holds the first two
    exchanges and no request for the third entity, which had something to
    update, and the broker has served the first two requests. *)
Lemma second_of_three_refused :
  nothing_to_update (encoded_sensor "s3") = false
  /\ forall (Number_toString : number -> string) (getErrorField : value -> value)
       (JSON_parse : string -> option value),
      forEachSeries Number_toString broker_refusing_s2 getErrorField JSON_parse
        sensor (VStr "token") to_orion (o_url to_orion)
        [encoded_sensor "s1"; encoded_sensor "s2"; encoded_sensor "s3"]
        {| alarm := true; wire := []; broker := 0 |}
      = ({| alarm := false;
            wire := [Sent (request_of_sensor "s1"); Received (answer 204 VUndefined);
                     Sent (request_of_sensor "s2"); Received (answer 403 VUndefined)];
            broker := 2 |},
         Returned (Some (AccessForbidden (VStr "token") (VStr "smartcity") (VStr "/park")))
           VUndefined).
Proof.
  split; [reflexivity|]. intros Number_toString getErrorField JSON_parse.
  refine (proj1 (exchanges_stop_at_first_failure Number_toString broker_refusing_s2
                   getErrorField JSON_parse sensor (VStr "token") to_orion (o_url to_orion)
                   [encoded_sensor "s1"] [encoded_sensor "s3"] (encoded_sensor "s2")
                   {| alarm := true; wire := []; broker := 0 |}
                   (st1 := {| alarm := false;
                              wire := [Sent (request_of_sensor "s1");
                                       Received (answer 204 VUndefined)];
                              broker := 1 |})
                   _ _)); reflexivity.
Defined.

(** C1 at the same three entities when the broker answers the second with
    status 500 and no body: the first two requests are made, the third entity
    is not sent, the handler of the second throws and the call returns no
    error. *)
Lemma second_of_three_unanswered :
  nothing_to_update (encoded_sensor "s3") = false
  /\ forall (Number_toString : number -> string) (getErrorField : value -> value)
       (JSON_parse : string -> option value),
      forEachSeries Number_toString (broker_answering_s2 500) getErrorField JSON_parse
        sensor (VStr "token") to_orion (o_url to_orion)
        [encoded_sensor "s1"; encoded_sensor "s2"; encoded_sensor "s3"]
        {| alarm := true; wire := []; broker := 0 |}
      = ({| alarm := false;
            wire := [Sent (request_of_sensor "s1"); Received (answer 204 VUndefined);
                     Sent (request_of_sensor "s2"); Received (answer 500 VUndefined)];
            broker := 2 |},
         Crashed SyntaxError).
Proof.
  split; [reflexivity|]. intros Number_toString getErrorField JSON_parse.
  refine (proj1 (unparsable_answer_ends_the_update_without_error Number_toString
                   (broker_answering_s2 500) getErrorField JSON_parse sensor (VStr "token")
                   to_orion (o_url to_orion) [encoded_sensor "s1"] [encoded_sensor "s3"]
                   (encoded_sensor "s2") {| alarm := true; wire := []; broker := 0 |}
                   (st1 := {| alarm := false;
                              wire := [Sent (request_of_sensor "s1");
                                       Received (answer 204 VUndefined)];
                              broker := 1 |})
                   (r := answer 500 VUndefined) (answered := 2)
                   _ _ _ _ _ _ _ _ _ _ _)); reflexivity.
Defined.

(** C3: the claim fails at the position "40.4,-3.7".  The conversion keeps the
    two numbers in the order of the input; the coordinates are not the pair
    with the longitude first. *)
Lemma position_is_not_swapped :
  (forall (Number_toString : number -> string) (isFloat moment_isValid : value -> bool)
     (moment_toISOString moment_format_DATE moment_format_TIME_SECONDS : value -> value)
     (ATTRIBUTE_DEFAULT DATETIME_DEFAULT : string),
      convertNGSIv2ToLD Number_toString isFloat moment_isValid moment_toISOString
        moment_format_DATE moment_format_TIME_SECONDS ATTRIBUTE_DEFAULT DATETIME_DEFAULT
        position_lat_lng
      = Ok [("type", VStr "GeoProperty"); ("value", point_40_4)])
  /\ point_40_4 <> point_lng_lat.
Proof. split; [intros; reflexivity|discriminate]. Qed.

(** C3, as amended, at the position "40.4,-3.7" declared geo:point. *)
Lemma position_keeps_input_order :
  (forall (Number_toString : number -> string) (isFloat : value -> bool)
     (moment_toISOString moment_format_DATE moment_format_TIME_SECONDS : value -> value),
      convert_switch Number_toString isFloat moment_toISOString moment_format_DATE
        moment_format_TIME_SECONDS position_lat_lng
      = Ok [("type", VStr "GeoProperty"); ("value", point_40_4)])
  /\ (forall (Number_toString : number -> string) (isFloat moment_isValid : value -> bool)
        (moment_toISOString moment_format_DATE moment_format_TIME_SECONDS : value -> value)
        (ATTRIBUTE_DEFAULT DATETIME_DEFAULT : string) (obj : object),
         convertNGSIv2ToLD Number_toString isFloat moment_isValid moment_toISOString
           moment_format_DATE moment_format_TIME_SECONDS ATTRIBUTE_DEFAULT DATETIME_DEFAULT
           position_lat_lng = Ok obj ->
         lookup "value" obj = Some point_40_4).
Proof.
  split.
  - intros Number_toString isFloat moment_toISOString moment_format_DATE
      moment_format_TIME_SECONDS.
    exact (proj1 (point_keeps_input_order Number_toString isFloat (fun _ => true)
                    moment_toISOString moment_format_DATE moment_format_TIME_SECONDS "" ""
                    position_lat_lng (type := "geo:point")
                    eq_refl (or_intror (or_introl eq_refl)) eq_refl)).
  - intros Number_toString isFloat moment_isValid moment_toISOString moment_format_DATE
      moment_format_TIME_SECONDS ATTRIBUTE_DEFAULT DATETIME_DEFAULT obj Hobj.
    apply (proj2 (proj2 (point_keeps_input_order Number_toString isFloat moment_isValid
                           moment_toISOString moment_format_DATE moment_format_TIME_SECONDS
                           ATTRIBUTE_DEFAULT DATETIME_DEFAULT
                           position_lat_lng (type := "geo:point")
                           eq_refl (or_intror (or_introl eq_refl)) eq_refl)) obj Hobj).
    intros metadata Hmd. discriminate Hmd.
Defined.

(** C7 at the string "0" declared Integer and declared Number. *)
Lemma zero_is_cast_to_zero :
  (forall (Number_toString : number -> string) (isFloat : value -> bool)
     (moment_toISOString moment_format_DATE moment_format_TIME_SECONDS : value -> value),
      convert_switch Number_toString isFloat moment_toISOString moment_format_DATE
        moment_format_TIME_SECONDS (plain "Integer" (VStr "0"))
      = Ok [("type", VStr "Property"); ("value", VNum (Finite 0 0))])
  /\ (forall (Number_toString : number -> string) (isFloat : value -> bool)
        (moment_toISOString moment_format_DATE moment_format_TIME_SECONDS : value -> value),
         convert_switch Number_toString isFloat moment_toISOString moment_format_DATE
           moment_format_TIME_SECONDS (plain "Number" (VStr "0"))
         = Ok [("type", VStr "Property"); ("value", VNum (Finite 0 0))]).
Proof.
  split; intros Number_toString isFloat moment_toISOString moment_format_DATE
           moment_format_TIME_SECONDS.
  - exact (proj1 (numeric_cast_zero_and_default Number_toString isFloat (fun _ => true)
                    moment_toISOString moment_format_DATE moment_format_TIME_SECONDS "" ""
                    (plain "Integer" (VStr "0")) (type := "Integer")
                    eq_refl (or_introl eq_refl)) eq_refl).
  - exact (proj1 (numeric_cast_zero_and_default Number_toString isFloat (fun _ => true)
                    moment_toISOString moment_format_DATE moment_format_TIME_SECONDS "" ""
                    (plain "Number" (VStr "0")) (type := "Number")
                    eq_refl (or_intror (or_intror (or_introl eq_refl)))) eq_refl).
Defined.

(** C9: the claim fails at an attribute of unknown type whose metadata holds
    an entry that declares no type: converting that entry raises, and so does
    the conversion of the attribute. *)
Lemma untyped_metadata_raises :
  member (toLowerCase "foo") recognized_types = false
  /\ forall (Number_toString : number -> string) (isFloat moment_isValid : value -> bool)
       (moment_toISOString moment_format_DATE moment_format_TIME_SECONDS : value -> value)
       (ATTRIBUTE_DEFAULT DATETIME_DEFAULT : string),
      convertNGSIv2ToLD Number_toString isFloat moment_isValid moment_toISOString
        moment_format_DATE moment_format_TIME_SECONDS ATTRIBUTE_DEFAULT DATETIME_DEFAULT
        opaque_measure_with_accuracy
      = Throw TypeError.
Proof. split; [reflexivity|intros; reflexivity]. Qed.

(** C9, as amended, at an attribute of unknown type without metadata. *)
Lemma opaque_measure_is_wrapped :
  member (toLowerCase "foo") recognized_types = false
  /\ forall (Number_toString : number -> string) (isFloat moment_isValid : value -> bool)
       (moment_toISOString moment_format_DATE moment_format_TIME_SECONDS : value -> value)
       (ATTRIBUTE_DEFAULT DATETIME_DEFAULT : string),
      convertNGSIv2ToLD Number_toString isFloat moment_isValid moment_toISOString
        moment_format_DATE moment_format_TIME_SECONDS ATTRIBUTE_DEFAULT DATETIME_DEFAULT
        opaque_measure
      = Ok [("type", VStr "Property");
            ("value", VObj [("@type", VStr "foo"); ("@value", VStr "bar")])].
Proof.
  split; [reflexivity|].
  intros Number_toString isFloat moment_isValid moment_toISOString moment_format_DATE
    moment_format_TIME_SECONDS ATTRIBUTE_DEFAULT DATETIME_DEFAULT.
  exact (proj1 (proj2 (unrecognized_type_is_wrapped Number_toString isFloat moment_isValid
                         moment_toISOString moment_format_DATE moment_format_TIME_SECONDS
                         ATTRIBUTE_DEFAULT DATETIME_DEFAULT opaque_measure (type := "foo")
                         eq_refl eq_refl)) eq_refl).
Defined.

(** C4: the claim fails at a query answered with status 200 and a body that
    carries an orionError field, and at an update answered with status 204
    and such a body: the outcome is a BadRequest and the alarm, raised before,
    stays raised. *)
Lemma orionError_keeps_the_alarm :
  status_is (r_response (answer 200 orionError_not_found)) 200 = true
  /\ r_body (answer 200 orionError_not_found) <> VUndefined
  /\ (forall (getErrorField : value -> value)
        (JSON_parse : string -> option value) (entityName : value)
        (typeInformation : type_information) (token : value) (opts : options),
         generateNGSILDOperationHandler getErrorField JSON_parse
           "query" entityName typeInformation token opts
           (answer 200 orionError_not_found) true
         = (true, Failure (BadRequest (VStr "Entity id: /s1/ was not found") VUndefined)))
  /\ (forall (getErrorField : value -> value)
        (JSON_parse : string -> option value) (entityName : value)
        (typeInformation : type_information) (token : value) (opts : options),
         generateNGSILDOperationHandler getErrorField JSON_parse
           "update" entityName typeInformation token opts
           (answer 204 orionError_not_found) true
         = (true, Failure (BadRequest (VStr "Entity id: /s1/ was not found") VUndefined))).
Proof. repeat split; try discriminate; intros; reflexivity. Qed.

(** C4, as amended, on a history: two exchanges that the transport fails leave
    the alarm raised, and one accepted update after them releases it. *)
Lemma one_success_releases_the_alarm :
  (forall (getErrorField : value -> value)
     (JSON_parse : string -> option value) (entityName : value) (token : value),
      alarm_after getErrorField JSON_parse entityName sensor token to_orion
        [("update", unreachable); ("query", unreachable)] false
      = true)
  /\ (forall (getErrorField : value -> value)
        (JSON_parse : string -> option value) (entityName : value) (token : value),
         alarm_after getErrorField JSON_parse entityName sensor token to_orion
           ([("update", unreachable); ("query", unreachable)]
            ++ [("update", answer 204 VUndefined)]) false
         = false).
Proof.
  split; intros getErrorField JSON_parse entityName token.
  - reflexivity.
  - apply (proj2 (proj2 (proj2
             (alarm_follows_the_exchange getErrorField JSON_parse
                "update" entityName sensor token to_orion (answer 204 VUndefined) false)))
             [("update", unreachable); ("query", unreachable)] VUndefined).
    reflexivity.
Defined.

(** C5: the claim fails at a response with status 404 whose body carries an
    orionError field: it is classified as a BadRequest, whatever the
    operation, and as none of the three not-found outcomes. *)
Lemma not_found_with_orionError_is_BadRequest :
  status_is (r_response (answer 404 orionError_not_found)) 404 = true
  /\ truthy (r_body (answer 404 orionError_not_found)) = true
  /\ forall (getErrorField : value -> value)
       (JSON_parse : string -> option value) (operationName : string) (entityName : value)
       (typeInformation : type_information) (token : value) (opts : options) (active : bool),
      generateNGSILDOperationHandler getErrorField JSON_parse
        operationName entityName typeInformation token opts
        (answer 404 orionError_not_found) active
      = (active, Failure (BadRequest (VStr "Entity id: /s1/ was not found") VUndefined)).
Proof. repeat split; intros; reflexivity. Qed.

(** C5, as amended, at a response with status 404 whose error field, read from
    the errorCode of the body, names the type of the device in its details. *)
Lemma device_of_the_type_not_found :
  includes "Sensor" "entity of type Sensor not found" = true
  /\ forall (JSON_parse : string -> option value)
       (operationName : string) (entityName : value) (token : value) (opts : options)
       (active : bool),
      generateNGSILDOperationHandler (fun body => get body "errorCode")
        JSON_parse operationName entityName sensor token opts
        (answer 404 errorCode_not_found) active
      = (active, Failure (DeviceNotFound entityName)).
Proof.
  split; [reflexivity|].
  intros JSON_parse operationName entityName token opts active.
  exact (not_found_is_classified (fun body => get body "errorCode")
           JSON_parse operationName entityName sensor token opts
           (answer 404 errorCode_not_found) active
           (details := "entity of type Sensor not found")
           eq_refl eq_refl eq_refl eq_refl eq_refl).
Defined.

(** C6: the claim fails at a multilinestring whose value "1,2,3" flattens to
    three coordinates: the value is passed through, the update does not fail
    and the payload is sent to the broker, which accepts it. *)
Lemma odd_multilinestring_is_sent :
  (forall Number_toString : number -> string,
      splitLngLat Number_toString (a_value (route "multilinestring"))
      = Ok [VNum (Finite 1 0); VNum (Finite 2 0); VNum (Finite 3 0)])
  /\ (forall (Number_toString : number -> string) (isFloat moment_isValid : value -> bool)
        (moment_toISOString moment_format_DATE moment_format_TIME_SECONDS : value -> value)
        (ATTRIBUTE_DEFAULT DATETIME_DEFAULT : string)
        (getErrorField : value -> value) (JSON_parse : string -> option value)
        (config_timestamp : value) (isTimestampedNgsi2 IsValidTimestampedNgsi2 : payload -> bool)
        (addTimestamp_array : list entity -> value -> list entity)
        (addTimestamp_object : entity -> value -> entity),
         update_callback Number_toString isFloat moment_isValid moment_toISOString
           moment_format_DATE moment_format_TIME_SECONDS ATTRIBUTE_DEFAULT DATETIME_DEFAULT
           core_context broker_accepting getErrorField JSON_parse config_timestamp
           isTimestampedNgsi2 IsValidTimestampedNgsi2 addTimestamp_array addTimestamp_object
           "s1" sensor "Sensor" (VStr "token") to_orion
           (sensor_with "route" (route "multilinestring")) None None
           {| alarm := false; wire := []; broker := 0 |}
         = ({| alarm := false;
               wire :=
                 [Sent {| o_url := "http://orion:1026/ngsi-ld/v1/entities/urn:ngsi-ld:Sensor:s1/attrs";
                          o_method := "PATCH";
                          o_headers := o_headers to_orion;
                          o_json :=
                            VObj [("@context", VArr [VStr core_context]);
                                  ("route",
                                   VObj [("type", VStr "GeoProperty");
                                         ("value",
                                          VObj [("type", VStr "MultiLineString");
                                                ("coordinates", VStr "1,2,3")])])] |};
                  Received (answer 204 VUndefined)];
               broker := 1 |},
            Returned None VUndefined)).
Proof. split; intros; reflexivity. Qed.

(** C6, as amended, at a linestring whose value "1,2,3" flattens to three
    coordinates. *)
Lemma odd_linestring_is_refused :
  length (flatten [VNum (Finite 1 0); VNum (Finite 2 0); VNum (Finite 3 0)]) mod 2 = 1
  /\ forall (Number_toString : number -> string) (isFloat moment_isValid : value -> bool)
       (moment_toISOString moment_format_DATE moment_format_TIME_SECONDS : value -> value)
       (ATTRIBUTE_DEFAULT DATETIME_DEFAULT : string)
       (getErrorField : value -> value) (JSON_parse : string -> option value)
       (config_timestamp : value) (isTimestampedNgsi2 IsValidTimestampedNgsi2 : payload -> bool)
       (addTimestamp_array : list entity -> value -> list entity)
       (addTimestamp_object : entity -> value -> entity),
      update_callback Number_toString isFloat moment_isValid moment_toISOString
        moment_format_DATE moment_format_TIME_SECONDS ATTRIBUTE_DEFAULT DATETIME_DEFAULT
        core_context broker_accepting getErrorField JSON_parse config_timestamp
        isTimestampedNgsi2 IsValidTimestampedNgsi2 addTimestamp_array addTimestamp_object
        "s1" sensor "Sensor" (VStr "token") to_orion
        (sensor_with "route" (route "linestring")) None None
        {| alarm := false; wire := []; broker := 0 |}
      = ({| alarm := false; wire := []; broker := 0 |},
         Returned (Some BadGeocoordinates) VUndefined).
Proof.
  split; [reflexivity|]. intros.
  apply odd_coordinates_fail_the_update
    with (json := SingleEntity (without_id_type (sensor_with "route" (route "linestring"))))
         (key := "route") (attr := route "linestring") (declared := "linestring")
         (split0 := [VNum (Finite 1 0); VNum (Finite 2 0); VNum (Finite 3 0)]).
  - reflexivity.
  - simpl. auto.
  - unfold reserved_keys. simpl. intros [H|[H|[H|[H|[]]]]]; discriminate H.
  - reflexivity.
  - simpl. auto 10.
  - reflexivity.
  - reflexivity.
Defined.

(** C8: the claim fails at an attribute whose metadata holds, after the
    timestamp, an entry that is itself called observedAt.  The timestamp is
    the sentinel default, so the claim gives observedAt the fixed default
    string; the conversion gives it the converted later entry. *)
Lemma later_observedAt_entry_wins :
  (forall (Number_toString : number -> string) (isFloat moment_isValid : value -> bool)
     (moment_toISOString moment_format_DATE moment_format_TIME_SECONDS : value -> value)
     (ATTRIBUTE_DEFAULT DATETIME_DEFAULT : string),
      convertNGSIv2ToLD Number_toString isFloat moment_isValid moment_toISOString
        moment_format_DATE moment_format_TIME_SECONDS ATTRIBUTE_DEFAULT DATETIME_DEFAULT
        (measure_at_with_observedAt ATTRIBUTE_DEFAULT)
      = Ok [("type", VStr "Property");
            ("value", VNum (Finite 215 (-1)));
            ("observedAt",
             VObj [("type", VStr "Property");
                   ("value", VObj [("@type", VStr "Text"); ("@value", VStr "noon")])])])
  /\ (forall DATETIME_DEFAULT : string,
         VObj [("type", VStr "Property");
               ("value", VObj [("@type", VStr "Text"); ("@value", VStr "noon")])]
         <> VStr DATETIME_DEFAULT).
Proof.
  split; [|discriminate]. intros.
  unfold measure_at_with_observedAt. simpl.
  unfold convert_metadata_entry. simpl. unfold strict_equals_string.
  rewrite String.eqb_refl. reflexivity.
Qed.

(** C8, as amended, at a measure with one timestamp entry. *)
Lemma timestamp_becomes_observedAt :
  lookup TIMESTAMP_ATTRIBUTE
    [("TimeInstant", plain "DateTime" (VStr "2020-05-06T07:08:09.000Z"))]
  = Some (plain "DateTime" (VStr "2020-05-06T07:08:09.000Z"))
  /\ forall (Number_toString : number -> string) (isFloat moment_isValid : value -> bool)
       (moment_toISOString moment_format_DATE moment_format_TIME_SECONDS : value -> value)
       (ATTRIBUTE_DEFAULT DATETIME_DEFAULT : string) (obj : object),
      convertNGSIv2ToLD Number_toString isFloat moment_isValid moment_toISOString
        moment_format_DATE moment_format_TIME_SECONDS ATTRIBUTE_DEFAULT DATETIME_DEFAULT
        (measure_at "2020-05-06T07:08:09.000Z") = Ok obj ->
      lookup "observedAt" obj
      = Some (observedAt_of moment_isValid moment_toISOString ATTRIBUTE_DEFAULT
                DATETIME_DEFAULT (VStr "2020-05-06T07:08:09.000Z")).
Proof.
  split; [reflexivity|].
  intros Number_toString isFloat moment_isValid moment_toISOString moment_format_DATE
    moment_format_TIME_SECONDS ATTRIBUTE_DEFAULT DATETIME_DEFAULT obj Hobj.
  assert (Hnodup : NoDup (keys [("TimeInstant",
                                 plain "DateTime" (VStr "2020-05-06T07:08:09.000Z"))])).
  { simpl. constructor; [intros []|constructor]. }
  assert (Hnone : ~ In "observedAt"
                      (keys [("TimeInstant",
                              plain "DateTime" (VStr "2020-05-06T07:08:09.000Z"))])).
  { simpl. intros [H|[]]. discriminate H. }
  exact (proj1 (proj2 (proj2 (proj2
           (timestamp_metadata_sets_observedAt Number_toString isFloat moment_isValid
              moment_toISOString moment_format_DATE moment_format_TIME_SECONDS
              ATTRIBUTE_DEFAULT DATETIME_DEFAULT core_context
              (measure_at "2020-05-06T07:08:09.000Z")
              eq_refl Hnodup eq_refl Hnone)))) obj Hobj).
Defined.

(** The envelope of the device s1 of type Sensor with the measure t of type
    float and value "21.5". *)
Example envelope_of_a_float_measure :
  forall (Number_toString : number -> string) (isFloat moment_isValid : value -> bool)
    (moment_toISOString moment_format_DATE moment_format_TIME_SECONDS : value -> value)
    (ATTRIBUTE_DEFAULT DATETIME_DEFAULT : string),
    formatAsNGSILD Number_toString isFloat moment_isValid moment_toISOString
      moment_format_DATE moment_format_TIME_SECONDS ATTRIBUTE_DEFAULT DATETIME_DEFAULT
      core_context (sensor_with "t" (plain "float" (VStr "21.5")))
    = Ok [("@context", VArr [VStr core_context]);
          ("id", VStr "urn:ngsi-ld:Sensor:s1");
          ("type", VStr "Sensor");
          ("t", VObj [("type", VStr "Property"); ("value", VNum (Finite 215 (-1)))])].
Proof. intros. reflexivity. Qed.

(** The keys of a concrete object are distinct. *)
Ltac distinct_keys :=
  repeat (constructor; [simpl; intuition discriminate|]); constructor.

(** X1 at a line of two positions given as "1,2,3,4": four coordinates, sent
    as two pairs in the order of the input. *)
Lemma two_positions_keep_their_order :
  (forall Number_toString : number -> string,
      getLngLats Number_toString (VStr "1,2,3,4")
      = Ok (VArr [VArr [VNum (Finite 1 0); VNum (Finite 2 0)];
                  VArr [VNum (Finite 3 0); VNum (Finite 4 0)]]))
  /\ exists l,
       VArr [VArr [VNum (Finite 1 0); VNum (Finite 2 0)];
             VArr [VNum (Finite 3 0); VNum (Finite 4 0)]] = VArr l
       /\ flatten l
          = flatten [VNum (Finite 1 0); VNum (Finite 2 0); VNum (Finite 3 0); VNum (Finite 4 0)]
       /\ (length (flatten [VNum (Finite 1 0); VNum (Finite 2 0); VNum (Finite 3 0);
                            VNum (Finite 4 0)]) = 2 ->
           l = flatten [VNum (Finite 1 0); VNum (Finite 2 0); VNum (Finite 3 0);
                        VNum (Finite 4 0)])
       /\ (length (flatten [VNum (Finite 1 0); VNum (Finite 2 0); VNum (Finite 3 0);
                            VNum (Finite 4 0)]) <> 2 ->
           Forall (fun p => is_pair p = true) l
           /\ 2 * length l
              = length (flatten [VNum (Finite 1 0); VNum (Finite 2 0); VNum (Finite 3 0);
                                 VNum (Finite 4 0)])).
Proof.
  split; [intros; reflexivity|].
  exact (getLngLats_keeps_every_coordinate (fun _ => "") (VStr "1,2,3,4") eq_refl eq_refl).
Defined.

(** X2 at an array with a text that is not a number: the coordinate is NaN,
    a Number still. *)
Lemma text_becomes_a_NaN_coordinate :
  (forall Number_toString : number -> string,
      getLngLats Number_toString (VArr [VStr "north"; VStr "2"])
      = Ok (VArr [VNum NaN; VNum (Finite 2 0)]))
  /\ Forall (fun x => is_number x = true) (flatten_value (VArr [VNum NaN; VNum (Finite 2 0)])).
Proof.
  split; [intros; reflexivity|].
  exact (getLngLats_coordinates_are_numbers (fun _ => "") (VArr [VStr "north"; VStr "2"])
           eq_refl).
Defined.

(** X6 at a position declared Geo:Point. *)
Lemma Geo_Point_is_geo_point :
  member (toLowerCase "Geo:Point") recognized_types = true
  /\ forall (Number_toString : number -> string) (isFloat moment_isValid : value -> bool)
       (moment_toISOString moment_format_DATE moment_format_TIME_SECONDS : value -> value)
       (ATTRIBUTE_DEFAULT DATETIME_DEFAULT : string),
      convertNGSIv2ToLD Number_toString isFloat moment_isValid moment_toISOString
        moment_format_DATE moment_format_TIME_SECONDS ATTRIBUTE_DEFAULT DATETIME_DEFAULT
        (plain "Geo:Point" (VStr "40.4,-3.7"))
      = convertNGSIv2ToLD Number_toString isFloat moment_isValid moment_toISOString
          moment_format_DATE moment_format_TIME_SECONDS ATTRIBUTE_DEFAULT DATETIME_DEFAULT
          (with_type (plain "Geo:Point" (VStr "40.4,-3.7")) (toLowerCase "Geo:Point")).
Proof.
  split; [reflexivity|].
  intros Number_toString isFloat moment_isValid moment_toISOString moment_format_DATE
    moment_format_TIME_SECONDS ATTRIBUTE_DEFAULT DATETIME_DEFAULT.
  exact (recognized_types_ignore_case Number_toString isFloat moment_isValid
           moment_toISOString moment_format_DATE moment_format_TIME_SECONDS
           ATTRIBUTE_DEFAULT DATETIME_DEFAULT (plain "Geo:Point" (VStr "40.4,-3.7"))
           eq_refl eq_refl).
Defined.

(** X7 at the position "40.4,-3.7" declared geo:point. *)
Lemma position_is_a_GeoProperty :
  (forall (Number_toString : number -> string) (isFloat moment_isValid : value -> bool)
     (moment_toISOString moment_format_DATE moment_format_TIME_SECONDS : value -> value)
     (ATTRIBUTE_DEFAULT DATETIME_DEFAULT : string),
      convertNGSIv2ToLD Number_toString isFloat moment_isValid moment_toISOString
        moment_format_DATE moment_format_TIME_SECONDS ATTRIBUTE_DEFAULT DATETIME_DEFAULT
        position_lat_lng
      = Ok [("type", VStr "GeoProperty"); ("value", point_40_4)])
  /\ lookup "type" [("type", VStr "GeoProperty"); ("value", point_40_4)]
     = Some (VStr "GeoProperty").
Proof.
  split; [intros; reflexivity|].
  apply (converted_attribute_kind (fun _ => "") (fun _ => true) (fun _ => true)
           (fun v => v) (fun v => v) (fun v => v) "" "" position_lat_lng
           (type := "geo:point") eq_refl eq_refl).
  intros metadata Hmetadata. discriminate Hmetadata.
Defined.

(** X8 at a link to a person. *)
Lemma owner_has_an_object_and_no_value :
  (forall (Number_toString : number -> string) (isFloat moment_isValid : value -> bool)
     (moment_toISOString moment_format_DATE moment_format_TIME_SECONDS : value -> value)
     (ATTRIBUTE_DEFAULT DATETIME_DEFAULT : string),
      convertNGSIv2ToLD Number_toString isFloat moment_isValid moment_toISOString
        moment_format_DATE moment_format_TIME_SECONDS ATTRIBUTE_DEFAULT DATETIME_DEFAULT
        owner
      = Ok [("type", VStr "Relationship"); ("object", VStr "urn:ngsi-ld:Person:p1")])
  /\ lookup "object" [("type", VStr "Relationship"); ("object", VStr "urn:ngsi-ld:Person:p1")]
     = Some (a_value owner)
  /\ lookup "value" [("type", VStr "Relationship"); ("object", VStr "urn:ngsi-ld:Person:p1")]
     = None.
Proof.
  split; [intros; reflexivity|].
  apply (relationship_has_an_object_and_no_value (fun _ => "") (fun _ => true)
           (fun _ => true) (fun v => v) (fun v => v) (fun v => v) "" "" owner
           (type := "Relationship") eq_refl eq_refl eq_refl).
  intros metadata Hmetadata. discriminate Hmetadata.
Defined.

(** X9 at a measure in degrees Celsius: the unit entry, which declares no
    type, is copied as it is. *)
Lemma unit_of_the_measure_is_promoted :
  NoDup (keys [("unitCode", Attribute None (VStr "CEL") None None None);
               ("accuracy", plain "Float" (VStr "0.5"))])
  /\ (forall (Number_toString : number -> string) (isFloat moment_isValid : value -> bool)
        (moment_toISOString moment_format_DATE moment_format_TIME_SECONDS : value -> value)
        (ATTRIBUTE_DEFAULT DATETIME_DEFAULT : string),
         convertNGSIv2ToLD Number_toString isFloat moment_isValid moment_toISOString
           moment_format_DATE moment_format_TIME_SECONDS ATTRIBUTE_DEFAULT DATETIME_DEFAULT
           celsius_measure
         = Ok [("type", VStr "Property"); ("value", VNum (Finite 215 (-1)));
               ("unitCode", VStr "CEL");
               ("accuracy",
                VObj [("type", VStr "Property"); ("value", VNum (Finite 5 (-1)))])])
  /\ lookup "unitCode"
       [("type", VStr "Property"); ("value", VNum (Finite 215 (-1)));
        ("unitCode", VStr "CEL");
        ("accuracy", VObj [("type", VStr "Property"); ("value", VNum (Finite 5 (-1)))])]
     = Some (VStr "CEL").
Proof.
  assert (Hkeys : NoDup (keys [("unitCode", Attribute None (VStr "CEL") None None None);
                               ("accuracy", plain "Float" (VStr "0.5"))])).
  { distinct_keys. }
  split; [exact Hkeys|]. split; [intros; reflexivity|].
  exact (unitCode_is_promoted (fun _ => "") (fun _ => true) (fun _ => true)
           (fun v => v) (fun v => v) (fun v => v) "" "" celsius_measure
           (Attribute None (VStr "CEL") None None None)
           eq_refl Hkeys (or_introl eq_refl) eq_refl).
Defined.


(** X11 at the same measure and its key unitCode. *)
Lemma keys_of_the_converted_measure :
  In "unitCode"
    (keys [("type", VStr "Property"); ("value", VNum (Finite 215 (-1)));
           ("unitCode", VStr "CEL");
           ("accuracy", VObj [("type", VStr "Property"); ("value", VNum (Finite 5 (-1)))])])
  /\ "unitCode" <> TIMESTAMP_ATTRIBUTE
  /\ (In "unitCode" ["type"; "value"; "object"]
      \/ exists metadata,
           a_metadata celsius_measure = Some metadata
           /\ In "unitCode" (map written_key (keys metadata))).
Proof.
  assert (Hin : In "unitCode"
                  (keys [("type", VStr "Property"); ("value", VNum (Finite 215 (-1)));
                         ("unitCode", VStr "CEL");
                         ("accuracy",
                          VObj [("type", VStr "Property"); ("value", VNum (Finite 5 (-1)))])])).
  { simpl. auto. }
  split; [exact Hin|].
  exact (converted_attribute_keys (fun _ => "") (fun _ => true) (fun _ => true)
           (fun v => v) (fun v => v) (fun v => v) "" "" celsius_measure "unitCode"
           eq_refl Hin).
Defined.

(** X12 at a sensor whose id is not a URN: the envelope's id is the URN made
    of the type and the id. *)
Lemma id_of_the_sensor_becomes_a_urn :
  NoDup (keys (sensor_with "temperature" (plain "Float" (VStr "21.5"))))
  /\ (forall (Number_toString : number -> string) (isFloat moment_isValid : value -> bool)
        (moment_toISOString moment_format_DATE moment_format_TIME_SECONDS : value -> value)
        (ATTRIBUTE_DEFAULT DATETIME_DEFAULT jsonLdContext : string),
         formatAsNGSILD Number_toString isFloat moment_isValid moment_toISOString
           moment_format_DATE moment_format_TIME_SECONDS ATTRIBUTE_DEFAULT DATETIME_DEFAULT
           jsonLdContext (sensor_with "temperature" (plain "Float" (VStr "21.5")))
         = Ok [("@context", VArr (map VStr (split ";" jsonLdContext)));
               ("id", VStr "urn:ngsi-ld:Sensor:s1");
               ("type", VStr "Sensor");
               ("temperature",
                VObj [("type", VStr "Property"); ("value", VNum (Finite 215 (-1)))])])
  /\ forall jsonLdContext : string,
       exists urn,
         lookup "id"
           [("@context", VArr (map VStr (split ";" jsonLdContext)));
            ("id", VStr "urn:ngsi-ld:Sensor:s1");
            ("type", VStr "Sensor");
            ("temperature",
             VObj [("type", VStr "Property"); ("value", VNum (Finite 215 (-1)))])]
         = Some (VStr urn)
         /\ startsWith NGSI_LD_URN urn = true
         /\ urn = "urn:ngsi-ld:Sensor:s1".
Proof.
  assert (Hkeys : NoDup (keys (sensor_with "temperature" (plain "Float" (VStr "21.5"))))).
  { distinct_keys. }
  split; [exact Hkeys|]. split; [intros; reflexivity|]. intros jsonLdContext.
  exact (envelope_id_is_a_urn (fun _ => "") (fun _ => true) (fun _ => true)
           (fun v => v) (fun v => v) (fun v => v) "" "" jsonLdContext
           (sensor_with "temperature" (plain "Float" (VStr "21.5"))) "s1"
           Hkeys (or_introl eq_refl) eq_refl).
Defined.

(** X13 at a sensor that carries a context of its own: the envelope has the
    configured one. *)
Lemma context_of_the_payload_is_ignored :
  (forall (Number_toString : number -> string) (isFloat moment_isValid : value -> bool)
     (moment_toISOString moment_format_DATE moment_format_TIME_SECONDS : value -> value)
     (ATTRIBUTE_DEFAULT DATETIME_DEFAULT : string),
      formatAsNGSILD Number_toString isFloat moment_isValid moment_toISOString
        moment_format_DATE moment_format_TIME_SECONDS ATTRIBUTE_DEFAULT DATETIME_DEFAULT
        core_context (sensor_with "@context" (plain "Text" (VStr "http://example.org/ctx")))
      = Ok [("@context", VArr [VStr core_context]);
            ("id", VStr "urn:ngsi-ld:Sensor:s1");
            ("type", VStr "Sensor")])
  /\ lookup "@context"
       [("@context", VArr [VStr core_context]);
        ("id", VStr "urn:ngsi-ld:Sensor:s1");
        ("type", VStr "Sensor")]
     = Some (VArr (map VStr (split ";" core_context))).
Proof.
  split; [intros; reflexivity|].
  exact (envelope_context_comes_from_the_configuration (fun _ => "") (fun _ => true)
           (fun _ => true) (fun v => v) (fun v => v) (fun v => v) "" "" core_context
           (sensor_with "@context" (plain "Text" (VStr "http://example.org/ctx")))
           eq_refl).
Defined.



(** X17 at an update answered 204. *)
Lemma accepted_update_is_a_success :
  (forall (getErrorField : value -> value) (JSON_parse : string -> option value),
      snd (generateNGSILDOperationHandler getErrorField JSON_parse "update" (VStr "s1")
             sensor (VStr "token") to_orion (answer 204 VUndefined) true)
      = Success VUndefined)
  /\ r_error (answer 204 VUndefined) = None
  /\ has_orionError (r_body (answer 204 VUndefined)) = false
  /\ VUndefined = r_body (answer 204 VUndefined)
  /\ (("update" = "update" /\ status_is (r_response (answer 204 VUndefined)) 204 = true)
      \/ ("update" = "query"
          /\ status_is (r_response (answer 204 VUndefined)) 200 = true
          /\ r_body (answer 204 VUndefined) <> VUndefined)).
Proof.
  split; [intros; reflexivity|].
  exact (success_is_a_204_update_or_a_200_query (fun v => v) (fun _ => None) "update"
           (VStr "s1") sensor (VStr "token") to_orion (answer 204 VUndefined) true
           (body := VUndefined) eq_refl).
Defined.

(** X18 at a query answered 500 with an error document while the alarm is
    off: the alarm stays off. *)
Lemma failed_query_leaves_the_alarm_off :
  r_error (answer 500 (VObj [("title", VStr "Internal error")])) = None
  /\ forall (getErrorField : value -> value) (JSON_parse : string -> option value),
      fst (generateNGSILDOperationHandler getErrorField JSON_parse "query" (VStr "s1")
             sensor (VStr "token") to_orion
             (answer 500 (VObj [("title", VStr "Internal error")])) false)
      = match snd (generateNGSILDOperationHandler getErrorField JSON_parse "query"
                     (VStr "s1") sensor (VStr "token") to_orion
                     (answer 500 (VObj [("title", VStr "Internal error")])) false) with
        | Success _ => false
        | Failure _ | Uncaught _ => false
        end.
Proof.
  split; [reflexivity|]. intros getErrorField JSON_parse.
  exact (answered_request_never_raises_the_alarm getErrorField JSON_parse "query" (VStr "s1")
           sensor (VStr "token") to_orion
           (answer 500 (VObj [("title", VStr "Internal error")])) false eq_refl).
Defined.

(** X19 at an update answered 401. *)
Lemma update_without_credentials_is_forbidden :
  r_error (answer 401 VUndefined) = None
  /\ has_orionError (r_body (answer 401 VUndefined)) = false
  /\ status_is (r_response (answer 401 VUndefined)) 401 = true
  /\ forall (getErrorField : value -> value) (JSON_parse : string -> option value),
      generateNGSILDOperationHandler getErrorField JSON_parse "update" (VStr "s1") sensor
        (VStr "token") to_orion (answer 401 VUndefined) false
      = (false,
         Failure (AccessForbidden (VStr "token") (VStr "smartcity") (VStr "/park"))).
Proof.
  split; [reflexivity|]. split; [reflexivity|]. split; [reflexivity|].
  intros getErrorField JSON_parse.
  exact (unauthorized_is_access_forbidden getErrorField JSON_parse "update" (VStr "s1")
           sensor (VStr "token") to_orion (answer 401 VUndefined) false
           eq_refl eq_refl (or_introl eq_refl)).
Defined.

(** X20 at an update answered 200 with a document: not the 204 of an accepted
    update, so an error. *)
Lemma update_answered_200_is_an_error :
  is_object (r_body (answer 200 (VObj [("updated", VBool true)]))) = true
  /\ ~ In 200%Z [401%Z; 403%Z; 404%Z]
  /\ forall (getErrorField : value -> value) (JSON_parse : string -> option value),
      generateNGSILDOperationHandler getErrorField JSON_parse "update" (VStr "s1") sensor
        (VStr "token") to_orion (answer 200 (VObj [("updated", VBool true)])) false
      = (false,
         Failure (EntityGenericError (VStr "s1") (Some "Sensor")
                    (VObj [("updated", VBool true)]) (Some 200%Z))).
Proof.
  assert (Hstatus : ~ In 200%Z [401%Z; 403%Z; 404%Z]).
  { simpl. intuition discriminate. }
  split; [reflexivity|]. split; [exact Hstatus|]. intros getErrorField JSON_parse.
  apply (other_status_is_a_generic_error getErrorField JSON_parse (operationName := "update")
           (VStr "s1") sensor (VStr "token") to_orion
           (answer 200 (VObj [("updated", VBool true)])) false
           (resp := {| statusCode := 200 |}) eq_refl eq_refl eq_refl eq_refl Hstatus).
  - intros _. discriminate.
  - intros Hquery. discriminate Hquery.
Defined.

(** X23 at one sensor and a broker that accepts every update, the alarm being
    raised before the call. *)
Lemma accepted_sensor_releases_the_alarm :
  (forall (Number_toString : number -> string) (getErrorField : value -> value)
     (JSON_parse : string -> option value),
      forEachSeries Number_toString broker_accepting getErrorField JSON_parse
        sensor (VStr "token") to_orion (o_url to_orion) [encoded_sensor "s1"]
        {| alarm := true; wire := []; broker := 0 |}
      = ({| alarm := false;
            wire := [Sent (request_of_sensor "s1"); Received (answer 204 VUndefined)];
            broker := 1 |},
         Returned None VUndefined))
  /\ forall Number_toString : number -> string,
       alarm {| alarm := false;
                wire := [Sent (request_of_sensor "s1"); Received (answer 204 VUndefined)];
                broker := 1 |}
       = match requests_for Number_toString to_orion (o_url to_orion) [encoded_sensor "s1"] with
         | [] => true
         | _ :: _ => false
         end.
Proof.
  split; [intros; reflexivity|]. intros Number_toString.
  exact (successful_series_releases_the_alarm Number_toString broker_accepting
           (fun v => v) (fun _ => None) sensor (VStr "token") to_orion (o_url to_orion)
           [encoded_sensor "s1"] {| alarm := true; wire := []; broker := 0 |}
           (data := VUndefined) eq_refl).
Defined.

(** X24 at an update whose only attribute is a line of three coordinates,
    with no metadata, no cast and no middleware result: the update ends with
    BadGeocoordinates and the state is the one before the call. *)
Lemma refused_route_leaves_the_state :
  reported_before_sending BadGeocoordinates = true
  /\ (forall (Number_toString : number -> string) (isFloat moment_isValid : value -> bool)
        (moment_toISOString moment_format_DATE moment_format_TIME_SECONDS : value -> value)
        (ATTRIBUTE_DEFAULT DATETIME_DEFAULT jsonLdContext : string)
        (request : options -> nat -> reply * nat) (getErrorField : value -> value)
        (JSON_parse : string -> option value)
        (createRequestObject : string -> option type_information -> value -> options)
        (config_timestamp : value) (isTimestampedNgsi2 IsValidTimestampedNgsi2 : payload -> bool)
        (addTimestamp_array : list entity -> value -> list entity)
        (addTimestamp_object : entity -> value -> entity),
         sendUpdateValueNgsiLD Number_toString isFloat moment_isValid moment_toISOString
           moment_format_DATE moment_format_TIME_SECONDS ATTRIBUTE_DEFAULT DATETIME_DEFAULT
           jsonLdContext request getErrorField JSON_parse createRequestObject
           (fun _ _ _ => None) (fun payload0 => payload0) None
           (fun payload0 _ => (None, None, payload0))
           config_timestamp isTimestampedNgsi2 IsValidTimestampedNgsi2 addTimestamp_array
           addTimestamp_object "s1" [measured "route" "geo:linestring" (VStr "1,2,3")]
           (Some sensor) (VStr "token") {| alarm := true; wire := []; broker := 0 |}
         = ({| alarm := true; wire := []; broker := 0 |},
            Returned (Some BadGeocoordinates) VUndefined))
  /\ forall (Number_toString : number -> string) (isFloat moment_isValid : value -> bool)
       (moment_toISOString moment_format_DATE moment_format_TIME_SECONDS : value -> value)
       (ATTRIBUTE_DEFAULT DATETIME_DEFAULT jsonLdContext : string)
       (request : options -> nat -> reply * nat) (getErrorField : value -> value)
       (JSON_parse : string -> option value)
       (createRequestObject : string -> option type_information -> value -> options)
       (config_timestamp : value) (isTimestampedNgsi2 IsValidTimestampedNgsi2 : payload -> bool)
       (addTimestamp_array : list entity -> value -> list entity)
       (addTimestamp_object : entity -> value -> entity) (st' : state nat) (data : value),
      sendUpdateValueNgsiLD Number_toString isFloat moment_isValid moment_toISOString
        moment_format_DATE moment_format_TIME_SECONDS ATTRIBUTE_DEFAULT DATETIME_DEFAULT
        jsonLdContext request getErrorField JSON_parse createRequestObject
        (fun _ _ _ => None) (fun payload0 => payload0) None
        (fun payload0 _ => (None, None, payload0))
        config_timestamp isTimestampedNgsi2 IsValidTimestampedNgsi2 addTimestamp_array
        addTimestamp_object "s1" [measured "route" "geo:linestring" (VStr "1,2,3")]
        (Some sensor) (VStr "token") {| alarm := true; wire := []; broker := 0 |}
      = (st', Returned (Some BadGeocoordinates) data) ->
      st' = {| alarm := true; wire := []; broker := 0 |}.
Proof.
  split; [reflexivity|]. split; [intros; reflexivity|].
  intros Number_toString isFloat moment_isValid moment_toISOString moment_format_DATE
    moment_format_TIME_SECONDS ATTRIBUTE_DEFAULT DATETIME_DEFAULT jsonLdContext request
    getErrorField JSON_parse createRequestObject config_timestamp isTimestampedNgsi2
    IsValidTimestampedNgsi2 addTimestamp_array addTimestamp_object st' data Hupdate.
  exact (errors_of_the_update_itself_leave_the_state Number_toString isFloat moment_isValid
           moment_toISOString moment_format_DATE moment_format_TIME_SECONDS
           ATTRIBUTE_DEFAULT DATETIME_DEFAULT jsonLdContext request getErrorField JSON_parse
           createRequestObject (fun _ _ _ => None) (fun payload0 => payload0) None
           (fun payload0 _ => (None, None, payload0))
           config_timestamp isTimestampedNgsi2 IsValidTimestampedNgsi2 addTimestamp_array
           addTimestamp_object "s1" [measured "route" "geo:linestring" (VStr "1,2,3")]
           (Some sensor) (VStr "token") {| alarm := true; wire := []; broker := 0 |}
           Hupdate eq_refl).
Defined.

(** X26 at an update of a temperature and of a humidity that has no type. *)
Lemma untyped_humidity_refuses_the_update :
  nonempty (ti_type sensor) <> None
  /\ nonempty (u_type (untyped "humidity" (VStr "40"))) = None
  /\ forall (Number_toString : number -> string) (isFloat moment_isValid : value -> bool)
       (moment_toISOString moment_format_DATE moment_format_TIME_SECONDS : value -> value)
       (ATTRIBUTE_DEFAULT DATETIME_DEFAULT jsonLdContext : string)
       (request : options -> nat -> reply * nat) (getErrorField : value -> value)
       (JSON_parse : string -> option value)
       (createRequestObject : string -> option type_information -> value -> options)
       (getMetaData : type_information -> string -> value -> option (list (string * attribute)))
       (castJsonNativeAttributes : entity -> entity) (statsService_add : option value)
       (updateMiddleware : entity -> type_information -> option value * option payload * entity)
       (config_timestamp : value) (isTimestampedNgsi2 IsValidTimestampedNgsi2 : payload -> bool)
       (addTimestamp_array : list entity -> value -> list entity)
       (addTimestamp_object : entity -> value -> entity),
      sendUpdateValueNgsiLD Number_toString isFloat moment_isValid moment_toISOString
        moment_format_DATE moment_format_TIME_SECONDS ATTRIBUTE_DEFAULT DATETIME_DEFAULT
        jsonLdContext request getErrorField JSON_parse createRequestObject getMetaData
        castJsonNativeAttributes statsService_add updateMiddleware config_timestamp
        isTimestampedNgsi2 IsValidTimestampedNgsi2 addTimestamp_array addTimestamp_object
        "s1" [measured "temperature" "Float" (VStr "21.5"); untyped "humidity" (VStr "40")]
        (Some sensor) (VStr "token") {| alarm := false; wire := []; broker := 0 |}
      = ({| alarm := false; wire := []; broker := 0 |},
         Returned (Some (BadRequest VNull (VStr "s1"))) VUndefined).
Proof.
  assert (Htype : nonempty (ti_type sensor) <> None) by discriminate.
  split; [exact Htype|]. split; [reflexivity|].
  intros Number_toString isFloat moment_isValid moment_toISOString moment_format_DATE
    moment_format_TIME_SECONDS ATTRIBUTE_DEFAULT DATETIME_DEFAULT jsonLdContext request
    getErrorField JSON_parse createRequestObject getMetaData castJsonNativeAttributes
    statsService_add updateMiddleware config_timestamp isTimestampedNgsi2
    IsValidTimestampedNgsi2 addTimestamp_array addTimestamp_object.
  exact (attribute_without_name_or_type_refuses_the_update Number_toString isFloat
           moment_isValid moment_toISOString moment_format_DATE moment_format_TIME_SECONDS
           ATTRIBUTE_DEFAULT DATETIME_DEFAULT jsonLdContext request getErrorField JSON_parse
           createRequestObject getMetaData castJsonNativeAttributes statsService_add
           updateMiddleware config_timestamp isTimestampedNgsi2 IsValidTimestampedNgsi2
           addTimestamp_array addTimestamp_object "s1"
           [measured "temperature" "Float" (VStr "21.5"); untyped "humidity" (VStr "40")]
           sensor (VStr "token") {| alarm := false; wire := []; broker := 0 |}
           (untyped "humidity" (VStr "40"))
           Htype (or_intror (or_introl eq_refl)) (or_intror eq_refl)).
Defined.


(** X28 at the temperature that carries an object_id, in an array of one
    entity. *)
Lemma purged_temperature_is_sent_the_same :
  (forall a, ~ carries (Entities [sensor_with "temperature" temperature_with_object_id])
                 "type" a)
  /\ forall (Number_toString : number -> string) (isFloat moment_isValid : value -> bool)
       (moment_toISOString moment_format_DATE moment_format_TIME_SECONDS : value -> value)
       (ATTRIBUTE_DEFAULT DATETIME_DEFAULT jsonLdContext : string),
      encode Number_toString isFloat moment_isValid moment_toISOString moment_format_DATE
        moment_format_TIME_SECONDS ATTRIBUTE_DEFAULT DATETIME_DEFAULT jsonLdContext
        (purge (Entities [sensor_with "temperature" temperature_with_object_id]))
        "s1" "Sensor"
      = encode Number_toString isFloat moment_isValid moment_toISOString moment_format_DATE
          moment_format_TIME_SECONDS ATTRIBUTE_DEFAULT DATETIME_DEFAULT jsonLdContext
          (Entities [sensor_with "temperature" temperature_with_object_id])
          "s1" "Sensor".
Proof.
  assert (Htype : forall a,
             ~ carries (Entities [sensor_with "temperature" temperature_with_object_id])
                 "type" a).
  { intros a [e [[<-|[]] Hin]]. simpl in Hin. intuition discriminate. }
  split; [exact Htype|].
  intros Number_toString isFloat moment_isValid moment_toISOString moment_format_DATE
    moment_format_TIME_SECONDS ATTRIBUTE_DEFAULT DATETIME_DEFAULT jsonLdContext.
  exact (purge_does_not_change_what_is_sent Number_toString isFloat moment_isValid
           moment_toISOString moment_format_DATE moment_format_TIME_SECONDS
           ATTRIBUTE_DEFAULT DATETIME_DEFAULT jsonLdContext
           (Entities [sensor_with "temperature" temperature_with_object_id])
           "s1" "Sensor" Htype).
Defined.

(** X29 at the query of the temperature and the humidity of a sensor while
    the alarm is raised, the broker answering 200 with a document and the
    middleware chain handing the body on. *)
Lemma query_of_two_attributes :
  ti_type sensor = Some "Sensor"
  /\ "Sensor" <> ""
  /\ forall (getErrorField : value -> value) (JSON_parse : string -> option value)
       (createRequestObject : string -> option type_information -> value -> options),
      let created :=
        createRequestObject
          "/ngsi-ld/v1/entities/urn:ngsi-ld:Sensor:s1?attrs=temperature,humidity"
          (Some sensor) (VStr "token") in
      let asked :=
        {| o_url := o_url created; o_method := "GET"; o_headers := o_headers created;
           o_json := VBool true |} in
      let raised := {| alarm := true; wire := []; broker := 0 |} in
      let st' :=
        {| alarm := false; wire := [Sent asked; Received (answer 200 sensor_document)];
           broker := 1 |} in
      sendQueryValueNgsiLD (broker_holding sensor_document) getErrorField JSON_parse
        createRequestObject (fun body _ => (None, body)) "s1"
        (Some ["temperature"; "humidity"]) (Some sensor) (VStr "token") raised
      = (st', Returned None sensor_document)
      /\ exists o r,
           broker_holding sensor_document o (broker raised) = (r, broker st')
           /\ wire st' = wire raised ++ [Sent o; Received r]
           /\ o_method o = "GET"
           /\ o_json o = VBool true
           /\ o_url o = o_url created
           /\ forall data,
                Returned None sensor_document = Returned None data ->
                r_error r = None
                /\ has_orionError (r_body r) = false
                /\ status_is (r_response r) 200 = true
                /\ r_body r <> VUndefined
                /\ (@None value, r_body r) = (None, data)
                /\ alarm st' = false.
Proof.
  assert (Hnonempty : "Sensor" <> "") by discriminate.
  split; [reflexivity|]. split; [exact Hnonempty|].
  intros getErrorField JSON_parse createRequestObject created asked raised st'.
  split; [reflexivity|].
  exact (query_makes_one_GET_exchange (broker_holding sensor_document)
           getErrorField JSON_parse createRequestObject (fun body _ => (None, body))
           "s1" (Some ["temperature"; "humidity"]) sensor (type := "Sensor") (VStr "token")
           raised (st' := st') eq_refl Hnonempty eq_refl).
Defined.

(** X30 at a temperature sent for the sensor s1. *)
Lemma temperature_is_sent_for_s1 :
  NoDup (keys [("temperature", FAttribute (plain "Float" (VStr "21.5")))])
  /\ (forall (Number_toString : number -> string) (isFloat moment_isValid : value -> bool)
        (moment_toISOString moment_format_DATE moment_format_TIME_SECONDS : value -> value)
        (ATTRIBUTE_DEFAULT DATETIME_DEFAULT jsonLdContext : string),
         encode Number_toString isFloat moment_isValid moment_toISOString moment_format_DATE
           moment_format_TIME_SECONDS ATTRIBUTE_DEFAULT DATETIME_DEFAULT jsonLdContext
           (SingleEntity [("temperature", FAttribute (plain "Float" (VStr "21.5")))])
           "s1" "Sensor"
         = Ok [[("@context", VArr (map VStr (split ";" jsonLdContext)));
                ("temperature",
                 VObj [("type", VStr "Property"); ("value", VNum (Finite 215 (-1)))]);
                ("id", VStr "urn:ngsi-ld:Sensor:s1");
                ("type", VStr "Sensor")]])
  /\ forall jsonLdContext : string,
       exists o,
         [[("@context", VArr (map VStr (split ";" jsonLdContext)));
           ("temperature",
            VObj [("type", VStr "Property"); ("value", VNum (Finite 215 (-1)))]);
           ("id", VStr "urn:ngsi-ld:Sensor:s1");
           ("type", VStr "Sensor")]] = [o]
         /\ lookup "id" o = Some (VStr "urn:ngsi-ld:Sensor:s1")
         /\ lookup "type" o = Some (VStr "Sensor").
Proof.
  assert (Hkeys : NoDup (keys [("temperature", FAttribute (plain "Float" (VStr "21.5")))])).
  { distinct_keys. }
  split; [exact Hkeys|]. split; [intros; reflexivity|]. intros jsonLdContext.
  exact (single_entity_is_sent_under_the_id_of_the_call (fun _ => "") (fun _ => true)
           (fun _ => true) (fun v => v) (fun v => v) (fun v => v) "" "" jsonLdContext
           [("temperature", FAttribute (plain "Float" (VStr "21.5")))] "s1" "Sensor"
           Hkeys eq_refl).
Defined.
